(** * Smart Money (app.py): storage, aggregation and simulation

    A shallow embedding of the personal-finance tracker of [src/app.py].

    - The SQLite connection [conn] is an explicit [DB] value threaded through
      every function; a table carries its rows and its AUTOINCREMENT counter.
    - Sums, totals and cells are stated on exact rationals [Q] and compared
      with [==]: the first engine below.  Where a result depends on how a
      float is rounded (a saving rate compared with a threshold, a projected
      saving compared with 0, a quotient that overflows), module [Binary64]
      gives the same functions on IEEE 754 binary64 amounts.
    - Python's [/] is fallible: it raises on a zero divisor.  Functions that
      divide live in the [result] monad, so that "never raises" is a theorem.
    - [pd.to_datetime(..., errors='coerce')] is a parameter of the engine;
      [None] is pandas' NaT.  A parser for the strings that [to_iso] writes
      is given for the concrete scenarios. *)

From Stdlib Require Import Floats.
From Stdlib Require Uint63.
From Stdlib Require Import List String Ascii Bool Arith ZArith QArith Qminmax.
From Stdlib Require Import Qround.
From Stdlib Require Import Lia Lqa.
From Stdlib Require Import Sorting.Sorted Sorting.Permutation.
From Stdlib Require Import Structures.OrderedTypeEx.
From Stdlib Require Import Setoid Morphisms.
Import ListNotations.

Local Open Scope string_scope.
Local Open Scope Q_scope.

(** ** Python values *)

Module Py.

Inductive exn : Type := ZeroDivisionError.

Inductive result (A : Type) : Type :=
| Ok (a : A)
| Raise (e : exn).

Arguments Ok {A} a.
Arguments Raise {A} e.

Definition ret {A} (a : A) : result A := Ok a.

Definition bind {A B} (c : result A) (k : A -> result B) : result B :=
  match c with
  | Ok a => k a
  | Raise e => Raise e
  end.

Fixpoint mapM {A B} (f : A -> result B) (l : list A) : result (list B) :=
  match l with
  | [] => Ok []
  | a :: l' =>
      bind (f a) (fun b => bind (mapM f l') (fun bs => Ok (b :: bs)))
  end.

(** [x < y] on floats. *)
Definition Qltb (x y : Q) : bool := negb (Qle_bool y x).

(** [x / y]: raises [ZeroDivisionError] when [y] is zero. *)
Definition div (x y : Q) : result Q :=
  if Qeq_bool y 0 then Raise ZeroDivisionError else Ok (x / y).

(** [max(a, b)]: the first argument unless the second is strictly larger. *)
Definition max (a b : Q) : Q := if Qltb a b then b else a.

(** [min(a, b)]: the first argument unless the second is strictly smaller. *)
Definition min (a b : Q) : Q := if Qltb b a then b else a.

(** [float('inf')] next to the finite floats. *)
Inductive ext : Type :=
| Fin (q : Q)
| Inf.

End Py.

Import Py.

Notation "x <- c ;; k" := (Py.bind c (fun x => k))
  (at level 61, c at next level, right associativity).

(** ** Dates *)

(** A [date] object handed over by a date widget. *)
Record Date : Type := mkDate { d_year : nat; d_month : nat; d_day : nat }.

(** A parsed pandas [Timestamp] (the calendar part). *)
Record Timestamp : Type := mkTs { year : nat; month : nat; day : nat }.

Definition digit (n : nat) : ascii := ascii_of_nat (48 + n mod 10).

(** [%04d] and [%02d] on the ranges the calendar offers. *)
Definition fmt_04d (y : nat) : string :=
  String (digit (y / 1000)) (String (digit (y / 100))
    (String (digit (y / 10)) (String (digit y) EmptyString))).

Definition fmt_02d (m : nat) : string :=
  String (digit (m / 10)) (String (digit m) EmptyString).

(** [date.isoformat()]. *)
Definition isoformat (d : Date) : string :=
  fmt_04d (d_year d) ++ "-" ++ fmt_02d (d_month d) ++ "-" ++ fmt_02d (d_day d).

(** [.dt.strftime('%Y-%m')] on one timestamp. *)
Definition strftime_Ym (t : Timestamp) : string :=
  fmt_04d (year t) ++ "-" ++ fmt_02d (month t).

(** [.dt.to_period('M').astype(str)] on one timestamp. *)
Definition to_period_M_str (t : Timestamp) : string :=
  fmt_04d (year t) ++ "-" ++ fmt_02d (month t).

(** The argument of [to_iso]: a date object, or anything else (a string). *)
Inductive DateArg : Type :=
| PyDate (d : Date)
| PyStr (s : string).

Definition to_iso (d : DateArg) : string :=
  match d with
  | PyDate d => isoformat d
  | PyStr s => s
  end.

(** Calendar range of a nanosecond [Timestamp], and chronological order of
    month buckets. *)
Definition in_calendar (t : Timestamp) : Prop :=
  (1677 <= year t <= 2262 /\ 1 <= month t <= 12)%nat.

Definition month_before (t1 t2 : Timestamp) : Prop :=
  (year t1 < year t2 \/ (year t1 = year t2 /\ month t1 < month t2))%nat.

Definition same_month (t1 t2 : Timestamp) : Prop :=
  year t1 = year t2 /\ month t1 = month t2.

(** ** Database *)

(** A table with [id INTEGER PRIMARY KEY AUTOINCREMENT]: its rows in insertion
    order and the largest id ever handed out ([sqlite_sequence]). *)
Record Table (A : Type) : Type := mkTable {
  rows : list (Z * A);
  autoinc : Z
}.

Arguments mkTable {A} rows autoinc.
Arguments rows {A} t.
Arguments autoinc {A} t.

Module Storage.

(** [CREATE TABLE IF NOT EXISTS] on a fresh file. *)
Definition create {A} : Table A := mkTable [] 0%Z.

(** The id the next [INSERT] assigns under AUTOINCREMENT: one more than the
    largest id ever handed out and than every id now in the table. *)
Definition next_id {A} (t : Table A) : Z :=
  (Z.max (autoinc t) (fold_right Z.max 0 (map fst (rows t))) + 1)%Z.

(** [INSERT INTO t (...) VALUES (...)]. *)
Definition insert {A} (t : Table A) (a : A) : Table A :=
  let id := next_id t in
  mkTable (rows t ++ [(id, a)]) id.

(** [DELETE FROM t WHERE id=?]. *)
Definition delete {A} (t : Table A) (id : Z) : Table A :=
  mkTable (filter (fun r => negb (fst r =? id)%Z) (rows t)) (autoinc t).

(** [DELETE FROM t]. *)
Definition delete_all {A} (t : Table A) : Table A :=
  mkTable [] (autoinc t).

Definition ids {A} (l : list (Z * A)) : list Z := map fst l.

(** [ORDER BY key DESC] under the BINARY collation: a stable insertion sort
    on the byte order of the key. *)
Fixpoint insert_desc {A} (key : A -> string) (r : Z * A) (l : list (Z * A))
  : list (Z * A) :=
  match l with
  | [] => [r]
  | r' :: l' =>
      if String.ltb (key (snd r')) (key (snd r))
      then r :: l
      else r' :: insert_desc key r l'
  end.

Definition order_by_desc {A} (key : A -> string) (l : list (Z * A))
  : list (Z * A) :=
  fold_right (insert_desc key) [] l.

(** One operation on a collection, and what it reported. *)
Inductive op (A : Type) : Type :=
| Add (a : A)
| Delete (id : Z).

Arguments Add {A} a.
Arguments Delete {A} id.

Inductive event : Type :=
| Assigned (id : Z)
| Deleted (id : Z).

Definition apply_op {A} (t : Table A) (o : op A) : Table A * event :=
  match o with
  | Add a => (insert t a, Assigned (next_id t))
  | Delete id => (delete t id, Deleted id)
  end.

Fixpoint run {A} (t : Table A) (ops : list (op A)) : Table A * list event :=
  match ops with
  | [] => (t, [])
  | o :: ops' =>
      let '(t1, e) := apply_op t o in
      let '(t2, es) := run t1 ops' in
      (t2, e :: es)
  end.

Definition assigned_ids (es : list event) : list Z :=
  flat_map (fun e => match e with Assigned id => [id] | Deleted _ => [] end) es.

Definition deleted_ids (es : list event) : list Z :=
  flat_map (fun e => match e with Deleted id => [id] | Assigned _ => [] end) es.

End Storage.

Record Income : Type := mkIncome {
  i_amount : Q;
  i_source : string;
  i_the_date : string
}.

Record Expense : Type := mkExpense {
  e_amount : Q;
  e_category : string;
  e_description : string;
  e_the_date : string
}.

Record Target : Type := mkTarget {
  t_name : string;
  t_target_amount : Q;
  t_target_date : string;
  t_created_at : string
}.

Record DB : Type := mkDB {
  incomes : Table Income;
  expenses : Table Expense;
  targets : Table Target
}.

Definition init_db : DB :=
  mkDB Storage.create Storage.create Storage.create.

Definition add_income (conn : DB) (amount : Q) (source : string)
  (the_date : DateArg) : DB :=
  mkDB (Storage.insert (incomes conn) (mkIncome amount source (to_iso the_date)))
       (expenses conn) (targets conn).

Definition add_expense (conn : DB) (amount : Q) (category description : string)
  (the_date : DateArg) : DB :=
  mkDB (incomes conn)
       (Storage.insert (expenses conn)
          (mkExpense amount category description (to_iso the_date)))
       (targets conn).

(** [now] is the reading of [datetime.now().isoformat()]. *)
Definition add_target (conn : DB) (now : string) (name : string) (amount : Q)
  (target_date : DateArg) : DB :=
  mkDB (incomes conn) (expenses conn)
       (Storage.insert (targets conn)
          (mkTarget name amount (to_iso target_date) now)).

Definition delete_target (conn : DB) (target_id : Z) : DB :=
  mkDB (incomes conn) (expenses conn) (Storage.delete (targets conn) target_id).

(** ** DataFrames *)

(** The two columns the aggregation reads from an entry table. *)
Class EntryColumns (A : Type) : Type := {
  amount : A -> Q;
  the_date : A -> string
}.

#[global] Instance income_columns : EntryColumns Income :=
  {| amount := i_amount; the_date := i_the_date |}.

#[global] Instance expense_columns : EntryColumns Expense :=
  {| amount := e_amount; the_date := e_the_date |}.

(** A row of the frame [query_df] returns: the SQL row, and its date column
    after [pd.to_datetime(..., errors='coerce')] ([None] is NaT). *)
Record DfRow (A : Type) : Type := mkRow {
  df_id : Z;
  df_raw : A;
  df_date : option Timestamp
}.

Arguments mkRow {A} df_id df_raw df_date.
Arguments df_id {A} d.
Arguments df_raw {A} d.
Arguments df_date {A} d.

Definition DataFrame (A : Type) : Type := list (DfRow A).

(** [df.empty]. *)
Definition empty {A} (df : list A) : bool :=
  match df with
  | [] => true
  | _ :: _ => false
  end.

(** [df['amount'].sum()]. *)
Definition sum_amount {A} `{EntryColumns A} (df : DataFrame A) : Q :=
  fold_right (fun r acc => amount (df_raw r) + acc) 0 df.

(** [df.dropna(subset=[date column])]. *)
Definition dropna {A} (df : DataFrame A) : DataFrame A :=
  filter (fun r => match df_date r with Some _ => true | None => false end) df.

(** [df[df[date column].dt.strftime('%Y-%m') == month_year]]: NaT formats to
    NaN, which equals no string. *)
Definition in_month {A} (month_year : string) (r : DfRow A) : bool :=
  match df_date r with
  | Some t => String.eqb (strftime_Ym t) month_year
  | None => false
  end.

(** The ['ym'] column written after [dropna]. *)
Definition ym_strftime {A} (df : DataFrame A) : list string :=
  flat_map (fun r => match df_date r with
                     | Some t => [strftime_Ym t]
                     | None => []
                     end) df.

(** [Series.unique()]: first occurrences, in order. *)
Fixpoint unique (l : list string) : list string :=
  match l with
  | [] => []
  | x :: l' => x :: filter (fun y => negb (String.eqb y x)) (unique l')
  end.

(** [set(l)]: the distinct elements. *)
Definition py_set (l : list string) : list string := nodup string_dec l.

(** [sorted(s)] on strings: insertion sort on the code-point order. *)
Fixpoint insert_sorted (x : string) (l : list string) : list string :=
  match l with
  | [] => [x]
  | y :: l' => if String.leb x y then x :: l else y :: insert_sorted x l'
  end.

Definition sorted (l : list string) : list string :=
  fold_right insert_sorted [] l.

(** The result of [monthly_summary]. *)
Record Summary : Type := mkSummary {
  income : Q;
  expense : Q;
  saved : Q;
  saving_rate : Q
}.

(** A row of the frame [prepare_monthly_df] returns. *)
Record MonthRow : Type := mkMonthRow {
  ym : string;
  m_income : Q;
  m_expense : Q
}.

(** The rows of one group: those whose ['ym'] cell is [k]. *)
Definition in_period {A} (k : string) (r : DfRow A) : bool :=
  match df_date r with
  | Some t => String.eqb (to_period_M_str t) k
  | None => false
  end.

(** The ['ym'] column [.dt.to_period('M').astype(str)] writes after
    [dropna]. *)
Definition ym_period {A} (df : DataFrame A) : list string :=
  flat_map (fun r => match df_date r with
                     | Some t => [to_period_M_str t]
                     | None => []
                     end) df.

(** [df.groupby('ym')['amount'].sum().reset_index()]: one row per key, keys
    ascending, each with the sum of its group. *)
Definition groupby_ym_sum {A} `{EntryColumns A} (df : DataFrame A)
  : list (string * Q) :=
  map (fun k => (k, sum_amount (filter (in_period k) df)))
      (sorted (py_set (ym_period df))).

(** The cell of key [k] in a grouped frame; [None] is a missing partner
    (NaN after the merge). *)
Fixpoint lookup (k : string) (l : list (string * Q)) : option Q :=
  match l with
  | [] => None
  | (k', v) :: l' => if String.eqb k' k then Some v else lookup k l'
  end.

(** [fillna(0)] on one cell. *)
Definition fillna0 (c : option Q) : Q :=
  match c with
  | Some v => v
  | None => 0
  end.

(** [pd.merge(inc_month, exp_month, on='ym', how='outer').fillna(0)]: the
    union of the keys of both sides, a cell without a partner filled with 0. *)
Definition merge_outer_fillna (inc_month exp_month : list (string * Q))
  : list MonthRow :=
  map (fun k => mkMonthRow k (fillna0 (lookup k inc_month))
                             (fillna0 (lookup k exp_month)))
      (sorted (py_set (map fst inc_month ++ map fst exp_month))).

(** [df.sort_values('ym')]. *)
Fixpoint insert_row (r : MonthRow) (l : list MonthRow) : list MonthRow :=
  match l with
  | [] => [r]
  | r' :: l' =>
      if String.ltb (ym r') (ym r) then r' :: insert_row r l' else r :: l
  end.

Definition sort_values_ym (l : list MonthRow) : list MonthRow :=
  fold_right insert_row [] l.

(** The loop of [consecutive_saving_months] over [reversed(seq)], with its
    counter. *)
Fixpoint streak_loop (threshold_rate : Q) (rev_seq : list (string * Q))
  (consecutive : nat) : nat :=
  match rev_seq with
  | [] => consecutive
  | (_, rate) :: rest =>
      if Qle_bool threshold_rate rate
      then streak_loop threshold_rate rest (consecutive + 1)
      else consecutive
  end.

(** ** Aggregation engine *)

Section Engine.

(** [pd.to_datetime(cell, errors='coerce')]. *)
Variable to_datetime : string -> option Timestamp.

(** [query_df]: the rows the SQL statement selected, with the column whose
    name contains 'date' converted. *)
Definition query_df {A} (date_col : A -> string) (select : list (Z * A))
  : DataFrame A :=
  map (fun r => mkRow (fst r) (snd r) (to_datetime (date_col (snd r)))) select.

Definition get_all_incomes (conn : DB) : DataFrame Income :=
  query_df i_the_date (Storage.order_by_desc i_the_date (rows (incomes conn))).

Definition get_all_expenses (conn : DB) : DataFrame Expense :=
  query_df e_the_date (Storage.order_by_desc e_the_date (rows (expenses conn))).

Definition get_targets (conn : DB) : DataFrame Target :=
  query_df t_target_date
    (Storage.order_by_desc t_created_at (rows (targets conn))).

(** The [if month_year:] block on one frame; [None] and [""] are falsy. *)
Definition filter_month {A} (month_year : option string) (df : DataFrame A)
  : DataFrame A :=
  match month_year with
  | None => df
  | Some m => if String.eqb m "" then df else filter (in_month m) df
  end.

Definition monthly_summary (conn : DB) (month_year : option string)
  : result Summary :=
  let incomes := filter_month month_year (get_all_incomes conn) in
  let expenses := filter_month month_year (get_all_expenses conn) in
  let total_in := if empty incomes then 0 else sum_amount incomes in
  let total_out := if empty expenses then 0 else sum_amount expenses in
  let saved := total_in - total_out in
  saving_rate <- (if Qltb 0 total_in
                  then q <- div saved total_in ;; ret (q * 100)
                  else ret 0) ;;
  ret (mkSummary total_in total_out saved saving_rate).

Definition compute_progress_against_target (conn : DB) (target : Target)
  : result (Q * Q) :=
  let total_saved :=
    sum_amount (get_all_incomes conn) - sum_amount (get_all_expenses conn) in
  percent <- (if Qltb 0 (t_target_amount target)
              then q <- div total_saved (t_target_amount target) ;;
                   ret (Py.min 100 (Py.max 0 (q * 100)))
              else ret 0) ;;
  ret (total_saved, percent).

(** [pd.to_datetime] on a column that [query_df] already converted returns
    it unchanged. *)
Definition to_datetime_again {A} (df : DataFrame A) : DataFrame A := df.

(** Both tables have a [the_date] column, so the [else] branches of the two
    column tests are never taken. *)
Definition consecutive_saving_months (conn : DB) (threshold_rate : Q)
  : result (nat * list (string * Q)) :=
  let incomes := get_all_incomes conn in
  let expenses := get_all_expenses conn in
  if empty incomes && empty expenses then ret (0%nat, [])
  else
    let incomes := dropna (to_datetime_again incomes) in
    let expenses := dropna (to_datetime_again expenses) in
    let months :=
      sorted (py_set (unique (ym_strftime incomes)
                      ++ unique (ym_strftime expenses))) in
    seq <- mapM (fun m => s <- monthly_summary conn (Some m) ;;
                          ret (m, saving_rate s)) months ;;
    ret (streak_loop threshold_rate (rev seq) 0, seq).

(** An empty frame is replaced by an empty frame with the two columns
    [amount] and [the_date]. *)
Definition prepare_monthly_df (conn : DB) : list MonthRow :=
  let inc := get_all_incomes conn in
  let exp := get_all_expenses conn in
  let inc := if empty inc then [] else inc in
  let exp := if empty exp then [] else exp in
  let inc := dropna (to_datetime_again inc) in
  let exp := dropna (to_datetime_again exp) in
  let inc_month := groupby_ym_sum inc in
  let exp_month := groupby_ym_sum exp in
  let month_df := merge_outer_fillna inc_month exp_month in
  sort_values_ym month_df.

(** ** Simulation block of "Target & Simulasi" *)

Inductive Shown : Type :=
| st_warning_unreachable
| st_success_estimate (reduction : Z) (new_monthly_saving months_needed : Q).

Record Projection : Type := mkProjection {
  saved_now : Q;
  reduced_expense : Q;
  new_monthly_saving : Q;
  remaining : Q;
  months_needed : ext;
  shown : Shown
}.

Record Simulasi : Type := mkSimulasi {
  avg_income : Q;
  avg_expense : Q;
  projection : option Projection
}.

(** [df['amount'].sum() / max(1, len(df)) if not df.empty else 0]. *)
Definition average {A} `{EntryColumns A} (df : DataFrame A) : result Q :=
  if empty df then ret 0
  else div (sum_amount df) (inject_Z (Z.max 1 (Z.of_nat (List.length df)))).

(** The block under the slider [sim_reduction]: the two averages are
    written always, the projection only over a non-empty target list. *)
Definition simulasi (conn : DB) (reduction : Z) : result Simulasi :=
  let inc_df := get_all_incomes conn in
  let exp_df := get_all_expenses conn in
  avg_income <- average inc_df ;;
  avg_expense <- average exp_df ;;
  let tlist := get_targets conn in
  match tlist with
  | [] => ret (mkSimulasi avg_income avg_expense None)
  | t0 :: _ =>
      let saved_now := sum_amount inc_df - sum_amount exp_df in
      r <- div (inject_Z reduction) 100 ;;
      let reduced_expense := avg_expense * (1 - r) in
      let new_monthly_saving := Py.max 0 (avg_income - reduced_expense) in
      let remaining :=
        Py.max 0 (t_target_amount (df_raw t0) - saved_now) in
      months_needed <- (if Qltb 0 new_monthly_saving
                        then q <- div remaining new_monthly_saving ;;
                             ret (Fin q)
                        else ret Inf) ;;
      let shown :=
        match months_needed with
        | Inf => st_warning_unreachable
        | Fin q => st_success_estimate reduction new_monthly_saving q
        end in
      ret (mkSimulasi avg_income avg_expense
             (Some (mkProjection saved_now reduced_expense new_monthly_saving
                      remaining months_needed shown)))
  end.

(** ** Form and button handlers *)

Inductive Msg : Type :=
| st_error (text : string)
| st_success (text : string).

(** "Tambah Transaksi", tab "Pemasukan". *)
Definition save_income_btn (conn : DB) (inc_amount : Q) (inc_source : string)
  (inc_date : Date) : DB * list Msg :=
  if Qle_bool inc_amount 0
  then (conn, [st_error "Masukkan jumlah pemasukan > 0"])
  else (add_income conn inc_amount inc_source (PyDate inc_date),
        [st_success "Pemasukan tersimpan."]).

(** "Tambah Transaksi", tab "Pengeluaran". *)
Definition save_expense_btn (conn : DB) (exp_amount : Q)
  (exp_category exp_desc : string) (exp_date : Date) : DB * list Msg :=
  if Qle_bool exp_amount 0
  then (conn, [st_error "Masukkan jumlah pengeluaran > 0"])
  else (add_expense conn exp_amount exp_category exp_desc (PyDate exp_date),
        [st_success "Pengeluaran tersimpan."]).

(** [tname.strip() == ""]: every character of the text is one that
    [str.isspace()] accepts.  A text is its UTF-8 bytes, so a character is one
    to three of them: U+0009..000D, U+001C..0020; U+0085, U+00A0; U+1680,
    U+2000..200A, U+2028, U+2029, U+202F, U+205F, U+3000. *)
Definition is_space (c : ascii) : bool :=
  let n := nat_of_ascii c in
  ((9 <=? n) && (n <=? 13) || (28 <=? n) && (n <=? 32))%nat.

Definition is_space_2 (c1 c2 : ascii) : bool :=
  let b1 := nat_of_ascii c1 in
  let b2 := nat_of_ascii c2 in
  ((b1 =? 194) && ((b2 =? 133) || (b2 =? 160)))%nat.

Definition is_space_3 (c1 c2 c3 : ascii) : bool :=
  let b1 := nat_of_ascii c1 in
  let b2 := nat_of_ascii c2 in
  let b3 := nat_of_ascii c3 in
  ((b1 =? 225) && (b2 =? 154) && (b3 =? 128)
   || (b1 =? 226) && (b2 =? 128)
      && ((128 <=? b3) && (b3 <=? 138) || (b3 =? 168) || (b3 =? 169)
          || (b3 =? 175))
   || (b1 =? 226) && (b2 =? 129) && (b3 =? 159)
   || (b1 =? 227) && (b2 =? 128) && (b3 =? 128))%nat.

Fixpoint strip_is_empty (s : string) : bool :=
  match s with
  | EmptyString => true
  | String c1 s1 =>
      if is_space c1 then strip_is_empty s1
      else
        match s1 with
        | EmptyString => false
        | String c2 s2 =>
            if is_space_2 c1 c2 then strip_is_empty s2
            else
              match s2 with
              | EmptyString => false
              | String c3 s3 => is_space_3 c1 c2 c3 && strip_is_empty s3
              end
        end
  end.

Definition save_target_btn (conn : DB) (now : string) (tname : string)
  (tgt_amount : Q) (tgt_date : Date) : DB * list Msg :=
  if strip_is_empty tname || Qle_bool tgt_amount 0
  then (conn, [st_error "Isi nama target dan nominal target > 0"])
  else (add_target conn now tname tgt_amount (PyDate tgt_date),
        [st_success "Target tersimpan."]).

(** "Riwayat": the delete widgets exist only over a non-empty frame. *)
Definition del_inc_btn (conn : DB) (to_del : Z) : DB * list Msg :=
  if empty (get_all_incomes conn) then (conn, [])
  else if (0 <? to_del)%Z
       then (mkDB (Storage.delete (incomes conn) to_del)
                  (expenses conn) (targets conn),
             [st_success "Pemasukan dihapus."])
       else (conn, []).

Definition del_exp_btn (conn : DB) (to_del_e : Z) : DB * list Msg :=
  if empty (get_all_expenses conn) then (conn, [])
  else if (0 <? to_del_e)%Z
       then (mkDB (incomes conn)
                  (Storage.delete (expenses conn) to_del_e) (targets conn),
             [st_success "Pengeluaran dihapus."])
       else (conn, []).

Definition del_target_btn (conn : DB) (to_del_t : Z) : DB * list Msg :=
  if empty (get_targets conn) then (conn, [])
  else if (0 <? to_del_t)%Z
       then (delete_target conn to_del_t, [st_success "Target dihapus."])
       else (conn, []).

(** "Pengaturan": reset of all three tables. *)
Definition reset_db_btn (conn : DB) : DB * list Msg :=
  (mkDB (Storage.delete_all (incomes conn))
        (Storage.delete_all (expenses conn))
        (Storage.delete_all (targets conn)),
   [st_success "Semua data dihapus. Muat ulang aplikasi."]).

(** One user interaction that can change the database. *)
Inductive Action : Type :=
| SaveIncome (inc_amount : Q) (inc_source : string) (inc_date : Date)
| SaveExpense (exp_amount : Q) (exp_category exp_desc : string)
    (exp_date : Date)
| SaveTarget (now tname : string) (tgt_amount : Q) (tgt_date : Date)
| DelIncome (to_del : Z)
| DelExpense (to_del_e : Z)
| DelTarget (to_del_t : Z)
| ResetAll.

Definition click (conn : DB) (a : Action) : DB * list Msg :=
  match a with
  | SaveIncome q s d => save_income_btn conn q s d
  | SaveExpense q c e d => save_expense_btn conn q c e d
  | SaveTarget now n q d => save_target_btn conn now n q d
  | DelIncome i => del_inc_btn conn i
  | DelExpense i => del_exp_btn conn i
  | DelTarget i => del_target_btn conn i
  | ResetAll => reset_db_btn conn
  end.

(** The database after a session of interactions. *)
Definition session (conn : DB) (acts : list Action) : DB :=
  fold_left (fun c a => fst (click c a)) acts conn.

End Engine.

(** ** The parser on the strings the application writes *)

Definition digit_val (c : ascii) : option nat :=
  let n := nat_of_ascii c in
  if ((48 <=? n) && (n <=? 57))%nat then Some (n - 48)%nat else None.

Fixpoint number (cs : list ascii) (acc : nat) : option nat :=
  match cs with
  | [] => Some acc
  | c :: cs' =>
      match digit_val c with
      | Some d => number cs' (10 * acc + d)%nat
      | None => None
      end
  end.

Definition days_in_month (y m : nat) : nat :=
  match m with
  | 2 => if ((y mod 4 =? 0) && negb (y mod 100 =? 0) || (y mod 400 =? 0))%nat
         then 29 else 28
  | 4 | 6 | 9 | 11 => 30
  | _ => 31
  end%nat.

(** The three numbers of a [YYYY-MM-DD] string. *)
Definition iso_fields (s : string) : option (nat * nat * nat) :=
  match list_ascii_of_string s with
  | [y1; y2; y3; y4; "-"%char; m1; m2; "-"%char; d1; d2] =>
      match number [y1; y2; y3; y4] 0, number [m1; m2] 0, number [d1; d2] 0 with
      | Some y, Some m, Some d => Some (y, m, d)
      | _, _, _ => None
      end
  | _ => None
  end.

(** [pd.to_datetime(s, errors='coerce')] on the [YYYY-MM-DD] strings that
    [date.isoformat()] produces; any other string, and any date outside the
    calendar or the [Timestamp] range, is NaT here. *)
Definition iso_to_datetime (s : string) : option Timestamp :=
  match iso_fields s with
  | Some (y, m, d) =>
      if ((1677 <=? y) && (y <=? 2262) && (1 <=? m) && (m <=? 12)
          && (1 <=? d) && (d <=? days_in_month y m))%nat
      then Some (mkTs y m d)
      else None
  | None => None
  end.

(** ** Reference definitions for the statements *)

(** Code-point order on bucket keys. *)
Definition slt (a b : string) : Prop := String.compare a b = Lt.

(** Sum of the stored amounts of the rows that [keep] selects, taken on the
    table itself (no frame, no ordering). *)
Definition stored_total {A} `{EntryColumns A} (keep : A -> bool) (t : Table A)
  : Q :=
  fold_right (fun r acc => if keep (snd r) then amount (snd r) + acc else acc)
             0 (rows t).

(** A stored row belongs to bucket [k] under the format [fmt]. *)
Definition dated_in {A} `{EntryColumns A}
  (to_datetime : string -> option Timestamp) (fmt : Timestamp -> string)
  (k : string) (a : A) : bool :=
  match to_datetime (the_date a) with
  | Some t => String.eqb (fmt t) k
  | None => false
  end.

(** The rows a month argument selects: all of them when it is absent. *)
Definition selected {A} `{EntryColumns A}
  (to_datetime : string -> option Timestamp) (month : option string) (a : A)
  : bool :=
  match month with
  | None => true
  | Some k => dated_in to_datetime strftime_Ym k a
  end.

(** Some stored row of the table falls in bucket [k]. *)
Definition has_record {A} `{EntryColumns A}
  (to_datetime : string -> option Timestamp) (fmt : Timestamp -> string)
  (k : string) (t : Table A) : Prop :=
  exists r ts, In r (rows t) /\ to_datetime (the_date (snd r)) = Some ts
               /\ fmt ts = k.

Definition clamp (x lo hi : Q) : Q :=
  if Qlt_le_dec x lo then lo else if Qlt_le_dec hi x then hi else x.

Definition summary_eq (s1 s2 : Summary) : Prop :=
  income s1 == income s2 /\ expense s1 == expense s2
  /\ saved s1 == saved s2 /\ saving_rate s1 == saving_rate s2.

(** Every amount in the two entry tables is positive. *)
Definition amounts_positive (conn : DB) : Prop :=
  Forall (fun r => 0 < i_amount (snd r)) (rows (incomes conn))
  /\ Forall (fun r => 0 < e_amount (snd r)) (rows (expenses conn)).

(** [list_all] of the storage contract: the frame [query_df] returns for a
    table under its [ORDER BY ... DESC] clause ([get_all_incomes],
    [get_all_expenses] and [get_targets] are its three instances). *)
Definition list_all {A} (to_datetime : string -> option Timestamp)
  (date_col key : A -> string) (t : Table A) : DataFrame A :=
  query_df to_datetime date_col (Storage.order_by_desc key (rows t)).

Definition listed_ids {A} (df : DataFrame A) : list Z := map df_id df.

(** A stored row dated in month [m] of year [y]. *)
Definition dated_in_month {A} `{EntryColumns A}
  (to_datetime : string -> option Timestamp) (y m : nat) (a : A) : bool :=
  match to_datetime (the_date a) with
  | Some t => ((year t =? y) && (month t =? m))%nat
  | None => false
  end.

(** Every stored row but one, the row [r] standing between [before] and
    [after]. *)
Definition others {A} (before after : list (Z * A)) (t : Table A) : Table A :=
  mkTable (before ++ after) (autoinc t).

(** The date-bucketed aggregations of [conn] are those of the rows of [inc]
    and [exp]: the month-filtered summary, the buckets and cells of the
    monthly frame, and the month keys of the streak sequence; all return. *)
Definition bucketed_over (to_datetime : string -> option Timestamp)
  (conn : DB) (inc : Table Income) (exp : Table Expense) : Prop :=
  (forall m, m <> "" ->
     exists s,
       monthly_summary to_datetime conn (Some m) = Ok s
       /\ income s == stored_total (dated_in to_datetime strftime_Ym m) inc
       /\ expense s == stored_total (dated_in to_datetime strftime_Ym m) exp)
  /\ (forall k,
         In k (map ym (prepare_monthly_df to_datetime conn))
         <-> has_record to_datetime to_period_M_str k inc
             \/ has_record to_datetime to_period_M_str k exp)
  /\ Forall (fun row =>
               m_income row
               == stored_total (dated_in to_datetime to_period_M_str (ym row))
                    inc
               /\ m_expense row
                  == stored_total
                       (dated_in to_datetime to_period_M_str (ym row)) exp)
       (prepare_monthly_df to_datetime conn)
  /\ (forall threshold_rate,
        exists count seq,
          consecutive_saving_months to_datetime conn threshold_rate
          = Ok (count, seq)
          /\ forall m,
               In m (map fst seq)
               <-> has_record to_datetime strftime_Ym m inc
                   \/ has_record to_datetime strftime_Ym m exp).

(** The totals taken without a bucket filter are [total_in] and
    [total_out]: in [monthly_summary] under a falsy month argument and in the
    savings of [compute_progress_against_target]. *)
Definition unfiltered_totals (to_datetime : string -> option Timestamp)
  (conn : DB) (total_in total_out : Q) : Prop :=
  (forall m, m = None \/ m = Some "" ->
     exists s,
       monthly_summary to_datetime conn m = Ok s
       /\ income s == total_in /\ expense s == total_out)
  /\ (forall target,
        exists total_saved percent,
          compute_progress_against_target to_datetime conn target
          = Ok (total_saved, percent)
          /\ total_saved == total_in - total_out).

(** Arithmetic mean of the stored amounts per row; 0 for an empty table. *)
Definition mean_of {A} `{EntryColumns A} (t : Table A) : Q :=
  match rows t with
  | [] => 0
  | _ :: _ =>
      stored_total (fun _ => true) t / inject_Z (Z.of_nat (List.length (rows t)))
  end.

(** ** Scenarios *)

Definition jan_2024 : DB :=
  add_expense
    (add_income init_db 1000000 "Gaji" (PyDate (mkDate 2024 1 10)))
    400000 "Makan" "" (PyDate (mkDate 2024 1 15)).

(** January saves 5%, February 20%, March 50%. *)
Definition three_months : DB :=
  let c := add_income init_db 1000 "Gaji" (PyDate (mkDate 2024 1 5)) in
  let c := add_expense c 950 "Makan" "" (PyDate (mkDate 2024 1 20)) in
  let c := add_income c 1000 "Gaji" (PyDate (mkDate 2024 2 5)) in
  let c := add_expense c 800 "Makan" "" (PyDate (mkDate 2024 2 20)) in
  let c := add_income c 1000 "Gaji" (PyDate (mkDate 2024 3 5)) in
  add_expense c 500 "Makan" "" (PyDate (mkDate 2024 3 20)).

(** No income, one expense, one target. *)
Definition only_expense : DB :=
  add_target
    (add_expense init_db 500 "Makan" "" (PyDate (mkDate 2024 3 20)))
    "2024-03-21T10:00:00" "Laptop" 10000 (PyDate (mkDate 2024 12 31)).

(** Spending above income in one month. *)
Definition overspent : DB :=
  add_expense
    (add_income init_db 1000 "Gaji" (PyDate (mkDate 2024 1 10)))
    1500 "Belanja" "" (PyDate (mkDate 2024 1 15)).

(** Income, expense and a target far below the savings. *)
Definition small_target : DB :=
  add_target jan_2024 "2024-02-01T08:00:00" "Sepatu" 1000
    (PyDate (mkDate 2024 6 30)).

(** An income row whose date text is not a date. *)
Definition undated : Income := mkIncome 250 "Bonus" "kemarin".

(** January 2024 and an income whose date text is not a date. *)
Definition jan_2024_undated : DB :=
  add_income jan_2024 250 "Bonus" (PyStr "kemarin").

(** Save an income, press the delete button with an id that does not exist
    yet, save another income. *)
Definition delete_before_add_clicks : list Action :=
  [SaveIncome 100 "Gaji" (mkDate 2024 1 10);
   DelIncome 2%Z;
   SaveIncome 200 "Bonus" (mkDate 2024 1 11)].

(** The same three steps on the income table: add, delete id 2, add. *)
Definition delete_before_add : list (Storage.op Income) :=
  [Storage.Add (mkIncome 100 "Gaji" "2024-01-10");
   Storage.Delete 2%Z;
   Storage.Add (mkIncome 200 "Bonus" "2024-01-11")].

(** * Dashboard, history and badges *)

(** [round(x)] on a float: to the nearest integer, a tie to the even one. *)
Definition py_round (x : Q) : Z :=
  let f := Qfloor x in
  let d := x - inject_Z f in
  if Qltb d (1 # 2) then f
  else if Qltb (1 # 2) d then (f + 1)%Z
       else if Z.even f then f else (f + 1)%Z.

(** The rows of one group of a frame grouped by a text column. *)
Definition has_label {A} (label : A -> string) (k : string) (r : DfRow A)
  : bool :=
  String.eqb (label (df_raw r)) k.

(** [df.groupby(label)["amount"].sum().reset_index()]: one row per label,
    labels ascending, each with the sum of its group. *)
Definition groupby_label_sum {A} `{EntryColumns A} (label : A -> string)
  (df : DataFrame A) : list (string * Q) :=
  map (fun k => (k, sum_amount (filter (has_label label k) df)))
      (sorted (py_set (map (fun r => label (df_raw r)) df))).

(** [.sort_values("amount", ascending=False)]: the order of equal amounts is
    the one of this insertion sort. *)
Fixpoint insert_amount_desc (x : string * Q) (l : list (string * Q))
  : list (string * Q) :=
  match l with
  | [] => [x]
  | y :: l' =>
      if Qltb (snd y) (snd x) then x :: l else y :: insert_amount_desc x l'
  end.

Definition sort_values_amount_desc (l : list (string * Q))
  : list (string * Q) :=
  fold_right insert_amount_desc [] l.

(** The badge of "Konsistensi Hemat". *)
Inductive Badge : Type :=
| Platinum_Saver
| Gold_Saver
| Silver_Saver
| Belum_dapat_badge.

Definition badge (cons : nat) : Badge :=
  if (12 <=? cons)%nat then Platinum_Saver
  else if (6 <=? cons)%nat then Gold_Saver
       else if (3 <=? cons)%nat then Silver_Saver
            else Belum_dapat_badge.

(** The months a badge stands for. *)
Definition badge_months (b : Badge) : nat :=
  match b with
  | Platinum_Saver => 12
  | Gold_Saver => 6
  | Silver_Saver => 3
  | Belum_dapat_badge => 0
  end.

(** One target of "Target Ringkasan": what is written, the value handed to
    [st.progress], and whether "Target tercapai" is shown. *)
Record TargetCard : Type := mkTargetCard {
  card_saved : Q;
  card_pct : Q;
  card_pct_int : Z;
  card_tercapai : bool
}.

Section Views.

Variable to_datetime : string -> option Timestamp.

(** "Ringkasan Keuangan": [total_in], [total_out], [total_saved]. *)
Definition ringkasan (conn : DB) : Q * Q * Q :=
  let incomes := get_all_incomes to_datetime conn in
  let expenses := get_all_expenses to_datetime conn in
  let total_in := if empty incomes then 0 else sum_amount incomes in
  let total_out := if empty expenses then 0 else sum_amount expenses in
  let total_saved := total_in - total_out in
  (total_in, total_out, total_saved).

(** "Pengeluaran per Kategori": nothing over an empty expense frame; else
    [cat_summary] and the categories warned about, each with its percentage
    of the total income. *)
Definition pengeluaran_per_kategori (conn : DB)
  : result (option (list (string * Q) * list (string * Q))) :=
  let incomes := get_all_incomes to_datetime conn in
  let expenses := get_all_expenses to_datetime conn in
  let total_in := if empty incomes then 0 else sum_amount incomes in
  if empty expenses then ret None
  else
    let cat_summary :=
      sort_values_amount_desc (groupby_label_sum e_category expenses) in
    if Qltb 0 total_in
    then
      over <- mapM (fun r => q <- div (snd r) total_in ;;
                             ret (fst r, q * 100)) cat_summary ;;
      ret (Some (cat_summary, filter (fun r => Qltb 30 (snd r)) over))
    else ret (Some (cat_summary, [])).

(** "Pemasukan per Sumber": nothing over an empty income frame. *)
Definition pemasukan_per_sumber (conn : DB) : option (list (string * Q)) :=
  let incomes := get_all_incomes to_datetime conn in
  if empty incomes then None
  else Some (sort_values_amount_desc (groupby_label_sum i_source incomes)).

(** "Target Ringkasan": one card per target of [get_targets]. *)
Definition target_card (conn : DB) (t : DfRow Target) : result TargetCard :=
  sp <- compute_progress_against_target to_datetime conn (df_raw t) ;;
  let saved := fst sp in
  let pct := snd sp in
  let pct_int := Z.min 100 (Z.max 0 (py_round pct)) in
  ret (mkTargetCard saved pct pct_int (Qle_bool 100 pct)).

Definition target_ringkasan (conn : DB) : result (list TargetCard) :=
  mapM (target_card conn) (get_targets to_datetime conn).

End Views.

(** ** Reference definitions for the further statements *)

(** Every id of the table is at most its counter, and no id is there
    twice. *)
Definition table_ok {A} (t : Table A) : Prop :=
  NoDup (Storage.ids (rows t))
  /\ Forall (fun i => (i <= autoinc t)%Z) (Storage.ids (rows t)).

Definition db_ok (conn : DB) : Prop :=
  table_ok (incomes conn) /\ table_ok (expenses conn)
  /\ table_ok (targets conn).

(** No AUTOINCREMENT counter of [c2] is below that of [c1]. *)
Definition counters_le (c1 c2 : DB) : Prop :=
  (autoinc (incomes c1) <= autoinc (incomes c2))%Z
  /\ (autoinc (expenses c1) <= autoinc (expenses c2))%Z
  /\ (autoinc (targets c1) <= autoinc (targets c2))%Z.

(** Chronological order of two dates. *)
Definition date_compare (d1 d2 : Date) : comparison :=
  match Nat.compare (d_year d1) (d_year d2) with
  | Eq => match Nat.compare (d_month d1) (d_month d2) with
          | Eq => Nat.compare (d_day d1) (d_day d2)
          | c => c
          end
  | c => c
  end.

(** A date a date widget can hand over. *)
Definition widget_date (d : Date) : Prop :=
  (d_year d / 1000 < 10 /\ d_month d < 100 /\ d_day d < 100)%nat.

(** Every stored target has a name that is not blank and a positive
    amount. *)
Definition targets_valid (conn : DB) : Prop :=
  Forall (fun r => strip_is_empty (t_name (snd r)) = false
                   /\ 0 < t_target_amount (snd r))
         (rows (targets conn)).

(** The UTF-8 bytes of a code point below U+10000. *)
Definition utf8 (cp : N) : string :=
  (if cp <? 128 then String (ascii_of_N cp) EmptyString
   else if cp <? 2048
        then String (ascii_of_N (192 + cp / 64))
               (String (ascii_of_N (128 + cp mod 64)) EmptyString)
        else String (ascii_of_N (224 + cp / 4096))
               (String (ascii_of_N (128 + (cp / 64) mod 64))
                  (String (ascii_of_N (128 + cp mod 64)) EmptyString)))%N.

(** The code points for which [str.isspace()] holds. *)
Definition whitespace : list N :=
  [9; 10; 11; 12; 13; 28; 29; 30; 31; 32; 133; 160; 5760;
   8192; 8193; 8194; 8195; 8196; 8197; 8198; 8199; 8200; 8201; 8202;
   8232; 8233; 8239; 8287; 12288]%N.

(** The text of a list of code points. *)
Definition text (cps : list N) : string :=
  fold_right (fun cp s => utf8 cp ++ s) "" cps.

(** A stored row whose date text parses. *)
Definition dated {A} `{EntryColumns A}
  (to_datetime : string -> option Timestamp) (a : A) : bool :=
  match to_datetime (the_date a) with
  | Some _ => true
  | None => false
  end.

(** The income and the expense column of the monthly frame, keyed by month. *)
Definition income_column (month_df : list MonthRow) : list (string * Q) :=
  map (fun r => (ym r, m_income r)) month_df.

Definition expense_column (month_df : list MonthRow) : list (string * Q) :=
  map (fun r => (ym r, m_expense r)) month_df.

(** Sum of the second components. *)
Definition total_of (l : list (string * Q)) : Q :=
  fold_right (fun r acc => snd r + acc) 0 l.

(** Not ascending anywhere: each amount is at least every later one. *)
Definition amounts_descending (l : list (string * Q)) : Prop :=
  StronglySorted (fun a b => snd b <= snd a) l.

(** Not ascending anywhere in the text key. *)
Definition keys_descending {A} (key : A -> string) (l : list (Z * A)) : Prop :=
  StronglySorted (fun a b => ~ slt (key (snd a)) (key (snd b))) l.

(** Two categories, one above 30% of the income. *)
Definition two_categories : DB :=
  let c := add_income init_db 1000 "Gaji" (PyDate (mkDate 2024 1 5)) in
  let c := add_expense c 400 "Makan" "" (PyDate (mkDate 2024 1 6)) in
  let c := add_expense c 100 "Transport" "" (PyDate (mkDate 2024 1 7)) in
  add_expense c 50 "Makan" "" (PyDate (mkDate 2024 2 1)).

(** * The engine on binary64 amounts

    Where a result depends on how a float is rounded (a saving rate compared
    with a threshold, a projected saving compared with 0, a quotient that
    overflows), amounts are IEEE 754 binary64 numbers and every operation is
    the one of the hardware. *)

Module Binary64.

Local Open Scope float_scope.

(** [x / y]: raises [ZeroDivisionError] when [y] is zero. *)
Definition div (x y : float) : result float :=
  if y =? 0 then Raise ZeroDivisionError else Ok (x / y).

(** [max(a, b)]: the first argument unless the second is strictly larger. *)
Definition max (a b : float) : float := if a <? b then b else a.

(** [float(n)] of an [int]; exact below 2^53 in magnitude. *)
Definition float_of_int (n : Z) : float :=
  match n with
  | Zneg p => - of_uint63 (Uint63.of_Z (Zpos p))
  | _ => of_uint63 (Uint63.of_Z n)
  end.

(** [x / n] with an [int] divisor: the zero test is the one on the [int]. *)
Definition div_int (x : float) (n : Z) : result float :=
  if (n =? 0)%Z then Raise ZeroDivisionError else Ok (x / float_of_int n).

Record Income : Type := mkIncome {
  i_amount : float;
  i_source : string;
  i_the_date : string
}.

Record Expense : Type := mkExpense {
  e_amount : float;
  e_category : string;
  e_description : string;
  e_the_date : string
}.

Record Target : Type := mkTarget {
  t_name : string;
  t_target_amount : float;
  t_target_date : string;
  t_created_at : string
}.

Record DB : Type := mkDB {
  incomes : Table Income;
  expenses : Table Expense;
  targets : Table Target
}.

Definition init_db : DB :=
  mkDB Storage.create Storage.create Storage.create.

Definition add_income (conn : DB) (amount : float) (source : string)
  (the_date : DateArg) : DB :=
  mkDB (Storage.insert (incomes conn) (mkIncome amount source (to_iso the_date)))
       (expenses conn) (targets conn).

Definition add_expense (conn : DB) (amount : float)
  (category description : string) (the_date : DateArg) : DB :=
  mkDB (incomes conn)
       (Storage.insert (expenses conn)
          (mkExpense amount category description (to_iso the_date)))
       (targets conn).

Definition add_target (conn : DB) (now : string) (name : string)
  (amount : float) (target_date : DateArg) : DB :=
  mkDB (incomes conn) (expenses conn)
       (Storage.insert (targets conn)
          (mkTarget name amount (to_iso target_date) now)).

(** The result of [monthly_summary]. *)
Record Summary : Type := mkSummary {
  income : float;
  expense : float;
  saved : float;
  saving_rate : float
}.

(** The ['amount'] column of a frame. *)
Definition amount_cells {A} (amount : A -> float) (df : DataFrame A)
  : list float :=
  map (fun r => amount (df_raw r)) df.

(** The loop of [consecutive_saving_months] over [reversed(seq)], with its
    counter; [rate >= threshold_rate] is false on a NaN. *)
Fixpoint streak_loop (threshold_rate : float) (rev_seq : list (string * float))
  (consecutive : nat) : nat :=
  match rev_seq with
  | [] => consecutive
  | (_, rate) :: rest =>
      if threshold_rate <=? rate
      then streak_loop threshold_rate rest (consecutive + 1)%nat
      else consecutive
  end.

Inductive Shown : Type :=
| st_warning_unreachable
| st_success_estimate (reduction : Z) (new_monthly_saving months_needed : float).

Record Projection : Type := mkProjection {
  saved_now : float;
  reduced_expense : float;
  new_monthly_saving : float;
  remaining : float;
  months_needed : float;
  shown : Shown
}.

Record Simulasi : Type := mkSimulasi {
  avg_income : float;
  avg_expense : float;
  projection : option Projection
}.

Section Engine.

(** [pd.to_datetime(column, errors='coerce')]: what a cell converts to, given
    the column it stands in (pandas infers one format for a column). *)
Variable to_datetime : list string -> string -> option Timestamp.

(** The additions of [Series.sum()] over the cells of a column; in which
    order pandas adds them is not fixed by the source. *)
Variable add_reduce : list float -> float.

(** [Series.sum()]: 0 over no cell. *)
Definition series_sum (cells : list float) : float :=
  match cells with
  | [] => 0
  | _ :: _ => add_reduce cells
  end.

Definition query_df {A} (date_col : A -> string) (select : list (Z * A))
  : DataFrame A :=
  let column := map (fun r => date_col (snd r)) select in
  map (fun r => mkRow (fst r) (snd r) (to_datetime column (date_col (snd r))))
      select.

Definition get_all_incomes (conn : DB) : DataFrame Income :=
  query_df i_the_date (Storage.order_by_desc i_the_date (rows (incomes conn))).

Definition get_all_expenses (conn : DB) : DataFrame Expense :=
  query_df e_the_date (Storage.order_by_desc e_the_date (rows (expenses conn))).

Definition get_targets (conn : DB) : DataFrame Target :=
  query_df t_target_date
    (Storage.order_by_desc t_created_at (rows (targets conn))).

Definition monthly_summary (conn : DB) (month_year : option string)
  : result Summary :=
  let incomes := filter_month month_year (get_all_incomes conn) in
  let expenses := filter_month month_year (get_all_expenses conn) in
  let total_in :=
    if empty incomes then 0 else series_sum (amount_cells i_amount incomes) in
  let total_out :=
    if empty expenses then 0 else series_sum (amount_cells e_amount expenses) in
  let saved := total_in - total_out in
  saving_rate <- (if 0 <? total_in
                  then q <- div saved total_in ;; ret (q * 100)
                  else ret 0) ;;
  ret (mkSummary total_in total_out saved saving_rate).

Definition consecutive_saving_months (conn : DB) (threshold_rate : float)
  : result (nat * list (string * float)) :=
  let incomes := get_all_incomes conn in
  let expenses := get_all_expenses conn in
  if empty incomes && empty expenses then ret (0%nat, [])
  else
    let incomes := dropna (to_datetime_again incomes) in
    let expenses := dropna (to_datetime_again expenses) in
    let months :=
      sorted (py_set (unique (ym_strftime incomes)
                      ++ unique (ym_strftime expenses))) in
    seq <- mapM (fun m => s <- monthly_summary conn (Some m) ;;
                          ret (m, saving_rate s)) months ;;
    ret (streak_loop threshold_rate (rev seq) 0, seq).

(** [df['amount'].sum() / max(1, len(df)) if not df.empty else 0]. *)
Definition average {A} (amount : A -> float) (df : DataFrame A)
  : result float :=
  if empty df then ret 0
  else div_int (series_sum (amount_cells amount df))
               (Z.max 1 (Z.of_nat (List.length df))).

Definition simulasi (conn : DB) (reduction : Z) : result Simulasi :=
  let inc_df := get_all_incomes conn in
  let exp_df := get_all_expenses conn in
  avg_income <- average i_amount inc_df ;;
  avg_expense <- average e_amount exp_df ;;
  let tlist := get_targets conn in
  match tlist with
  | [] => ret (mkSimulasi avg_income avg_expense None)
  | t0 :: _ =>
      let saved_now :=
        series_sum (amount_cells i_amount inc_df)
        - series_sum (amount_cells e_amount exp_df) in
      r <- div (float_of_int reduction) 100 ;;
      let reduced_expense := avg_expense * (1 - r) in
      let new_monthly_saving := max 0 (avg_income - reduced_expense) in
      let remaining :=
        max 0 (t_target_amount (df_raw t0) - saved_now) in
      months_needed <- (if 0 <? new_monthly_saving
                        then div remaining new_monthly_saving
                        else ret infinity) ;;
      let shown :=
        if months_needed =? infinity then st_warning_unreachable
        else st_success_estimate reduction new_monthly_saving months_needed in
      ret (mkSimulasi avg_income avg_expense
             (Some (mkProjection saved_now reduced_expense new_monthly_saving
                      remaining months_needed shown)))
  end.

(** "Konsistensi Hemat": the streak at the slider's threshold and its
    badge. *)
Definition konsistensi_hemat (conn : DB) (threshold : Z)
  : result (nat * Badge) :=
  cs <- consecutive_saving_months conn (float_of_int threshold) ;;
  ret (fst cs, badge (fst cs)).

End Engine.

(** The date strings the application writes convert alike in every column. *)
Definition iso_column (column : list string) (s : string) : option Timestamp :=
  iso_to_datetime s.

(** The additions in column order; over one or two cells every order gives
    this sum. *)
Definition sum_in_order (cells : list float) : float :=
  fold_left add cells 0.

(** The text column a listing converts: the date cells in [ORDER BY] order. *)
Definition date_column {A} (date_col key : A -> string) (t : Table A)
  : list string :=
  map (fun r => date_col (snd r)) (Storage.order_by_desc key (rows t)).

(** Some stored row of the table falls in bucket [k]. *)
Definition has_record {A} (to_datetime : list string -> string -> option Timestamp)
  (date_col : A -> string) (fmt : Timestamp -> string) (k : string)
  (t : Table A) : Prop :=
  exists r ts,
    In r (rows t)
    /\ to_datetime (date_column date_col date_col t) (date_col (snd r)) = Some ts
    /\ fmt ts = k.

(** Arithmetic mean of the cells of a column; 0 over no cell. *)
Definition mean_of (add_reduce : list float -> float) (cells : list float)
  : float :=
  match cells with
  | [] => 0
  | _ :: _ => add_reduce cells / float_of_int (Z.of_nat (List.length cells))
  end.

(** January saves 5%, February 20%, March 50%. *)
Definition three_months : DB :=
  let c := add_income init_db 1000 "Gaji" (PyDate (mkDate 2024 1 5)) in
  let c := add_expense c 950 "Makan" "" (PyDate (mkDate 2024 1 20)) in
  let c := add_income c 1000 "Gaji" (PyDate (mkDate 2024 2 5)) in
  let c := add_expense c 800 "Makan" "" (PyDate (mkDate 2024 2 20)) in
  let c := add_income c 1000 "Gaji" (PyDate (mkDate 2024 3 5)) in
  add_expense c 500 "Makan" "" (PyDate (mkDate 2024 3 20)).

(** One month with income 100 and expense 71. *)
Definition thin_margin : DB :=
  add_expense
    (add_income init_db 100 "Gaji" (PyDate (mkDate 2024 1 5)))
    71 "Makan" "" (PyDate (mkDate 2024 1 20)).

(** No income, one expense, one target. *)
Definition only_expense : DB :=
  add_target
    (add_expense init_db 500 "Makan" "" (PyDate (mkDate 2024 3 20)))
    "2024-03-21T10:00:00" "Laptop" 10000 (PyDate (mkDate 2024 12 31)).

(** An income of 0.50 and a target of 2^1023, about 9e307. *)
Definition huge_target : DB :=
  add_target
    (add_income init_db 0.5 "Gaji" (PyDate (mkDate 2024 1 5)))
    "2024-01-06T09:00:00" "Pulau" 0x1p+1023 (PyDate (mkDate 2030 1 1)).

(** Two targets; "Motor" is created after "Laptop". *)
Definition two_targets : DB :=
  let c := add_income init_db 1000 "Gaji" (PyDate (mkDate 2024 1 5)) in
  let c := add_expense c 600 "Makan" "" (PyDate (mkDate 2024 1 20)) in
  let c := add_target c "2024-02-01T08:00:00" "Laptop" 10000
             (PyDate (mkDate 2024 12 31)) in
  add_target c "2024-03-01T08:00:00" "Motor" 20400
    (PyDate (mkDate 2025 6 30)).

(** Income 63, expense 90: at a reduction of 30% the rounded product
    [90 * 0.7] stays 2^-47 below 63. *)
Definition rounding_gap : DB :=
  let c := add_income init_db 63 "Gaji" (PyDate (mkDate 2024 1 5)) in
  let c := add_expense c 90 "Makan" "" (PyDate (mkDate 2024 1 20)) in
  add_target c "2024-02-01T08:00:00" "Laptop" 973 (PyDate (mkDate 2024 12 31)).

End Binary64.

(** ** Signs of binary64 values *)

(** The sign bit is clear, or the value is a NaN. *)
Definition sign_plus (x : spec_float) : Prop :=
  match x with
  | S754_nan => True
  | S754_zero s | S754_infinity s | S754_finite s _ _ => s = false
  end.

(** Not below zero: a NaN, a zero, or a value with a clear sign bit. *)
Definition not_below (x : spec_float) : Prop :=
  match x with
  | S754_nan | S754_zero _ => True
  | S754_infinity s | S754_finite s _ _ => s = false
  end.

(** * Facts *)

(** ** Python comparisons and division *)

Lemma Qltb_true (x y : Q) : Qltb x y = true <-> x < y.
Proof.
  unfold Qltb. rewrite negb_true_iff. split; intros E.
  - apply Qnot_le_lt. intros L. apply Qle_bool_iff in L. congruence.
  - destruct (Qle_bool y x) eqn:B; [|reflexivity].
    apply Qle_bool_iff in B. exfalso. exact (Qlt_not_le _ _ E B).
Qed.

Lemma Qltb_false (x y : Q) : Qltb x y = false <-> y <= x.
Proof.
  unfold Qltb. rewrite negb_false_iff. apply Qle_bool_iff.
Qed.

Lemma div_ok (x y : Q) : ~ y == 0 -> div x y = Ok (x / y).
Proof.
  intros N. unfold div. destruct (Qeq_bool y 0) eqn:B; [|reflexivity].
  apply Qeq_bool_iff in B. contradiction.
Qed.

Lemma max0_cases (x : Q) :
  (0 < x /\ Py.max 0 x = x) \/ (x <= 0 /\ Py.max 0 x = 0).
Proof.
  unfold Py.max. destruct (Qltb 0 x) eqn:B.
  - left. split; [now apply Qltb_true | reflexivity].
  - right. split; [now apply Qltb_false | reflexivity].
Qed.

Lemma min100_cases (x : Q) :
  (x < 100 /\ Py.min 100 x = x) \/ (100 <= x /\ Py.min 100 x = 100).
Proof.
  unfold Py.min. destruct (Qltb x 100) eqn:B.
  - left. split; [now apply Qltb_true | reflexivity].
  - right. split; [now apply Qltb_false | reflexivity].
Qed.

#[global] Instance Qltb_proper : Proper (Qeq ==> Qeq ==> eq) Qltb.
Proof.
  intros x x' Ex y y' Ey.
  destruct (Qltb x y) eqn:B; symmetry.
  - apply Qltb_true. apply Qltb_true in B. now rewrite <- Ex, <- Ey.
  - apply Qltb_false. apply Qltb_false in B. now rewrite <- Ex, <- Ey.
Qed.

(** ** The order on bucket keys *)

Lemma slt_iff (a b : string) : slt a b <-> String_as_OT.lt a b.
Proof. apply String_as_OT.cmp_lt. Qed.

Lemma slt_trans (a b c : string) : slt a b -> slt b c -> slt a c.
Proof.
  rewrite !slt_iff. apply String_as_OT.lt_trans.
Qed.

Lemma slt_irrefl (a : string) : ~ slt a a.
Proof.
  unfold slt. intros E.
  assert (R : String.compare a a = Eq) by now apply String_as_OT.cmp_eq.
  congruence.
Qed.

Lemma slt_asym (a b : string) : slt a b -> ~ slt b a.
Proof.
  intros L G. exact (slt_irrefl a (slt_trans _ _ _ L G)).
Qed.

Lemma slt_total (a b : string) : slt a b \/ a = b \/ slt b a.
Proof.
  unfold slt. destruct (String.compare a b) eqn:C.
  - right. left. now apply String.compare_eq_iff.
  - now left.
  - right. right. rewrite String.compare_antisym, C. reflexivity.
Qed.

Lemma ltb_slt (a b : string) : String.ltb a b = true <-> slt a b.
Proof.
  unfold String.ltb, slt. destruct (String.compare a b); split; congruence.
Qed.

Lemma leb_slt (a b : string) : String.leb a b = true <-> slt a b \/ a = b.
Proof.
  unfold String.leb, slt. destruct (String.compare a b) eqn:C; split;
    try congruence; intros.
  - right. now apply String.compare_eq_iff.
  - now left.
  - destruct H as [H | ->]; [congruence|].
    assert (R : String.compare b b = Eq) by now apply String_as_OT.cmp_eq.
    congruence.
Qed.

Lemma leb_false_slt (a b : string) : String.leb a b = false -> slt b a.
Proof.
  intros E. destruct (slt_total a b) as [L | [-> | G]]; [| |exact G].
  - assert (T : String.leb a b = true) by (apply leb_slt; now left).
    congruence.
  - assert (T : String.leb b b = true) by (apply leb_slt; now right).
    congruence.
Qed.

(** ** [sorted(set(...))] *)

Lemma In_insert_sorted (x y : string) (l : list string) :
  In y (insert_sorted x l) <-> y = x \/ In y l.
Proof.
  induction l as [|z l IH]; simpl.
  - intuition.
  - destruct (String.leb x z); simpl; rewrite ?IH; intuition.
Qed.

Lemma In_sorted (y : string) (l : list string) : In y (sorted l) <-> In y l.
Proof.
  induction l as [|x l IH]; simpl; [tauto|].
  change (fold_right insert_sorted [] l) with (sorted l).
  rewrite In_insert_sorted, IH. intuition.
Qed.

Lemma insert_sorted_strict (x : string) (l : list string) :
  StronglySorted slt l -> ~ In x l -> StronglySorted slt (insert_sorted x l).
Proof.
  induction 1 as [|z l S IH F]; intros N; simpl.
  - constructor; constructor.
  - destruct (String.leb x z) eqn:B.
    + apply leb_slt in B. destruct B as [L | ->]; [|simpl in N; tauto].
      constructor; [now constructor|].
      constructor; [exact L|].
      eapply Forall_impl; [|exact F]. intros w. apply slt_trans. exact L.
    + apply leb_false_slt in B.
      constructor.
      * apply IH. simpl in N. tauto.
      * apply Forall_forall. intros w Hw. apply In_insert_sorted in Hw.
        destruct Hw as [-> | Hw]; [exact B|].
        rewrite Forall_forall in F. now apply F.
Qed.

Lemma sorted_strict (l : list string) :
  NoDup l -> StronglySorted slt (sorted l).
Proof.
  induction 1 as [|x l N _ IH]; simpl.
  - constructor.
  - apply insert_sorted_strict; [exact IH|].
    change (fold_right insert_sorted [] l) with (sorted l).
    now rewrite In_sorted.
Qed.

Lemma sorted_set_strict (l : list string) :
  StronglySorted slt (sorted (py_set l)).
Proof. apply sorted_strict, NoDup_nodup. Qed.

Lemma In_sorted_set (y : string) (l : list string) :
  In y (sorted (py_set l)) <-> In y l.
Proof. rewrite In_sorted. apply nodup_In. Qed.

Lemma strict_sorted_unique (l1 l2 : list string) :
  StronglySorted slt l1 -> StronglySorted slt l2 ->
  (forall x, In x l1 <-> In x l2) -> l1 = l2.
Proof.
  intros S1. revert l2.
  induction S1 as [|a l1 S1 IH F1]; intros l2 S2 E.
  - destruct l2 as [|b l2]; [reflexivity|].
    exfalso. apply (E b). now left.
  - destruct S2 as [|b l2 S2 F2].
    + exfalso. apply (E a). now left.
    + rewrite Forall_forall in F1, F2.
      assert (a = b) as <-.
      { destruct (proj1 (E a) (or_introl eq_refl)) as [-> | Ia]; [reflexivity|].
        destruct (proj2 (E b) (or_introl eq_refl)) as [-> | Ib]; [reflexivity|].
        exfalso. exact (slt_asym _ _ (F1 _ Ib) (F2 _ Ia)). }
      f_equal. apply IH; [exact S2|].
      intros x. split; intros Hx.
      * destruct (proj1 (E x) (or_intror Hx)) as [<- | ?]; [|assumption].
        exfalso. exact (slt_irrefl _ (F1 _ Hx)).
      * destruct (proj2 (E x) (or_intror Hx)) as [<- | ?]; [|assumption].
        exfalso. exact (slt_irrefl _ (F2 _ Hx)).
Qed.

Lemma strict_sorted_NoDup (l : list string) : StronglySorted slt l -> NoDup l.
Proof.
  induction 1 as [|a l S IH F]; constructor; [|exact IH].
  intros Ia. rewrite Forall_forall in F. exact (slt_irrefl _ (F _ Ia)).
Qed.

Lemma sort_values_ym_sorted (l : list MonthRow) :
  StronglySorted slt (map ym l) -> sort_values_ym l = l.
Proof.
  induction l as [|r l IH]; simpl; intros S; [reflexivity|].
  inversion S as [|? ? S' F]; subst.
  change (fold_right insert_row [] l) with (sort_values_ym l).
  rewrite (IH S'). destruct l as [|r' l']; [reflexivity|]. simpl.
  destruct (String.ltb (ym r') (ym r)) eqn:B; [|reflexivity].
  apply ltb_slt in B. inversion F; subst.
  exfalso. eapply slt_asym; eassumption.
Qed.

(** ** Sums over frames and tables *)

Section FrameFacts.

Context {A : Type} `{EntryColumns A}.

Lemma sum_amount_app (d1 d2 : DataFrame A) :
  sum_amount (d1 ++ d2)%list == sum_amount d1 + sum_amount d2.
Proof.
  induction d1 as [|r d1 IH]; simpl.
  - ring.
  - unfold sum_amount in *. simpl. rewrite IH. ring.
Qed.

Lemma sum_amount_perm (d1 d2 : DataFrame A) :
  Permutation d1 d2 -> sum_amount d1 == sum_amount d2.
Proof.
  induction 1 as [|r d1 d2 P IH|r r' d|d1 d2 d3 P1 IH1 P2 IH2];
    unfold sum_amount in *; simpl.
  - reflexivity.
  - now rewrite IH.
  - ring.
  - now rewrite IH1.
Qed.

Lemma sum_amount_empty_guard (df : DataFrame A) :
  (if empty df then 0 else sum_amount df) == sum_amount df.
Proof. destruct df; reflexivity. Qed.

Lemma order_by_desc_perm (key : A -> string) (l : list (Z * A)) :
  Permutation (Storage.order_by_desc key l) l.
Proof.
  assert (I : forall r l', Permutation (Storage.insert_desc key r l') (r :: l')).
  { intros r l'. induction l' as [|r' l' IH]; simpl.
    - apply Permutation_refl.
    - destruct (String.ltb (key (snd r')) (key (snd r))).
      + apply Permutation_refl.
      + eapply perm_trans; [apply perm_skip, IH | apply perm_swap]. }
  induction l as [|r l IH]; simpl.
  - apply perm_nil.
  - eapply perm_trans; [apply I|]. now apply perm_skip.
Qed.

Lemma stored_total_perm (keep : A -> bool) (l1 l2 : list (Z * A)) (n1 n2 : Z) :
  Permutation l1 l2 ->
  stored_total keep (mkTable l1 n1) == stored_total keep (mkTable l2 n2).
Proof.
  unfold stored_total. simpl.
  induction 1 as [|r l1 l2 P IH|r r' l|l1 l2 l3 P1 IH1 P2 IH2]; simpl.
  - reflexivity.
  - destruct (keep (snd r)); now rewrite IH.
  - destruct (keep (snd r)), (keep (snd r')); ring.
  - now rewrite IH1.
Qed.

Lemma stored_total_app (keep : A -> bool) (l1 l2 : list (Z * A)) (n : Z) :
  stored_total keep (mkTable (l1 ++ l2) n)
  == stored_total keep (mkTable l1 n) + stored_total keep (mkTable l2 n).
Proof.
  unfold stored_total. simpl.
  induction l1 as [|r l1 IH]; simpl.
  - ring.
  - destruct (keep (snd r)); rewrite IH; ring.
Qed.

(** Dropping a row that [keep] rejects does not change the total. *)
Lemma stored_total_skip (keep : A -> bool) (l1 l2 : list (Z * A))
  (r : Z * A) (n1 n2 : Z) :
  keep (snd r) = false ->
  stored_total keep (mkTable (l1 ++ r :: l2) n1)
  == stored_total keep (mkTable (l1 ++ l2) n2).
Proof.
  intros K. unfold stored_total. simpl.
  induction l1 as [|r1 l1 IH]; simpl.
  - rewrite K. reflexivity.
  - destruct (keep (snd r1)); now rewrite IH.
Qed.

(** Keeping a row adds its amount. *)
Lemma stored_total_keep (keep : A -> bool) (l1 l2 : list (Z * A))
  (r : Z * A) (n1 n2 : Z) :
  keep (snd r) = true ->
  stored_total keep (mkTable (l1 ++ r :: l2) n1)
  == stored_total keep (mkTable (l1 ++ l2) n2) + amount (snd r).
Proof.
  intros K. unfold stored_total. simpl.
  induction l1 as [|r1 l1 IH]; simpl.
  - rewrite K. ring.
  - destruct (keep (snd r1)); rewrite IH; ring.
Qed.

Lemma stored_total_none (keep : A -> bool) (t : Table A) :
  (forall r, In r (rows t) -> keep (snd r) = false) ->
  stored_total keep t == 0.
Proof.
  unfold stored_total. induction (rows t) as [|r l IH]; simpl; intros N.
  - reflexivity.
  - rewrite (N r (or_introl eq_refl)). apply IH. intros r' I. apply N. now right.
Qed.

Variable to_datetime : string -> option Timestamp.

(** A filtered sum over a queried frame is a sum over the stored rows. *)
Lemma sum_filter_query (date_col : A -> string) (f : DfRow A -> bool)
  (keep : A -> bool) (l : list (Z * A)) (n : Z) :
  (forall r, f (mkRow (fst r) (snd r) (to_datetime (date_col (snd r))))
             = keep (snd r)) ->
  sum_amount (filter f (query_df to_datetime date_col l))
  == stored_total keep (mkTable l n).
Proof.
  intros E. unfold stored_total, query_df. simpl.
  induction l as [|r l IH]; simpl.
  - reflexivity.
  - rewrite E. destruct (keep (snd r)); simpl; now rewrite IH.
Qed.

Lemma sum_query (date_col : A -> string) (l : list (Z * A)) (n : Z) :
  sum_amount (query_df to_datetime date_col l)
  == stored_total (fun _ => true) (mkTable l n).
Proof.
  unfold stored_total, query_df. simpl.
  induction l as [|r l IH]; simpl; [reflexivity | now rewrite IH].
Qed.

End FrameFacts.

(** ** Listing order *)

Section OrderFacts.

Context {A : Type}.

Variable key : A -> string.

Lemma insert_desc_sorted (r : Z * A) (l : list (Z * A)) :
  keys_descending key l -> keys_descending key (Storage.insert_desc key r l).
Proof.
  unfold keys_descending.
  induction 1 as [|r' l S IH F]; simpl; [repeat constructor|].
  destruct (String.ltb (key (snd r')) (key (snd r))) eqn:B.
  - apply ltb_slt in B. constructor; [now constructor|].
    constructor; [now apply slt_asym|].
    eapply Forall_impl; [|exact F]. simpl. intros z Nz Lz.
    destruct (slt_total (key (snd r')) (key (snd z))) as [C | [C | C]].
    + contradiction.
    + rewrite C in B. exact (slt_asym _ _ B Lz).
    + exact (slt_asym _ _ (slt_trans _ _ _ C B) Lz).
  - constructor; [exact IH|].
    apply Forall_forall. intros z Iz.
    assert (P : Permutation (Storage.insert_desc key r l) (r :: l)).
    { clear. induction l as [|x l IHl]; simpl; [apply Permutation_refl|].
      destruct (String.ltb (key (snd x)) (key (snd r)));
        [apply Permutation_refl|].
      eapply perm_trans; [apply perm_skip, IHl | apply perm_swap]. }
    apply (Permutation_in _ P) in Iz. destruct Iz as [<- | Iz].
    + intros C. apply ltb_slt in C. congruence.
    + rewrite Forall_forall in F. now apply F.
Qed.

Lemma order_by_desc_sorted (l : list (Z * A)) :
  keys_descending key (Storage.order_by_desc key l).
Proof.
  induction l as [|r l IH]; simpl; [constructor|].
  now apply insert_desc_sorted.
Qed.

Lemma query_rows (to_datetime : string -> option Timestamp)
  (date_col : A -> string) (l : list (Z * A)) :
  map (fun r => (df_id r, df_raw r)) (query_df to_datetime date_col l) = l.
Proof.
  unfold query_df. rewrite map_map. simpl.
  induction l as [|[i a] l IH]; simpl; [reflexivity | now rewrite IH].
Qed.

End OrderFacts.

(** ** [monthly_summary] *)

Section SummaryFacts.

Variable to_datetime : string -> option Timestamp.

Lemma table_eta {A} (t : Table A) : mkTable (rows t) (autoinc t) = t.
Proof. now destruct t. Qed.

(** What [filter_month] leaves of an ordered, queried table sums to the
    stored total of the selected rows. *)
Lemma month_total {A} `{EntryColumns A} (t : Table A) (m : option string) :
  m <> Some "" ->
  sum_amount
    (filter_month m
       (query_df to_datetime the_date
          (Storage.order_by_desc the_date (rows t))))
  == stored_total (selected to_datetime m) t.
Proof.
  intros N. rewrite <- (table_eta t) at 2. destruct m as [k|]; simpl.
  - destruct (String.eqb k "") eqn:B.
    + apply String.eqb_eq in B. subst. congruence.
    + rewrite (sum_filter_query to_datetime the_date (in_month k)
                 (selected to_datetime (Some k)) _ (autoinc t)).
      * apply stored_total_perm, order_by_desc_perm.
      * intros r. reflexivity.
  - rewrite (sum_query to_datetime the_date _ (autoinc t)).
    apply stored_total_perm, order_by_desc_perm.
Qed.

(** [monthly_summary] returns, and its four fields are the ones computed
    from the two filtered frames. *)
Lemma monthly_summary_run (conn : DB) (m : option string) :
  exists s,
    monthly_summary to_datetime conn m = Ok s
    /\ income s
       == sum_amount (filter_month m (get_all_incomes to_datetime conn))
    /\ expense s
       == sum_amount (filter_month m (get_all_expenses to_datetime conn))
    /\ saved s = income s - expense s
    /\ (0 < income s -> saving_rate s = saved s / income s * 100)
    /\ (~ 0 < income s -> saving_rate s = 0).
Proof.
  unfold monthly_summary.
  set (ti := if empty (filter_month m (get_all_incomes to_datetime conn))
             then 0 else _).
  set (te := if empty (filter_month m (get_all_expenses to_datetime conn))
             then 0 else _).
  destruct (Qltb 0 ti) eqn:B.
  - apply Qltb_true in B.
    rewrite div_ok by (intros E; rewrite E in B; exact (Qlt_irrefl _ B)).
    simpl. eexists. split; [reflexivity|]. simpl.
    repeat split; try (apply sum_amount_empty_guard).
    intros C. contradiction.
  - apply Qltb_false in B. simpl. eexists. split; [reflexivity|]. simpl.
    repeat split; try (apply sum_amount_empty_guard).
    intros C. exfalso. exact (Qlt_not_le _ _ C B).
Qed.

Lemma monthly_summary_totals (conn : DB) (m : option string) :
  m <> Some "" ->
  exists s,
    monthly_summary to_datetime conn m = Ok s
    /\ income s == stored_total (selected to_datetime m) (incomes conn)
    /\ expense s == stored_total (selected to_datetime m) (expenses conn)
    /\ saved s = income s - expense s
    /\ (0 < income s -> saving_rate s = saved s / income s * 100)
    /\ (~ 0 < income s -> saving_rate s = 0).
Proof.
  intros N. destruct (monthly_summary_run conn m) as (s & R & I & E & rest).
  exists s. split; [exact R|]. split; [|split; [|exact rest]].
  - rewrite I. exact (month_total (incomes conn) m N).
  - rewrite E. exact (month_total (expenses conn) m N).
Qed.

End SummaryFacts.

(** ** Claims on [monthly_summary] and [compute_progress_against_target] *)

(** C5. Whenever the income total of the summary is positive and the expense
    total exceeds it, the saving rate returned is the negative value
    [(income - expense) / income * 100] itself; whenever the income total is
    zero the saving rate is 0; [monthly_summary] always returns (no division
    by zero is raised).  The totals are those of the stored rows. *)
Theorem saving_rate_not_clamped :
  forall to_datetime conn (m : option string),
    exists s,
      monthly_summary to_datetime conn m = Ok s
      /\ (m <> Some "" ->
          income s == stored_total (selected to_datetime m) (incomes conn)
          /\ expense s
             == stored_total (selected to_datetime m) (expenses conn))
      /\ (0 < income s -> income s < expense s ->
          saving_rate s == (income s - expense s) / income s * 100
          /\ saving_rate s < 0)
      /\ (income s == 0 -> saving_rate s == 0).
Proof.
  intros td conn m.
  destruct (monthly_summary_run td conn m) as (s & R & I & E & S & P & Z).
  exists s. split; [exact R|]. split; [|split].
  - intros N. rewrite I, E. split.
    + exact (month_total td (incomes conn) m N).
    + exact (month_total td (expenses conn) m N).
  - intros L G. rewrite (P L), S. split; [reflexivity|].
    assert (Hi : 0 < / income s) by now apply Qinv_lt_0_compat.
    assert (Hd : (income s - expense s) / income s < 0).
    { unfold Qdiv.
      setoid_replace 0 with (0 * / income s) by ring.
      apply Qmult_lt_compat_r; [exact Hi|]. lra. }
    lra.
  - intros Z0. rewrite Z; [reflexivity|]. rewrite Z0. apply Qlt_irrefl.
Qed.

Lemma saving_rate_not_clamped_witness :
  exists s,
    monthly_summary iso_to_datetime overspent None = Ok s
    /\ saving_rate s == -50 /\ saving_rate s < 0.
Proof.
  destruct (saving_rate_not_clamped iso_to_datetime overspent None)
    as (s & R & T & P & _).
  assert (N : @None string <> Some "") by discriminate.
  destruct (T N) as (I & E).
  assert (L : 0 < income s) by (rewrite I; vm_compute; reflexivity).
  assert (G : income s < expense s)
    by (rewrite I, E; vm_compute; reflexivity).
  destruct (P L G) as (V & Neg).
  exists s. split; [exact R|]. split; [|exact Neg].
  rewrite V, I, E. vm_compute. reflexivity.
Defined.

Section ProgressFacts.

Variable to_datetime : string -> option Timestamp.

Lemma clamp_min_max (x : Q) : Py.min 100 (Py.max 0 x) == clamp x 0 100.
Proof.
  unfold clamp.
  destruct (max0_cases x) as [[L ->] | [L ->]];
    [destruct (min100_cases x) as [[M ->] | [M ->]]
    |destruct (min100_cases 0) as [[M ->] | [M ->]]];
    destruct (Qlt_le_dec x 0); try destruct (Qlt_le_dec 100 x);
    try reflexivity; lra.
Qed.

Lemma clamp_bounds (x : Q) : 0 <= clamp x 0 100 <= 100.
Proof.
  unfold clamp. destruct (Qlt_le_dec x 0); [lra|].
  destruct (Qlt_le_dec 100 x); lra.
Qed.

Lemma total_saved_stored (conn : DB) :
  sum_amount (get_all_incomes to_datetime conn)
  - sum_amount (get_all_expenses to_datetime conn)
  == stored_total (fun _ => true) (incomes conn)
     - stored_total (fun _ => true) (expenses conn).
Proof.
  assert (N : @None string <> Some "") by discriminate.
  pose proof (month_total to_datetime (incomes conn) None N) as I.
  pose proof (month_total to_datetime (expenses conn) None N) as E.
  simpl in I, E. unfold get_all_incomes, get_all_expenses.
  rewrite I, E. reflexivity.
Qed.

Lemma progress_saved_run (conn : DB) (target : Target) :
  exists total_saved percent,
    compute_progress_against_target to_datetime conn target
    = Ok (total_saved, percent)
    /\ total_saved
       == stored_total (fun _ => true) (incomes conn)
          - stored_total (fun _ => true) (expenses conn).
Proof.
  unfold compute_progress_against_target.
  destruct (Qltb 0 (t_target_amount target)) eqn:B.
  - apply Qltb_true in B.
    rewrite div_ok by (intros E; rewrite E in B; exact (Qlt_irrefl _ B)).
    simpl. eexists. eexists. split; [reflexivity|]. apply total_saved_stored.
  - simpl. eexists. eexists. split; [reflexivity|]. apply total_saved_stored.
Qed.

End ProgressFacts.

(** C3. [compute_progress_against_target] always returns; [saved] is the sum
    of every stored income minus the sum of every stored expense, whatever
    their dates; for a positive target amount the percent is
    [clamp(saved / target_amount * 100, 0, 100)]; the percent always lies in
    [0, 100]; for target amount 0 the percent is 0. *)
Theorem target_progress_clamped :
  forall to_datetime conn target,
    exists total_saved percent,
      compute_progress_against_target to_datetime conn target
      = Ok (total_saved, percent)
      /\ total_saved
         == stored_total (fun _ => true) (incomes conn)
            - stored_total (fun _ => true) (expenses conn)
      /\ (0 < t_target_amount target ->
          percent
          == clamp (total_saved / t_target_amount target * 100) 0 100)
      /\ 0 <= percent <= 100
      /\ (t_target_amount target == 0 -> percent == 0).
Proof.
  intros td conn target. unfold compute_progress_against_target.
  set (sv := sum_amount (get_all_incomes td conn)
             - sum_amount (get_all_expenses td conn)).
  assert (Sv : sv == stored_total (fun _ => true) (incomes conn)
                     - stored_total (fun _ => true) (expenses conn))
    by apply total_saved_stored.
  destruct (Qltb 0 (t_target_amount target)) eqn:B.
  - apply Qltb_true in B.
    rewrite div_ok by (intros E; rewrite E in B; exact (Qlt_irrefl _ B)).
    simpl. eexists. eexists. split; [reflexivity|].
    split; [exact Sv|]. split; [intros _; apply clamp_min_max|].
    split; [rewrite clamp_min_max; apply clamp_bounds|].
    intros Z. rewrite Z in B. exfalso. exact (Qlt_irrefl _ B).
  - apply Qltb_false in B. simpl. eexists. eexists. split; [reflexivity|].
    split; [exact Sv|]. split; [intros L; exfalso; lra|].
    split; [lra|]. reflexivity.
Qed.

Lemma target_progress_clamped_witness :
  0 < t_target_amount (mkTarget "Sepatu" 1000 "2024-06-30" "2024-02-01T08:00:00")
  /\ exists total_saved percent,
       compute_progress_against_target iso_to_datetime small_target
         (mkTarget "Sepatu" 1000 "2024-06-30" "2024-02-01T08:00:00")
       = Ok (total_saved, percent)
       /\ percent == clamp (total_saved / 1000 * 100) 0 100
       /\ percent <= 100.
Proof.
  assert (L : 0 < t_target_amount
                    (mkTarget "Sepatu" 1000 "2024-06-30" "2024-02-01T08:00:00"))
    by reflexivity.
  split; [exact L|].
  destruct (target_progress_clamped iso_to_datetime small_target
              (mkTarget "Sepatu" 1000 "2024-06-30" "2024-02-01T08:00:00"))
    as (sv & pc & R & _ & C & B & _).
  exists sv, pc. split; [exact R|]. split; [exact (C L) | exact (proj2 B)].
Defined.

(** ** The simulation block *)

Section SimulasiFacts.

Variable to_datetime : string -> option Timestamp.

Lemma query_length {A} (date_col key : A -> string) (l : list (Z * A)) :
  List.length (query_df to_datetime date_col (Storage.order_by_desc key l))
  = List.length l.
Proof.
  unfold query_df. rewrite length_map.
  apply Permutation_length, order_by_desc_perm.
Qed.

Lemma inject_Z_pos (n : nat) : (0 < n)%nat -> 0 < inject_Z (Z.of_nat n).
Proof.
  intros L. unfold Qlt. simpl. lia.
Qed.

Lemma average_run {A} `{EntryColumns A} (t : Table A) (key : A -> string) :
  exists a,
    average (query_df to_datetime the_date (Storage.order_by_desc key (rows t)))
    = Ok a
    /\ a == mean_of t.
Proof.
  unfold average, mean_of.
  set (df := query_df to_datetime the_date (Storage.order_by_desc key (rows t))).
  assert (Len : List.length df = List.length (rows t)) by apply query_length.
  destruct (rows t) as [|r l] eqn:R.
  - destruct df; [|discriminate]. simpl. exists 0. split; reflexivity.
  - destruct df as [|d df'] eqn:D; [discriminate|]. cbn [empty].
    rewrite <- D in *. clear D d df'.
    assert (M : Z.max 1 (Z.of_nat (List.length df))
                = Z.of_nat (List.length (r :: l))).
    { rewrite Len. simpl List.length. lia. }
    rewrite M.
    assert (P : 0 < inject_Z (Z.of_nat (List.length (r :: l))))
      by (apply inject_Z_pos; simpl; lia).
    rewrite div_ok by (intros E; rewrite E in P; exact (Qlt_irrefl _ P)).
    eexists. split; [reflexivity|].
    assert (S : sum_amount df == stored_total (fun _ => true) t).
    { unfold df. rewrite (sum_query to_datetime the_date _ (autoinc t)).
      rewrite <- (table_eta t) at 2.
      apply stored_total_perm. rewrite R. apply order_by_desc_perm. }
    now rewrite S.
Qed.

End SimulasiFacts.

(** C10. With an empty target table the simulation block computes the two
    averages and nothing else: no projection, hence no [months_needed] and no
    "unreachable" verdict, whatever the reduction and the entry tables. *)
Theorem simulasi_without_target :
  forall to_datetime conn (reduction : Z),
    rows (targets conn) = [] ->
    exists sim,
      simulasi to_datetime conn reduction = Ok sim
      /\ projection sim = None
      /\ avg_income sim == mean_of (incomes conn)
      /\ avg_expense sim == mean_of (expenses conn).
Proof.
  intros td conn r Ht.
  destruct (average_run td (incomes conn) i_the_date) as (ai & Ai & Mi).
  destruct (average_run td (expenses conn) e_the_date) as (ae & Ae & Me).
  change (average (get_all_incomes td conn) = Ok ai) in Ai.
  change (average (get_all_expenses td conn) = Ok ae) in Ae.
  unfold simulasi. rewrite Ai, Ae. cbn [bind].
  unfold get_targets. rewrite Ht. cbn.
  eexists. split; [reflexivity|]. cbn. repeat split; assumption.
Qed.

Lemma simulasi_without_target_witness :
  rows (targets three_months) = []
  /\ exists sim,
       simulasi iso_to_datetime three_months 10 = Ok sim
       /\ projection sim = None.
Proof.
  split; [reflexivity|].
  destruct (simulasi_without_target iso_to_datetime three_months 10%Z eq_refl)
    as (sim & R & P & _).
  exists sim. split; assumption.
Defined.

(** ** Entry forms *)

Section FormFacts.

Variable to_datetime : string -> option Timestamp.

Lemma Forall_filter_keep {B} (P : B -> Prop) (f : B -> bool) (l : list B) :
  Forall P l -> Forall P (filter f l).
Proof.
  induction 1 as [|x l Px _ IH]; simpl; [constructor|].
  destruct (f x); [constructor|]; assumption.
Qed.

Lemma click_keeps_amounts_positive (conn : DB) (a : Action) :
  amounts_positive conn -> amounts_positive (fst (click to_datetime conn a)).
Proof.
  intros [Pi Pe]. destruct a; simpl.
  - unfold save_income_btn. destruct (Qle_bool inc_amount 0) eqn:B;
      [now split|].
    split; [|exact Pe]. simpl. apply Forall_app. split; [exact Pi|].
    constructor; [|constructor]. simpl.
    apply Qnot_le_lt. intros L. apply Qle_bool_iff in L. congruence.
  - unfold save_expense_btn. destruct (Qle_bool exp_amount 0) eqn:B;
      [now split|].
    split; [exact Pi|]. simpl. apply Forall_app. split; [exact Pe|].
    constructor; [|constructor]. simpl.
    apply Qnot_le_lt. intros L. apply Qle_bool_iff in L. congruence.
  - unfold save_target_btn.
    destruct (strip_is_empty tname || Qle_bool tgt_amount 0); now split.
  - unfold del_inc_btn. destruct (empty _); [now split|].
    destruct (0 <? to_del)%Z; [|now split].
    split; [|exact Pe]. simpl. now apply Forall_filter_keep.
  - unfold del_exp_btn. destruct (empty _); [now split|].
    destruct (0 <? to_del_e)%Z; [|now split].
    split; [exact Pi|]. simpl. now apply Forall_filter_keep.
  - unfold del_target_btn. destruct (empty _); [now split|].
    destruct (0 <? to_del_t)%Z; now split.
  - split; constructor.
Qed.

Lemma session_keeps_amounts_positive (acts : list Action) (conn : DB) :
  amounts_positive conn -> amounts_positive (session to_datetime conn acts).
Proof.
  revert conn. unfold session.
  induction acts as [|a acts IH]; intros conn P; simpl; [exact P|].
  apply IH. now apply click_keeps_amounts_positive.
Qed.

End FormFacts.

(** C9. An income or expense form submitted with an amount <= 0 leaves the
    database as it was and shows the error message of that form; a positive
    amount is passed to [add_income] / [add_expense]; and after any session
    of interactions starting from a fresh database every stored income and
    expense amount is positive. *)
Theorem nonpositive_amount_rejected :
  (forall conn inc_amount inc_source inc_date,
      inc_amount <= 0 ->
      save_income_btn conn inc_amount inc_source inc_date
      = (conn, [st_error "Masukkan jumlah pemasukan > 0"]))
  /\ (forall conn exp_amount exp_category exp_desc exp_date,
        exp_amount <= 0 ->
        save_expense_btn conn exp_amount exp_category exp_desc exp_date
        = (conn, [st_error "Masukkan jumlah pengeluaran > 0"]))
  /\ (forall conn inc_amount inc_source inc_date,
        0 < inc_amount ->
        save_income_btn conn inc_amount inc_source inc_date
        = (add_income conn inc_amount inc_source (PyDate inc_date),
           [st_success "Pemasukan tersimpan."]))
  /\ (forall conn exp_amount exp_category exp_desc exp_date,
        0 < exp_amount ->
        save_expense_btn conn exp_amount exp_category exp_desc exp_date
        = (add_expense conn exp_amount exp_category exp_desc (PyDate exp_date),
           [st_success "Pengeluaran tersimpan."]))
  /\ (forall to_datetime acts,
        amounts_positive (session to_datetime init_db acts)).
Proof.
  assert (T : forall q, q <= 0 -> Qle_bool q 0 = true)
    by (intros q L; now apply Qle_bool_iff).
  assert (F : forall q, 0 < q -> Qle_bool q 0 = false).
  { intros q L. destruct (Qle_bool q 0) eqn:B; [|reflexivity].
    apply Qle_bool_iff in B. exfalso. exact (Qlt_not_le _ _ L B). }
  split; [|split; [|split; [|split]]].
  - intros conn q s d L. unfold save_income_btn. now rewrite (T q L).
  - intros conn q c e d L. unfold save_expense_btn. now rewrite (T q L).
  - intros conn q s d L. unfold save_income_btn. now rewrite (F q L).
  - intros conn q c e d L. unfold save_expense_btn. now rewrite (F q L).
  - intros td acts. apply session_keeps_amounts_positive. split; constructor.
Qed.

Lemma nonpositive_amount_rejected_witness :
  0 <= 0
  /\ save_income_btn jan_2024 0 "Gaji" (mkDate 2024 1 20)
     = (jan_2024, [st_error "Masukkan jumlah pemasukan > 0"])
  /\ save_expense_btn jan_2024 (-5) "Makan" "" (mkDate 2024 1 20)
     = (jan_2024, [st_error "Masukkan jumlah pengeluaran > 0"]).
Proof.
  assert (L0 : 0 <= 0) by apply Qle_refl.
  assert (L5 : -5 <= 0) by (unfold Qle; simpl; lia).
  split; [exact L0|]. split.
  - exact (proj1 nonpositive_amount_rejected jan_2024 0 "Gaji"
             (mkDate 2024 1 20) L0).
  - exact (proj1 (proj2 nonpositive_amount_rejected) jan_2024 (-5) "Makan" ""
             (mkDate 2024 1 20) L5).
Defined.

(** ** Storage: ids under add and delete *)

Section StorageFacts.

Context {A : Type}.

Lemma In_ids_delete (t : Table A) (d id : Z) :
  In id (Storage.ids (rows (Storage.delete t d)))
  <-> In id (Storage.ids (rows t)) /\ id <> d.
Proof.
  unfold Storage.ids, Storage.delete. simpl.
  induction (rows t) as [|[i a] l IH]; simpl.
  - tauto.
  - destruct (Z.eqb_spec i d) as [-> | N]; simpl; rewrite IH.
    + split; [tauto|]. intros [[E | I] Nd]; [congruence | tauto].
    + split; [|tauto]. intros [E | I]; [|tauto]. subst. tauto.
Qed.

Lemma In_ids_insert (t : Table A) (a : A) (id : Z) :
  In id (Storage.ids (rows (Storage.insert t a)))
  <-> In id (Storage.ids (rows t)) \/ id = Storage.next_id t.
Proof.
  unfold Storage.ids, Storage.insert, Storage.next_id. simpl.
  rewrite map_app, in_app_iff. simpl. intuition.
Qed.

Lemma delete_absent (t : Table A) (id : Z) :
  ~ In id (Storage.ids (rows t)) -> Storage.delete t id = t.
Proof.
  destruct t as [l n]. unfold Storage.delete, Storage.ids. simpl.
  intros N. f_equal.
  induction l as [|[i a] l IH]; simpl in *; [reflexivity|].
  destruct (Z.eqb_spec i id) as [-> | _]; [tauto|].
  simpl. f_equal. apply IH. tauto.
Qed.

(** An id is in the table after a run exactly when it was there before and
    never deleted, or was assigned with no delete of it afterwards. *)
Lemma run_ids (ops : list (Storage.op A)) :
  forall (t0 t : Table A) (es : list Storage.event) (id : Z),
    Storage.run t0 ops = (t, es) ->
    In id (Storage.ids (rows t))
    <-> (In id (Storage.ids (rows t0)) /\ ~ In (Storage.Deleted id) es)
        \/ (exists es1 es2,
               es = (es1 ++ Storage.Assigned id :: es2)%list
               /\ ~ In (Storage.Deleted id) es2).
Proof.
  induction ops as [|o ops IH]; intros t0 t es id R; simpl in R.
  - injection R as <- <-. split.
    + intros I. left. split; [exact I | intros []].
    + intros [[I _] | (es1 & es2 & E & _)]; [exact I|].
      destruct es1; discriminate E.
  - destruct (Storage.run (fst (Storage.apply_op t0 o)) ops) as [t2 es'] eqn:R'.
    destruct o as [a | d]; simpl in R, R'; rewrite R' in R;
      injection R as <- <-; rewrite (IH _ _ _ id R'); clear IH R'.
    + rewrite In_ids_insert. split.
      * intros [[[I | ->] Nd] | (es1 & es2 & -> & Nd)].
        -- left. split; [exact I|]. intros [E | D]; [discriminate E | tauto].
        -- right. exists [], es'. split; [reflexivity | exact Nd].
        -- right. exists (Storage.Assigned (Storage.next_id t0) :: es1), es2.
           split; [reflexivity | exact Nd].
      * intros [[I Nd] | (es1 & es2 & E & Nd)].
        -- left. split; [now left|]. intros D. apply Nd. now right.
        -- destruct es1 as [|e es1]; simpl in E; injection E as E1 E2.
           ++ subst. left. split; [now right | exact Nd].
           ++ subst. right. now exists es1, es2.
    + rewrite In_ids_delete. split.
      * intros [[[I Ne] Nd] | (es1 & es2 & -> & Nd)].
        -- left. split; [exact I|]. intros [E | D]; [|tauto].
           injection E as E. congruence.
        -- right. exists (Storage.Deleted d :: es1), es2.
           split; [reflexivity | exact Nd].
      * intros [[I Nd] | (es1 & es2 & E & Nd)].
        -- left. split; [split; [exact I|] |].
           ++ intros ->. apply Nd. now left.
           ++ intros D. apply Nd. now right.
        -- destruct es1 as [|e es1]; simpl in E; [discriminate E|].
           injection E as E1 E2. subst. right. now exists es1, es2.
Qed.

Variable to_datetime : string -> option Timestamp.

Lemma listed_ids_rows (date_col key : A -> string) (t : Table A) (id : Z) :
  In id (listed_ids (list_all to_datetime date_col key t))
  <-> In id (Storage.ids (rows t)).
Proof.
  unfold listed_ids, list_all, query_df, Storage.ids. rewrite map_map. simpl.
  split; intros I.
  - eapply Permutation_in; [|exact I].
    apply Permutation_map, order_by_desc_perm.
  - eapply Permutation_in; [|exact I].
    apply Permutation_map, Permutation_sym, order_by_desc_perm.
Qed.

End StorageFacts.

(** C8, as stated, fails: after "add, delete id 2, add" the listed ids are
    1 and 2, although 2 was passed to a delete. *)
Lemma ids_difference_counterexample :
  ~ (forall id,
        In id (listed_ids
                 (list_all iso_to_datetime i_the_date i_the_date
                    (fst (Storage.run Storage.create delete_before_add))))
        <-> In id (Storage.assigned_ids
                     (snd (Storage.run Storage.create delete_before_add)))
            /\ ~ In id (Storage.deleted_ids
                          (snd (Storage.run Storage.create delete_before_add)))).
Proof.
  intros H. destruct (proj1 (H 2%Z)) as [_ N].
  - vm_compute. tauto.
  - apply N. vm_compute. tauto.
Qed.

(** The three operations are what the entry form and the delete button of
    "Riwayat" do to the income table. *)
Example delete_before_add_in_session :
  incomes (session iso_to_datetime init_db delete_before_add_clicks)
  = fst (Storage.run Storage.create delete_before_add).
Proof. vm_compute. reflexivity. Qed.

(** C8, amended. After any sequence of adds and deletes on an empty
    collection, [list_all] returns exactly the ids that an add assigned and
    that no later delete was given; a delete of an id that is not in the
    collection leaves the collection as it is, also through the three delete
    buttons, which then show no error. *)
Theorem ids_after_operations :
  (forall (A : Type) to_datetime (date_col key : A -> string)
          (ops : list (Storage.op A)) (n : Z) (id : Z),
      In id (listed_ids
               (list_all to_datetime date_col key
                  (fst (Storage.run (mkTable [] n) ops))))
      <-> exists es1 es2,
            snd (Storage.run (mkTable [] n) ops)
            = (es1 ++ Storage.Assigned id :: es2)%list
            /\ ~ In (Storage.Deleted id) es2)
  /\ (forall (A : Type) (t : Table A) (id : Z),
        ~ In id (Storage.ids (rows t)) -> Storage.delete t id = t)
  /\ (forall to_datetime conn (id : Z),
        (~ In id (Storage.ids (rows (incomes conn))) ->
         fst (del_inc_btn to_datetime conn id) = conn
         /\ forall text,
              ~ In (st_error text) (snd (del_inc_btn to_datetime conn id)))
        /\ (~ In id (Storage.ids (rows (expenses conn))) ->
            fst (del_exp_btn to_datetime conn id) = conn
            /\ forall text,
                 ~ In (st_error text) (snd (del_exp_btn to_datetime conn id)))
        /\ (~ In id (Storage.ids (rows (targets conn))) ->
            fst (del_target_btn to_datetime conn id) = conn
            /\ forall text,
                 ~ In (st_error text)
                      (snd (del_target_btn to_datetime conn id)))).
Proof.
  split; [|split].
  - intros A td date_col key ops n id.
    rewrite listed_ids_rows.
    destruct (Storage.run (mkTable [] n) ops) as [t es] eqn:R.
    rewrite (run_ids ops _ _ _ id R). simpl. split.
    + intros [[[] _] | H]. exact H.
    + intros H. now right.
  - intros A t id. apply delete_absent.
  - intros td [ti te tt] id. simpl. split; [|split]; intros N.
    + unfold del_inc_btn. destruct (empty _); [split; [reflexivity | tauto]|].
      destruct (0 <? id)%Z; [|split; [reflexivity | tauto]].
      simpl. rewrite (delete_absent ti id N). split; [reflexivity|].
      intros text [E | []]. discriminate E.
    + unfold del_exp_btn. destruct (empty _); [split; [reflexivity | tauto]|].
      destruct (0 <? id)%Z; [|split; [reflexivity | tauto]].
      simpl. rewrite (delete_absent te id N). split; [reflexivity|].
      intros text [E | []]. discriminate E.
    + unfold del_target_btn, delete_target.
      destruct (empty _); [split; [reflexivity | tauto]|].
      destruct (0 <? id)%Z; [|split; [reflexivity | tauto]].
      simpl. rewrite (delete_absent tt id N). split; [reflexivity|].
      intros text [E | []]. discriminate E.
Qed.

Lemma ids_after_operations_witness :
  ~ In 7%Z (Storage.ids (rows (incomes jan_2024)))
  /\ Storage.delete (incomes jan_2024) 7 = incomes jan_2024
  /\ fst (del_inc_btn iso_to_datetime jan_2024 7) = jan_2024.
Proof.
  assert (N : ~ In 7%Z (Storage.ids (rows (incomes jan_2024)))).
  { simpl. intros [E | []]. discriminate E. }
  split; [exact N|]. split.
  - exact (proj1 (proj2 ids_after_operations) Income (incomes jan_2024) 7%Z N).
  - exact (proj1 (proj1 (proj2 (proj2 ids_after_operations)
                           iso_to_datetime jan_2024 7%Z) N)).
Defined.

Lemma digit_compare (a b : nat) :
  Ascii.compare (digit a) (digit b) = Nat.compare (a mod 10) (b mod 10).
Proof.
  unfold digit, Ascii.compare, ascii_of_nat.
  assert (A : (a mod 10 < 10)%nat) by (apply Nat.mod_upper_bound; lia).
  assert (B : (b mod 10 < 10)%nat) by (apply Nat.mod_upper_bound; lia).
  rewrite !N_ascii_embedding by lia.
  destruct (Nat.compare_spec (a mod 10) (b mod 10));
    [apply N.compare_eq_iff | apply N.compare_lt_iff | apply N.compare_gt_iff];
    lia.
Qed.

Lemma compare_digit_step (x x' d d' : nat) :
  (d < 10 -> d' < 10 ->
   Nat.compare (10 * x + d) (10 * x' + d')
   = match Nat.compare x x' with
     | Eq => Nat.compare d d'
     | c => c
     end)%nat.
Proof.
  intros D D'.
  destruct (Nat.compare_spec x x') as [-> | L | G].
  - destruct (Nat.compare_spec d d');
      [apply Nat.compare_eq_iff | apply Nat.compare_lt_iff
      | apply Nat.compare_gt_iff]; lia.
  - apply Nat.compare_lt_iff. lia.
  - apply Nat.compare_gt_iff. lia.
Qed.

Lemma decimal_4 (y : nat) :
  (y / 1000 < 10 ->
   y = 10 * (10 * (10 * ((y / 1000) mod 10) + (y / 100) mod 10)
             + (y / 10) mod 10) + y mod 10)%nat.
Proof.
  intros Y.
  assert (D2 : (y / 100 = y / 10 / 10)%nat)
    by now rewrite Nat.Div0.div_div.
  assert (D3 : (y / 1000 = y / 100 / 10)%nat)
    by now rewrite Nat.Div0.div_div.
  pose proof (Nat.div_mod_eq y 10) as E0.
  pose proof (Nat.div_mod_eq (y / 10) 10) as E1.
  pose proof (Nat.div_mod_eq (y / 100) 10) as E2.
  rewrite <- D2 in E1. rewrite <- D3 in E2.
  rewrite (Nat.mod_small (y / 1000) 10 Y). lia.
Qed.

Lemma decimal_2 (m : nat) :
  (m < 100 -> m = 10 * ((m / 10) mod 10) + m mod 10)%nat.
Proof.
  intros M.
  pose proof (Nat.div_mod_eq m 10) as E0.
  assert (S : ((m / 10) mod 10 = m / 10)%nat).
  { apply Nat.mod_small. apply Nat.Div0.div_lt_upper_bound. lia. }
  rewrite S. lia.
Qed.


Lemma compare_lex6 (a3 a2 a1 a0 e1 e0 b3 b2 b1 b0 f1 f0 : nat) :
  (a2 < 10 -> a1 < 10 -> a0 < 10 -> e0 < 10 ->
   b2 < 10 -> b1 < 10 -> b0 < 10 -> f0 < 10 ->
   match Nat.compare a3 b3 with
   | Eq => match Nat.compare a2 b2 with
           | Eq => match Nat.compare a1 b1 with
                   | Eq => match Nat.compare a0 b0 with
                           | Eq => match Nat.compare e1 f1 with
                                   | Eq => match Nat.compare e0 f0 with
                                           | Eq => Eq
                                           | c => c
                                           end
                                   | c => c
                                   end
                           | c => c
                           end
                   | c => c
                   end
           | c => c
           end
   | c => c
   end
   = match Nat.compare (10 * (10 * (10 * a3 + a2) + a1) + a0)
                       (10 * (10 * (10 * b3 + b2) + b1) + b0) with
     | Eq => Nat.compare (10 * e1 + e0) (10 * f1 + f0)
     | c => c
     end)%nat.
Proof.
  intros. rewrite !compare_digit_step by assumption.
  destruct (Nat.compare a3 b3), (Nat.compare a2 b2), (Nat.compare a1 b1),
    (Nat.compare a0 b0), (Nat.compare e1 f1), (Nat.compare e0 f0);
    reflexivity.
Qed.

Lemma strftime_Ym_compare (t1 t2 : Timestamp) :
  (year t1 / 1000 < 10 -> year t2 / 1000 < 10 ->
   month t1 < 100 -> month t2 < 100 ->
  String.compare (strftime_Ym t1) (strftime_Ym t2)
  = match Nat.compare (year t1) (year t2) with
    | Eq => Nat.compare (month t1) (month t2)
    | c => c
    end)%nat.
Proof.
  destruct t1 as [y1 m1 d1], t2 as [y2 m2 d2].
  cbn [year month]. intros Y1 Y2 M1 M2.
  assert (B : forall n, (n mod 10 < 10)%nat)
    by (intros n; apply Nat.mod_upper_bound; lia).
  unfold strftime_Ym, fmt_04d, fmt_02d.
  cbn [year month append String.compare].
  rewrite !digit_compare.
  change (Ascii.compare "-" "-") with Eq. cbv iota.
  rewrite compare_lex6 by apply B.
  rewrite <- (decimal_4 y1 Y1), <- (decimal_4 y2 Y2).
  rewrite <- (decimal_2 m1 M1), <- (decimal_2 m2 M2).
  reflexivity.
Qed.

Lemma in_calendar_digits (t : Timestamp) :
  in_calendar t -> (year t / 1000 < 10 /\ month t < 100)%nat.
Proof.
  intros [[_ Y] [_ M]]. split; [|lia].
  apply Nat.Div0.div_lt_upper_bound. lia.
Qed.

(** On calendar timestamps the code-point order of the bucket keys is the
    chronological order of the months, and equal keys are equal months. *)
Lemma strftime_Ym_chronological (t1 t2 : Timestamp) :
  in_calendar t1 -> in_calendar t2 ->
  (slt (strftime_Ym t1) (strftime_Ym t2) <-> month_before t1 t2)
  /\ (strftime_Ym t1 = strftime_Ym t2 <-> same_month t1 t2).
Proof.
  intros C1 C2.
  destruct (in_calendar_digits t1 C1) as [Y1 M1].
  destruct (in_calendar_digits t2 C2) as [Y2 M2].
  pose proof (strftime_Ym_compare t1 t2 Y1 Y2 M1 M2) as E.
  unfold slt, month_before, same_month. split.
  - rewrite E.
    destruct (Nat.compare_spec (year t1) (year t2)) as [Ey | Ly | Gy];
      [destruct (Nat.compare_spec (month t1) (month t2)) as [Em | Lm | Gm]| |];
      split; intros K; try discriminate K; try reflexivity; lia.
  - rewrite <- String_as_OT.cmp_eq. unfold String_as_OT.cmp. rewrite E.
    destruct (Nat.compare_spec (year t1) (year t2)) as [Ey | Ly | Gy];
      [destruct (Nat.compare_spec (month t1) (month t2)) as [Em | Lm | Gm]| |];
      split; intros K; try discriminate K; try reflexivity; lia.
Qed.

Lemma strftime_Ym_not_empty (t : Timestamp) : strftime_Ym t <> "".
Proof. unfold strftime_Ym, fmt_04d. simpl. discriminate. Qed.

Lemma iso_to_datetime_in_calendar (s : string) (t : Timestamp) :
  iso_to_datetime s = Some t -> in_calendar t.
Proof.
  unfold iso_to_datetime.
  destruct (iso_fields s) as [[[y m] d]|]; [|discriminate].
  destruct ((1677 <=? y) && (y <=? 2262) && (1 <=? m) && (m <=? 12)
            && (1 <=? d) && (d <=? days_in_month y m))%nat eqn:B;
    [|discriminate].
  intros E. injection E as <-.
  repeat (apply andb_prop in B; destruct B as [B ?]).
  unfold in_calendar. simpl.
  repeat match goal with
         | H : (_ <=? _)%nat = true |- _ => apply Nat.leb_le in H
         end.
  lia.
Qed.

(** ** The month argument of [monthly_summary] *)

Lemma stored_total_ext {A} `{EntryColumns A} (keep1 keep2 : A -> bool)
  (t : Table A) :
  (forall r, In r (rows t) -> keep1 (snd r) = keep2 (snd r)) ->
  stored_total keep1 t == stored_total keep2 t.
Proof.
  unfold stored_total. induction (rows t) as [|r l IH]; simpl; intros E.
  - reflexivity.
  - rewrite (E r (or_introl eq_refl)).
    destruct (keep2 (snd r)); rewrite IH; try reflexivity;
      intros r' I; apply E; now right.
Qed.

Section MonthArgument.

Variable to_datetime : string -> option Timestamp.

(** A falsy month argument leaves the frame as it is. *)
Lemma all_rows_total {A} `{EntryColumns A} (t : Table A) (m : option string) :
  m = None \/ m = Some "" ->
  sum_amount
    (filter_month m
       (query_df to_datetime the_date
          (Storage.order_by_desc the_date (rows t))))
  == stored_total (fun _ => true) t.
Proof.
  intros [-> | ->]; cbn [filter_month String.eqb];
    exact (month_total to_datetime t None ltac:(discriminate)).
Qed.

Lemma calendar_month_rows {A} `{EntryColumns A} (t : Table A)
  (ts : Timestamp) :
  (forall s t', to_datetime s = Some t' -> in_calendar t') ->
  in_calendar ts ->
  stored_total (dated_in to_datetime strftime_Ym (strftime_Ym ts)) t
  == stored_total (dated_in_month to_datetime (year ts) (month ts)) t.
Proof.
  intros Cal C. apply stored_total_ext. intros r _.
  unfold dated_in, dated_in_month.
  destruct (to_datetime (the_date (snd r))) as [t'|] eqn:D; [|reflexivity].
  destruct (strftime_Ym_chronological t' ts (Cal _ _ D) C) as [_ E].
  unfold same_month in E.
  destruct (String.eqb_spec (strftime_Ym t') (strftime_Ym ts)) as [K | K].
  - apply E in K. destruct K as [-> ->]. now rewrite !Nat.eqb_refl.
  - symmetry. apply andb_false_iff.
    destruct (Nat.eqb_spec (year t') (year ts)) as [Ey|]; [|now left].
    destruct (Nat.eqb_spec (month t') (month ts)) as [Em|]; [|now right].
    exfalso. apply K, E. now split.
Qed.

End MonthArgument.

(** C4, as stated, fails for the month argument [""]: the code takes the
    empty string for an absent argument and returns the totals of all
    records, 1,000,000 and 400,000 in the January scenario, although no
    record is in a bucket [""] (the sums over that bucket are 0). *)
Example monthly_summary_empty_key_counterexample :
  exists s,
    monthly_summary iso_to_datetime jan_2024 (Some "") = Ok s
    /\ income s == 1000000 /\ expense s == 400000
    /\ stored_total (dated_in iso_to_datetime strftime_Ym "")
         (incomes jan_2024) == 0
    /\ stored_total (dated_in iso_to_datetime strftime_Ym "")
         (expenses jan_2024) == 0
    /\ ~ income s == stored_total (dated_in iso_to_datetime strftime_Ym "")
                       (incomes jan_2024).
Proof.
  eexists. split; [vm_compute; reflexivity|].
  repeat split; try (vm_compute; reflexivity).
  vm_compute. discriminate.
Qed.

(** C4, amended.  [monthly_summary] always returns; [saved] is
    [income - expense] and [saving_rate] is [saved / income * 100] when the
    income total is positive and 0 otherwise.  Under an absent or empty month
    argument the two totals are the sums of all stored records; under a
    non-empty key they are the sums of the records whose date formats to that
    key, and four zeros when there is none.  On calendar timestamps the key
    of a month selects exactly the records dated in that year and month.
    January 2024 gives 1,000,000 / 400,000 / 600,000 / 60; among three months
    February gives 1000 / 800 / 200 / 20 and April four zeros. *)
Theorem monthly_summary_spec :
  (forall to_datetime conn (m : option string),
      exists s,
        monthly_summary to_datetime conn m = Ok s
        /\ saved s == income s - expense s
        /\ (0 < income s -> saving_rate s == saved s / income s * 100)
        /\ (~ 0 < income s -> saving_rate s == 0)
        /\ (m = None \/ m = Some "" ->
            income s == stored_total (fun _ => true) (incomes conn)
            /\ expense s == stored_total (fun _ => true) (expenses conn))
        /\ (forall k, m = Some k -> k <> "" ->
            income s
            == stored_total (dated_in to_datetime strftime_Ym k) (incomes conn)
            /\ expense s
               == stored_total (dated_in to_datetime strftime_Ym k)
                    (expenses conn)
            /\ ((forall r, In r (rows (incomes conn)) ->
                           dated_in to_datetime strftime_Ym k (snd r) = false) ->
                (forall r, In r (rows (expenses conn)) ->
                           dated_in to_datetime strftime_Ym k (snd r) = false) ->
                income s == 0 /\ expense s == 0 /\ saved s == 0
                /\ saving_rate s == 0)))
  /\ (forall to_datetime conn (t : Timestamp),
        (forall s t', to_datetime s = Some t' -> in_calendar t') ->
        in_calendar t ->
        exists s,
          monthly_summary to_datetime conn (Some (strftime_Ym t)) = Ok s
          /\ income s
             == stored_total (dated_in_month to_datetime (year t) (month t))
                  (incomes conn)
          /\ expense s
             == stored_total (dated_in_month to_datetime (year t) (month t))
                  (expenses conn))
  /\ (exists s,
        monthly_summary iso_to_datetime jan_2024 (Some "2024-01") = Ok s
        /\ income s == 1000000 /\ expense s == 400000
        /\ saved s == 600000 /\ saving_rate s == 60)
  /\ (exists s,
        monthly_summary iso_to_datetime three_months (Some "2024-02") = Ok s
        /\ income s == 1000 /\ expense s == 800
        /\ saved s == 200 /\ saving_rate s == 20)
  /\ (exists s,
        monthly_summary iso_to_datetime three_months (Some "2024-04") = Ok s
        /\ income s == 0 /\ expense s == 0
        /\ saved s == 0 /\ saving_rate s == 0).
Proof.
  split; [|split; [|split; [|split]]].
  - intros td conn m.
    destruct (monthly_summary_run td conn m) as (s & R & I & E & S & P & Z).
    exists s. split; [exact R|]. split; [now rewrite S|].
    split; [intros L; now rewrite (P L)|].
    split; [intros L; now rewrite (Z L)|]. split.
    + intros F. rewrite I, E. split.
      * exact (all_rows_total td (incomes conn) m F).
      * exact (all_rows_total td (expenses conn) m F).
    + intros k -> N.
      assert (N' : Some k <> Some "") by congruence.
      assert (Ti : income s
                   == stored_total (dated_in td strftime_Ym k) (incomes conn))
        by (rewrite I; exact (month_total td (incomes conn) (Some k) N')).
      assert (Te : expense s
                   == stored_total (dated_in td strftime_Ym k) (expenses conn))
        by (rewrite E; exact (month_total td (expenses conn) (Some k) N')).
      split; [exact Ti|]. split; [exact Te|]. intros NI NE.
      assert (I0 : income s == 0) by (rewrite Ti; now apply stored_total_none).
      assert (E0 : expense s == 0) by (rewrite Te; now apply stored_total_none).
      split; [exact I0|]. split; [exact E0|].
      split; [rewrite S, I0, E0; reflexivity|].
      rewrite Z; [reflexivity|]. rewrite I0. apply Qlt_irrefl.
  - intros td conn t Cal C.
    assert (N : Some (strftime_Ym t) <> Some "").
    { intros E. injection E as E. exact (strftime_Ym_not_empty t E). }
    destruct (monthly_summary_totals td conn _ N) as (s & R & I & E & _).
    exists s. split; [exact R|]. cbn [selected] in I, E. split.
    + rewrite I. now apply calendar_month_rows.
    + rewrite E. now apply calendar_month_rows.
  - eexists. split; [vm_compute; reflexivity|].
    repeat split; vm_compute; reflexivity.
  - eexists. split; [vm_compute; reflexivity|].
    repeat split; vm_compute; reflexivity.
  - eexists. split; [vm_compute; reflexivity|].
    repeat split; vm_compute; reflexivity.
Qed.

Lemma monthly_summary_spec_witness :
  (forall s t', iso_to_datetime s = Some t' -> in_calendar t')
  /\ in_calendar (mkTs 2024 2 1)
  /\ exists s,
       monthly_summary iso_to_datetime three_months (Some "2024-02") = Ok s
       /\ income s == 1000 /\ expense s == 800.
Proof.
  assert (C : in_calendar (mkTs 2024 2 1)) by (unfold in_calendar; simpl; lia).
  split; [exact iso_to_datetime_in_calendar|]. split; [exact C|].
  destruct (proj1 (proj2 monthly_summary_spec) iso_to_datetime three_months
              (mkTs 2024 2 1) iso_to_datetime_in_calendar C)
    as (s & R & I & E).
  exists s. split; [exact R|]. split.
  - rewrite I. vm_compute. reflexivity.
  - rewrite E. vm_compute. reflexivity.
Defined.

(** ** Month buckets of a frame *)

Lemma In_unique (x : string) (l : list string) : In x (unique l) <-> In x l.
Proof.
  induction l as [|y l IH]; simpl; [tauto|].
  rewrite filter_In, IH, negb_true_iff, String.eqb_neq.
  destruct (string_dec y x) as [-> | N]; [tauto|].
  split; [tauto|]. intros [E | I]; [tauto|]. right. split; [exact I|].
  congruence.
Qed.

(** Keys strictly ascending in code-point order are, on calendar
    timestamps, months in strictly chronological order. *)
Lemma keys_chronological (fmt : Timestamp -> string) (ks : list string) :
  (forall t, fmt t = strftime_Ym t) ->
  StronglySorted slt ks ->
  (forall k, In k ks -> exists t, in_calendar t /\ fmt t = k) ->
  exists ts, ks = map fmt ts /\ StronglySorted month_before ts
             /\ Forall in_calendar ts.
Proof.
  intros Fm S. induction S as [|k ks S IH F]; intros W.
  - exists []. repeat split; constructor.
  - destruct IH as (ts & -> & St & Ct); [intros k' I; apply W; now right|].
    destruct (W k (or_introl eq_refl)) as (t & Ct0 & <-).
    exists (t :: ts). split; [reflexivity|]. split; [|now constructor].
    constructor; [exact St|].
    rewrite Forall_forall in *. intros t' I'.
    apply (strftime_Ym_chronological t t' Ct0 (Ct t' I')).
    rewrite <- !Fm. apply F. now apply in_map.
Qed.

Section BucketFacts.

Variable to_datetime : string -> option Timestamp.

(** The keys a format writes for the dated rows of a queried table. *)
Lemma In_bucket_keys {A} `{EntryColumns A} (fmt : Timestamp -> string)
  (k : string) (t : Table A) :
  In k (flat_map (fun r => match df_date r with
                           | Some ts => [fmt ts]
                           | None => []
                           end)
          (dropna (query_df to_datetime the_date
                     (Storage.order_by_desc the_date (rows t)))))
  <-> has_record to_datetime fmt k t.
Proof.
  unfold has_record. rewrite in_flat_map. split.
  - intros (r & Ir & Ik). unfold dropna in Ir.
    apply filter_In in Ir. destruct Ir as [Ir _].
    unfold query_df in Ir. apply in_map_iff in Ir.
    destruct Ir as (r0 & <- & I0). simpl in Ik.
    destruct (to_datetime (the_date (snd r0))) as [ts|] eqn:D; [|destruct Ik].
    destruct Ik as [E | []]. exists r0, ts. repeat split; try assumption.
    eapply Permutation_in; [apply order_by_desc_perm | exact I0].
  - intros (r0 & ts & I0 & D & E).
    exists (mkRow (fst r0) (snd r0) (to_datetime (the_date (snd r0)))).
    split.
    + unfold dropna. apply filter_In. split; [|simpl; now rewrite D].
      unfold query_df.
      apply (in_map (fun r => mkRow (fst r) (snd r)
                                (to_datetime (the_date (snd r))))).
      eapply Permutation_in;
        [apply Permutation_sym, order_by_desc_perm | exact I0].
    + simpl. rewrite D. now left.
Qed.

Lemma filter_dropna {A} (f : DfRow A -> bool) (df : DataFrame A) :
  (forall r, f r = true -> df_date r <> None) ->
  filter f (dropna df) = filter f df.
Proof.
  intros F. unfold dropna.
  induction df as [|r df IH]; simpl; [reflexivity|].
  destruct (df_date r) eqn:D; simpl; rewrite IH.
  - reflexivity.
  - destruct (f r) eqn:Fr; [|reflexivity].
    exfalso. exact (F r Fr D).
Qed.

End BucketFacts.

(** ** [consecutive_saving_months] *)

Section StreakFacts.

Variable to_datetime : string -> option Timestamp.

Lemma mapM_rates (conn : DB) (months : list string) :
  exists seq,
    mapM (fun m => s <- monthly_summary to_datetime conn (Some m) ;;
                   ret (m, saving_rate s)) months = Ok seq
    /\ map fst seq = months
    /\ Forall (fun p => exists s,
                   monthly_summary to_datetime conn (Some (fst p)) = Ok s
                   /\ snd p = saving_rate s) seq.
Proof.
  induction months as [|m months (seq & R & K & F)]; simpl.
  - exists []. repeat split. constructor.
  - destruct (monthly_summary_run to_datetime conn (Some m)) as (s & Rs & _).
    rewrite Rs, R. simpl. exists ((m, saving_rate s) :: seq).
    split; [reflexivity|]. split; [simpl; now rewrite K|].
    constructor; [|exact F]. exists s. now split.
Qed.

(** The month keys of the sequence. *)
Lemma In_months (conn : DB) (m : string) :
  In m (sorted (py_set
                  (unique (ym_strftime
                             (dropna (get_all_incomes to_datetime conn)))
                   ++ unique (ym_strftime
                                (dropna (get_all_expenses to_datetime conn))))))
  <-> has_record to_datetime strftime_Ym m (incomes conn)
      \/ has_record to_datetime strftime_Ym m (expenses conn).
Proof.
  rewrite In_sorted_set, in_app_iff, !In_unique.
  pose proof (In_bucket_keys to_datetime strftime_Ym m (incomes conn)) as Ki.
  pose proof (In_bucket_keys to_datetime strftime_Ym m (expenses conn)) as Ke.
  unfold ym_strftime, get_all_incomes, get_all_expenses.
  simpl in Ki, Ke. tauto.
Qed.

Lemma consecutive_saving_months_run (conn : DB) (threshold_rate : Q) :
  exists seq,
    consecutive_saving_months to_datetime conn threshold_rate
    = Ok (streak_loop threshold_rate (rev seq) 0, seq)
    /\ map fst seq
       = sorted (py_set
                   (unique (ym_strftime
                              (dropna (get_all_incomes to_datetime conn)))
                    ++ unique (ym_strftime
                                 (dropna (get_all_expenses to_datetime conn)))))
    /\ Forall (fun p => exists s,
                   monthly_summary to_datetime conn (Some (fst p)) = Ok s
                   /\ snd p = saving_rate s) seq.
Proof.
  unfold consecutive_saving_months, to_datetime_again.
  set (months := sorted _).
  destruct (mapM_rates conn months) as (seq & R & K & F).
  destruct (empty (get_all_incomes to_datetime conn)
            && empty (get_all_expenses to_datetime conn)) eqn:B.
  - apply andb_prop in B. destruct B as [Bi Be].
    assert (M : months = []).
    { unfold months.
      destruct (get_all_incomes to_datetime conn); [|discriminate Bi].
      destruct (get_all_expenses to_datetime conn); [|discriminate Be].
      reflexivity. }
    exists []. rewrite M. repeat split. constructor.
  - rewrite R. simpl. exists seq. repeat split; assumption.
Qed.

End StreakFacts.

(** ** Signs of binary64 results *)

Lemma not_below_iff (x : float) :
  (x <? 0)%float = false <-> not_below (Prim2SF x).
Proof.
  rewrite FloatAxioms.ltb_spec. change (Prim2SF 0) with (S754_zero false).
  destruct (Prim2SF x) as [s|s| |s m e]; try destruct s; cbn;
    intuition congruence.
Qed.

Lemma positive_sign (x : float) :
  (0 <? x)%float = true ->
  sign_plus (Prim2SF x) /\ (x <? 0)%float = false /\ (x =? 0)%float = false.
Proof.
  rewrite !FloatAxioms.ltb_spec, FloatAxioms.eqb_spec.
  change (Prim2SF 0) with (S754_zero false).
  destruct (Prim2SF x) as [s|s| |s m e]; try destruct s; cbn;
    intuition congruence.
Qed.

Lemma round_aux_sign (s : bool) (m e : Z) (l : location) :
  match binary_round_aux prec emax s m e l with
  | S754_nan => True
  | S754_zero s' | S754_infinity s' | S754_finite s' _ _ => s' = s
  end.
Proof.
  unfold binary_round_aux.
  destruct (shr_fexp prec emax m e l) as [mrs' e'].
  destruct (shr_fexp prec emax _ e' loc_Exact) as [mrs'' e''].
  destruct (shr_m mrs''); [reflexivity| |exact I].
  destruct (e'' <=? emax - prec)%Z; reflexivity.
Qed.

Lemma round_sign (s : bool) (m : positive) (e : Z) :
  match binary_round prec emax s m e with
  | S754_nan => True
  | S754_zero s' | S754_infinity s' | S754_finite s' _ _ => s' = s
  end.
Proof.
  unfold binary_round. destruct (shl_align m e _) as [mz ez].
  apply round_aux_sign.
Qed.

Lemma add_not_below (x y : float) :
  (x <? 0)%float = false -> (y <? 0)%float = false ->
  (x + y <? 0)%float = false.
Proof.
  rewrite !not_below_iff, FloatAxioms.add_spec. unfold SF64add.
  destruct (Prim2SF x) as [sx|sx| |sx mx ex],
           (Prim2SF y) as [sy|sy| |sy my ey];
    cbn; intros Hx Hy; subst; try exact I; try reflexivity;
    try (destruct sx, sy; exact I).
  pose proof (round_sign false
                (fst (shl_align mx ex (Z.min ex ey))
                 + fst (shl_align my ey (Z.min ex ey)))
                (Z.min ex ey)) as R.
  cbn in *. destruct (binary_round _ _ _ _ _); cbn; auto.
Qed.

Lemma mul_not_below (x y : float) :
  (x <? 0)%float = false -> sign_plus (Prim2SF y) ->
  (x * y <? 0)%float = false.
Proof.
  rewrite !not_below_iff, FloatAxioms.mul_spec. unfold SF64mul.
  destruct (Prim2SF x) as [sx|sx| |sx mx ex],
           (Prim2SF y) as [sy|sy| |sy my ey];
    cbn; intros Hx Hy; subst; try exact I; try reflexivity.
  pose proof (round_aux_sign false (Z.pos (mx * my)) (ex + ey) loc_Exact) as R.
  cbn in *. destruct (binary_round_aux _ _ _ _ _ _); cbn; auto.
Qed.

Lemma div_not_below (x y : float) :
  (x <? 0)%float = false -> sign_plus (Prim2SF y) ->
  (x / y <? 0)%float = false.
Proof.
  rewrite !not_below_iff, FloatAxioms.div_spec. unfold SF64div.
  destruct (Prim2SF x) as [sx|sx| |sx mx ex],
           (Prim2SF y) as [sy|sy| |sy my ey];
    cbn; intros Hx Hy; subst; try exact I; try reflexivity.
  destruct (SFdiv_core_binary _ _ _ _ _ _) as [[mz ez] lz].
  pose proof (round_aux_sign false mz ez lz) as R.
  cbn in *. destruct (binary_round_aux _ _ _ _ _ _); cbn; auto.
Qed.

Lemma zero_minus_not_below (y : float) :
  (y <? 0)%float = false -> (0 <? 0 - y)%float = false.
Proof.
  rewrite not_below_iff, FloatAxioms.ltb_spec, FloatAxioms.sub_spec.
  unfold SF64sub. change (Prim2SF 0) with (S754_zero false).
  destruct (Prim2SF y) as [sy|sy| |sy my ey]; cbn; intros Hy; subst;
    try reflexivity.
  destruct sy; reflexivity.
Qed.

Lemma of_uint63_sign (n : PrimInt63.int) : sign_plus (Prim2SF (of_uint63 n)).
Proof.
  rewrite FloatAxioms.of_uint63_spec. unfold binary_normalize.
  pose proof (Uint63.to_Z_bounded n) as B.
  destruct (Uint63.to_Z n) as [|p|p]; [reflexivity| |lia].
  pose proof (round_sign false p 0) as R.
  destruct (binary_round _ _ _ _ _); cbn; auto.
Qed.

Lemma float_of_count_sign (n : nat) :
  sign_plus (Prim2SF (Binary64.float_of_int (Z.of_nat n))).
Proof.
  unfold Binary64.float_of_int.
  destruct (Z.of_nat n) eqn:E; try apply of_uint63_sign. lia.
Qed.

(** The factor [1 - reduction/100.0] over the slider's range. *)
Lemma factor_sign (r : Z) :
  (0 <= r <= 50)%Z ->
  sign_plus (Prim2SF (1 - Binary64.float_of_int r / 100)%float).
Proof.
  intros H.
  assert (E : In r (map Z.of_nat (seq 0 51))).
  { apply in_map_iff. exists (Z.to_nat r). split; [lia|]. apply in_seq. lia. }
  assert (F : forallb
                (fun r => match Prim2SF (1 - Binary64.float_of_int r / 100)%float
                          with
                          | S754_finite false _ _ => true
                          | _ => false
                          end)
                (map Z.of_nat (seq 0 51)) = true)
    by (vm_compute; reflexivity).
  rewrite forallb_forall in F. specialize (F r E).
  destruct (Prim2SF _) as [| | |[|] ? ?]; try discriminate; reflexivity.
Qed.

Lemma sum_in_order_not_below (cells : list float) :
  Forall (fun c => (0 <? c)%float = true) cells ->
  (Binary64.sum_in_order cells <? 0)%float = false.
Proof.
  unfold Binary64.sum_in_order.
  assert (G : forall acc, (acc <? 0)%float = false ->
                          Forall (fun c => (0 <? c)%float = true) cells ->
                          (fold_left add cells acc <? 0)%float = false).
  { induction cells as [|c cells IH]; intros acc Ha F; simpl; [exact Ha|].
    inversion F as [|? ? Hc F']; subst.
    apply IH; [|exact F']. apply add_not_below; [exact Ha|].
    now apply positive_sign. }
  apply G. reflexivity.
Qed.

(** ** Frames over binary64 rows *)

Section Binary64Frames.

Variable to_datetime : list string -> string -> option Timestamp.

Lemma column_keys {A} (date_col : A -> string) (fmt : Timestamp -> string)
  (k : string) (t : Table A) :
  In k (flat_map (fun r => match df_date r with
                           | Some ts => [fmt ts]
                           | None => []
                           end)
          (dropna (Binary64.query_df to_datetime date_col
                     (Storage.order_by_desc date_col (rows t)))))
  <-> Binary64.has_record to_datetime date_col fmt k t.
Proof.
  unfold Binary64.has_record, Binary64.date_column, Binary64.query_df.
  cbv zeta.
  set (column := map (fun r : Z * A => date_col (snd r))
                    (Storage.order_by_desc date_col (rows t))).
  rewrite in_flat_map. split.
  - intros (r & Ir & Ik). unfold dropna in Ir.
    apply filter_In in Ir. destruct Ir as [Ir _].
    apply in_map_iff in Ir.
    destruct Ir as (r0 & <- & I0). simpl in Ik.
    destruct (to_datetime column (date_col (snd r0))) as [ts|] eqn:D;
      [|destruct Ik].
    destruct Ik as [E | []]. exists r0, ts. repeat split; try assumption.
    eapply Permutation_in; [apply order_by_desc_perm | exact I0].
  - intros (r0 & ts & I0 & D & E).
    exists (mkRow (fst r0) (snd r0) (to_datetime column (date_col (snd r0)))).
    split.
    + unfold dropna. apply filter_In. split; [|simpl; now rewrite D].
      apply (in_map (fun r => mkRow (fst r) (snd r)
                                (to_datetime column (date_col (snd r))))).
      eapply Permutation_in;
        [apply Permutation_sym, order_by_desc_perm | exact I0].
    + simpl. rewrite D. now left.
Qed.

Lemma column_cells {A} (amount : A -> float) (date_col key : A -> string)
  (l : list (Z * A)) :
  Permutation
    (Binary64.amount_cells amount
       (Binary64.query_df to_datetime date_col (Storage.order_by_desc key l)))
    (map (fun r => amount (snd r)) l).
Proof.
  unfold Binary64.amount_cells, Binary64.query_df. rewrite map_map. simpl.
  apply Permutation_map, order_by_desc_perm.
Qed.

End Binary64Frames.

(** ** [monthly_summary] and the streak on binary64 amounts *)

Section Binary64Streak.

Variable to_datetime : list string -> string -> option Timestamp.
Variable add_reduce : list float -> float.

Lemma binary64_summary_run (conn : Binary64.DB) (m : option string) :
  exists s,
    Binary64.monthly_summary to_datetime add_reduce conn m = Ok s
    /\ Binary64.saved s = (Binary64.income s - Binary64.expense s)%float
    /\ Binary64.saving_rate s
       = (if 0 <? Binary64.income s
          then (Binary64.income s - Binary64.expense s) / Binary64.income s * 100
          else 0)%float.
Proof.
  unfold Binary64.monthly_summary.
  set (ti := if empty _ then _ else _).
  set (te := if empty _ then _ else _).
  destruct (0 <? ti)%float eqn:B.
  - unfold Binary64.div.
    destruct (positive_sign ti B) as (_ & _ & ->).
    cbn [bind ret]. eexists. split; [reflexivity|].
    cbn [Binary64.saved Binary64.income Binary64.expense Binary64.saving_rate].
    rewrite B. split; reflexivity.
  - cbn [bind ret]. eexists. split; [reflexivity|].
    cbn [Binary64.saved Binary64.income Binary64.expense Binary64.saving_rate].
    rewrite B. split; reflexivity.
Qed.

Lemma binary64_rates (conn : Binary64.DB) (months : list string) :
  exists seq,
    mapM (fun m => s <- Binary64.monthly_summary to_datetime add_reduce conn
                          (Some m) ;;
                   ret (m, Binary64.saving_rate s)) months = Ok seq
    /\ map fst seq = months
    /\ Forall (fun p => exists s,
                   Binary64.monthly_summary to_datetime add_reduce conn
                     (Some (fst p)) = Ok s
                   /\ snd p = Binary64.saving_rate s) seq.
Proof.
  induction months as [|m months (seq & R & K & F)]; simpl.
  - exists []. repeat split. constructor.
  - destruct (binary64_summary_run conn (Some m)) as (s & Rs & _).
    rewrite Rs, R. simpl. exists ((m, Binary64.saving_rate s) :: seq).
    split; [reflexivity|]. split; [simpl; now rewrite K|].
    constructor; [|exact F]. exists s. now split.
Qed.

Lemma binary64_months (conn : Binary64.DB) (m : string) :
  In m (sorted (py_set
                  (unique (ym_strftime
                             (dropna (Binary64.get_all_incomes to_datetime conn)))
                   ++ unique (ym_strftime
                                (dropna (Binary64.get_all_expenses to_datetime
                                           conn))))))
  <-> Binary64.has_record to_datetime Binary64.i_the_date strftime_Ym m
        (Binary64.incomes conn)
      \/ Binary64.has_record to_datetime Binary64.e_the_date strftime_Ym m
           (Binary64.expenses conn).
Proof.
  rewrite In_sorted_set, in_app_iff, !In_unique.
  pose proof (column_keys to_datetime Binary64.i_the_date strftime_Ym m
                (Binary64.incomes conn)) as Ki.
  pose proof (column_keys to_datetime Binary64.e_the_date strftime_Ym m
                (Binary64.expenses conn)) as Ke.
  unfold ym_strftime, Binary64.get_all_incomes, Binary64.get_all_expenses.
  tauto.
Qed.

Lemma binary64_streak_run (conn : Binary64.DB) :
  exists seq,
    (forall threshold_rate,
        Binary64.consecutive_saving_months to_datetime add_reduce conn
          threshold_rate
        = Ok (Binary64.streak_loop threshold_rate (rev seq) 0, seq))
    /\ map fst seq
       = sorted (py_set
                   (unique (ym_strftime
                              (dropna (Binary64.get_all_incomes to_datetime
                                         conn)))
                    ++ unique (ym_strftime
                                 (dropna (Binary64.get_all_expenses to_datetime
                                            conn)))))
    /\ Forall (fun p => exists s,
                   Binary64.monthly_summary to_datetime add_reduce conn
                     (Some (fst p)) = Ok s
                   /\ snd p = Binary64.saving_rate s) seq.
Proof.
  unfold Binary64.consecutive_saving_months, to_datetime_again.
  set (months := sorted _).
  destruct (binary64_rates conn months) as (seq & R & K & F).
  destruct (empty (Binary64.get_all_incomes to_datetime conn)
            && empty (Binary64.get_all_expenses to_datetime conn)) eqn:B.
  - apply andb_prop in B. destruct B as [Bi Be].
    assert (M : months = []).
    { unfold months.
      destruct (Binary64.get_all_incomes to_datetime conn); [|discriminate Bi].
      destruct (Binary64.get_all_expenses to_datetime conn); [|discriminate Be].
      reflexivity. }
    exists []. rewrite M. repeat split. constructor.
  - rewrite R. simpl. exists seq. repeat split; assumption.
Qed.

End Binary64Streak.

(** The loop counts the entries at or above the threshold at the recent end
    of the sequence. *)
Lemma binary64_loop_split (threshold_rate : float) (l : list (string * float)) :
  forall c,
    exists pre post,
      l = (pre ++ post)%list
      /\ Binary64.streak_loop threshold_rate l c = (c + List.length pre)%nat
      /\ Forall (fun p => (threshold_rate <=? snd p)%float = true) pre
      /\ (post = [] \/ exists p post', post = p :: post'
                        /\ (threshold_rate <=? snd p)%float = false).
Proof.
  induction l as [|[m rate] l IH]; intros c; simpl.
  - exists [], []. repeat split; auto.
  - destruct (threshold_rate <=? rate)%float eqn:B.
    + destruct (IH (c + 1)%nat) as (pre & post & -> & E & F & P).
      exists ((m, rate) :: pre), post. split; [reflexivity|].
      split; [rewrite E; simpl; lia|]. split; [|exact P].
      constructor; [exact B | exact F].
    + exists [], ((m, rate) :: l). split; [reflexivity|].
      split; [simpl; lia|]. split; [constructor|].
      right. exists (m, rate), l. split; [reflexivity | exact B].
Qed.

Lemma binary64_loop_recent (threshold_rate : float)
  (seq : list (string * float)) :
  exists older recent,
    seq = (older ++ recent)%list
    /\ Binary64.streak_loop threshold_rate (rev seq) 0 = List.length recent
    /\ Forall (fun p => (threshold_rate <=? snd p)%float = true) recent
    /\ (older = [] \/ exists o p, older = (o ++ [p])%list
                       /\ (threshold_rate <=? snd p)%float = false).
Proof.
  destruct (binary64_loop_split threshold_rate (rev seq) 0)
    as (pre & post & E & V & F & P).
  exists (rev post), (rev pre). split.
  - rewrite <- rev_app_distr, <- E. symmetry. apply rev_involutive.
  - split; [rewrite V, length_rev; reflexivity|]. split.
    + apply Forall_rev. exact F.
    + destruct P as [-> | (p & post' & -> & L)]; [now left|].
      right. exists (rev post'), p. split; [reflexivity | exact L].
Qed.

Lemma binary64_loop_unique (threshold_rate : float)
  (older recent : list (string * float)) :
  Forall (fun p => (threshold_rate <=? snd p)%float = true) recent ->
  (older = [] \/ exists o p, older = (o ++ [p])%list
                  /\ (threshold_rate <=? snd p)%float = false) ->
  Binary64.streak_loop threshold_rate (rev (older ++ recent)) 0
  = List.length recent.
Proof.
  intros F P. rewrite rev_app_distr.
  assert (G : forall l c post,
             Forall (fun p => (threshold_rate <=? snd p)%float = true) l ->
             (post = [] \/ exists p post', post = p :: post'
                            /\ (threshold_rate <=? snd p)%float = false) ->
             Binary64.streak_loop threshold_rate (l ++ post) c
             = (c + List.length l)%nat).
  { induction l as [|[m rate] l IH]; intros c post Fl Pp; simpl.
    - destruct Pp as [-> | ([m rate] & post' & -> & L)]; simpl; [lia|].
      simpl in L. rewrite L. lia.
    - inversion Fl as [|? ? Hr Fl']; subst. simpl in Hr. rewrite Hr.
      rewrite (IH (c + 1)%nat post Fl' Pp). lia. }
  rewrite (G (rev recent) 0%nat (rev older)).
  - now rewrite length_rev.
  - now apply Forall_rev.
  - destruct P as [-> | (o & p & -> & L)]; [now left|].
    right. exists p, (rev o). split; [|exact L].
    rewrite rev_app_distr. reflexivity.
Qed.

(** C1.  On binary64 amounts [consecutive_saving_months] always returns a
    count and a sequence.  The sequence has one entry per month bucket that
    holds a dated income or expense row, its keys strictly ascending; on
    calendar timestamps that is strict chronological order.  Each entry
    carries the saving rate of [monthly_summary] for its month, the float
    [(income - expense) / income * 100] when the income total is above 0 and
    0 otherwise.  The count is the length of the run of months whose rate is
    [>=] the threshold at the recent end: the sequence splits into older
    months, the last of which (if any) fails the comparison, and [count]
    recent months that all pass it, and every such split has that count.  An
    empty history gives count 0 and the empty sequence; with 5%, 20% and 50%
    saved in three consecutive months the streak at threshold 10 is 2, and
    at threshold 20 it is 2 as well (a rate equal to the threshold counts);
    with income 100 and expense 71 the rate is 28.999999999999996, which
    counts at threshold 28 and not at 29. *)
Theorem consecutive_saving_streak_spec :
  (forall to_datetime add_reduce conn threshold_rate,
      exists count seq,
        Binary64.consecutive_saving_months to_datetime add_reduce conn
          threshold_rate = Ok (count, seq)
        /\ StronglySorted slt (map fst seq)
        /\ (forall m, In m (map fst seq)
                      <-> Binary64.has_record to_datetime Binary64.i_the_date
                            strftime_Ym m (Binary64.incomes conn)
                          \/ Binary64.has_record to_datetime
                               Binary64.e_the_date strftime_Ym m
                               (Binary64.expenses conn))
        /\ Forall (fun p => exists s,
                       Binary64.monthly_summary to_datetime add_reduce conn
                         (Some (fst p)) = Ok s
                       /\ snd p = Binary64.saving_rate s
                       /\ snd p
                          = (if 0 <? Binary64.income s
                             then (Binary64.income s - Binary64.expense s)
                                  / Binary64.income s * 100
                             else 0)%float) seq
        /\ (exists older recent,
               seq = (older ++ recent)%list
               /\ count = List.length recent
               /\ Forall (fun p => (threshold_rate <=? snd p)%float = true)
                    recent
               /\ (older = []
                   \/ exists o p,
                        older = (o ++ [p])%list
                        /\ (threshold_rate <=? snd p)%float = false))
        /\ (forall older recent,
               seq = (older ++ recent)%list ->
               Forall (fun p => (threshold_rate <=? snd p)%float = true)
                 recent ->
               (older = []
                \/ exists o p,
                     older = (o ++ [p])%list
                     /\ (threshold_rate <=? snd p)%float = false) ->
               count = List.length recent)
        /\ ((forall column s t, to_datetime column s = Some t -> in_calendar t) ->
            exists ts, map fst seq = map strftime_Ym ts
                       /\ StronglySorted month_before ts))
  /\ (forall to_datetime add_reduce conn threshold_rate,
        rows (Binary64.incomes conn) = [] ->
        rows (Binary64.expenses conn) = [] ->
        Binary64.consecutive_saving_months to_datetime add_reduce conn
          threshold_rate = Ok (0%nat, []))
  /\ Binary64.consecutive_saving_months Binary64.iso_column
       Binary64.sum_in_order Binary64.three_months 10%float
     = Ok (2%nat, [("2024-01", 5%float); ("2024-02", 20%float);
                   ("2024-03", 50%float)])
  /\ Binary64.consecutive_saving_months Binary64.iso_column
       Binary64.sum_in_order Binary64.three_months 20%float
     = Ok (2%nat, [("2024-01", 5%float); ("2024-02", 20%float);
                   ("2024-03", 50%float)])
  /\ (exists rate,
        Binary64.consecutive_saving_months Binary64.iso_column
          Binary64.sum_in_order Binary64.thin_margin 29%float
        = Ok (0%nat, [("2024-01", rate)])
        /\ Binary64.consecutive_saving_months Binary64.iso_column
             Binary64.sum_in_order Binary64.thin_margin 28%float
           = Ok (1%nat, [("2024-01", rate)])
        /\ (28 <=? rate)%float = true /\ (29 <=? rate)%float = false).
Proof.
  split; [|split; [|split; [|split]]].
  - intros td ar conn thr.
    destruct (binary64_streak_run td ar conn) as (seq & R & K & F).
    exists (Binary64.streak_loop thr (rev seq) 0), seq.
    split; [exact (R thr)|].
    assert (S : StronglySorted slt (map fst seq))
      by (rewrite K; apply sorted_set_strict).
    assert (M : forall m,
               In m (map fst seq)
               <-> Binary64.has_record td Binary64.i_the_date strftime_Ym m
                     (Binary64.incomes conn)
                   \/ Binary64.has_record td Binary64.e_the_date strftime_Ym m
                        (Binary64.expenses conn))
      by (intros m; rewrite K; apply binary64_months).
    split; [exact S|]. split; [exact M|]. split.
    { eapply Forall_impl; [|exact F]. intros p (s & Rs & V).
      exists s. split; [exact Rs|]. split; [exact V|].
      destruct (binary64_summary_run td ar conn (Some (fst p)))
        as (s' & Rs' & _ & Rate).
      rewrite Rs in Rs'. injection Rs' as <-. now rewrite V. }
    split; [apply binary64_loop_recent|]. split.
    + intros older recent -> Fr P. now apply binary64_loop_unique.
    + intros Cal.
      destruct (keys_chronological strftime_Ym (map fst seq)
                  (fun t => eq_refl) S) as (ts & E & St & _).
      * intros k Ik. apply M in Ik.
        destruct Ik as [(r & t & _ & D & E) | (r & t & _ & D & E)];
          exists t; split; try exact E; exact (Cal _ _ _ D).
      * exists ts. now split.
  - intros td ar conn thr Hi He.
    unfold Binary64.consecutive_saving_months, Binary64.get_all_incomes,
      Binary64.get_all_expenses.
    rewrite Hi, He. reflexivity.
  - vm_compute. reflexivity.
  - vm_compute. reflexivity.
  - eexists. split; [vm_compute; reflexivity|].
    split; [vm_compute; reflexivity|]. split; vm_compute; reflexivity.
Qed.

Lemma consecutive_saving_streak_spec_witness :
  (forall column s t, Binary64.iso_column column s = Some t -> in_calendar t)
  /\ rows (Binary64.incomes Binary64.init_db) = []
  /\ exists count seq ts,
       Binary64.consecutive_saving_months Binary64.iso_column
         Binary64.sum_in_order Binary64.three_months 10%float
       = Ok (count, seq)
       /\ map fst seq = map strftime_Ym ts
       /\ StronglySorted month_before ts
       /\ Binary64.consecutive_saving_months Binary64.iso_column
            Binary64.sum_in_order Binary64.init_db 10%float = Ok (0%nat, []).
Proof.
  assert (Cal : forall column s t,
             Binary64.iso_column column s = Some t -> in_calendar t)
    by (intros column s t; apply iso_to_datetime_in_calendar).
  split; [exact Cal|]. split; [reflexivity|].
  destruct (proj1 consecutive_saving_streak_spec Binary64.iso_column
              Binary64.sum_in_order Binary64.three_months 10%float)
    as (count & seq & R & _ & _ & _ & _ & _ & C).
  destruct (C Cal) as (ts & E & S).
  exists count, seq, ts.
  split; [exact R|]. split; [exact E|]. split; [exact S|].
  exact (proj1 (proj2 consecutive_saving_streak_spec) Binary64.iso_column
           Binary64.sum_in_order Binary64.init_db 10%float eq_refl eq_refl).
Defined.

(** ** The simulation block on binary64 amounts *)

(** The head of a listing: a stored row whose key no stored row exceeds. *)
Lemma first_listed {A} (key : A -> string) (l : list (Z * A)) :
  l <> [] ->
  exists r0 rest,
    Storage.order_by_desc key l = r0 :: rest
    /\ In r0 l
    /\ forall r, In r l -> ~ slt (key (snd r0)) (key (snd r)).
Proof.
  intros N.
  pose proof (order_by_desc_perm key l) as P.
  pose proof (order_by_desc_sorted key l) as S.
  destruct (Storage.order_by_desc key l) as [|r0 rest].
  - apply Permutation_nil in P. contradiction.
  - exists r0, rest. split; [reflexivity|]. split.
    + apply (Permutation_in _ P). now left.
    + intros r I. apply (Permutation_in _ (Permutation_sym P)) in I.
      inversion S as [|? ? _ F]; subst.
      destruct I as [<- | I]; [apply slt_irrefl|].
      rewrite Forall_forall in F. now apply F.
Qed.

Section Binary64Simulasi.

Variable to_datetime : list string -> string -> option Timestamp.
Variable add_reduce : list float -> float.

Lemma binary64_average_run {A} (amount : A -> float) (df : DataFrame A) :
  Binary64.average add_reduce amount df
  = Ok (Binary64.mean_of add_reduce (Binary64.amount_cells amount df)).
Proof.
  unfold Binary64.average, Binary64.mean_of, Binary64.series_sum,
    Binary64.amount_cells.
  destruct df as [|r df]; [reflexivity|]. cbn [empty map].
  unfold Binary64.div_int.
  assert (M : Z.max 1 (Z.of_nat (List.length (r :: df)))
              = Z.of_nat (List.length (r :: df))) by (simpl List.length; lia).
  rewrite M.
  destruct (Z.of_nat (List.length (r :: df)) =? 0)%Z eqn:B;
    [apply Z.eqb_eq in B; simpl List.length in B; lia|].
  cbn [List.length]. rewrite length_map. reflexivity.
Qed.

(** The block, local by local. *)
Lemma binary64_simulasi_run (conn : Binary64.DB) (reduction : Z) :
  let icells :=
    Binary64.amount_cells Binary64.i_amount
      (Binary64.get_all_incomes to_datetime conn) in
  let ecells :=
    Binary64.amount_cells Binary64.e_amount
      (Binary64.get_all_expenses to_datetime conn) in
  let ai := Binary64.mean_of add_reduce icells in
  let ae := Binary64.mean_of add_reduce ecells in
  let red := (ae * (1 - Binary64.float_of_int reduction / 100))%float in
  let nms := (if 0 <? ai - red then ai - red else 0)%float in
  Binary64.simulasi to_datetime add_reduce conn reduction
  = Ok (Binary64.mkSimulasi ai ae
          match Binary64.get_targets to_datetime conn with
          | [] => None
          | t0 :: _ =>
              let sv := (Binary64.series_sum add_reduce icells
                         - Binary64.series_sum add_reduce ecells)%float in
              let d := (Binary64.t_target_amount (df_raw t0) - sv)%float in
              let rem := (if 0 <? d then d else 0)%float in
              let mn := (if 0 <? nms then rem / nms else infinity)%float in
              Some (Binary64.mkProjection sv red nms rem mn
                      (if (mn =? infinity)%float
                       then Binary64.st_warning_unreachable
                       else Binary64.st_success_estimate reduction nms mn))
          end).
Proof.
  intros icells ecells ai ae red nms.
  unfold Binary64.simulasi. rewrite !binary64_average_run. cbn [bind].
  fold icells ecells ai ae.
  destruct (Binary64.get_targets to_datetime conn) as [|t0 ts];
    [reflexivity|].
  unfold Binary64.div at 1.
  change (100 =? 0)%float with false. cbn [bind].
  unfold Binary64.max. fold red. fold nms.
  destruct (0 <? nms)%float eqn:B.
  - unfold Binary64.div. destruct (positive_sign nms B) as (_ & _ & ->).
    reflexivity.
  - reflexivity.
Qed.

End Binary64Simulasi.


(** C2, as stated, fails: with one income of 0.50, no expense and a target
    of 2^1023 the projected saving is 0.5, not 0, and the target is still
    reported as unreachable, because [remaining / new_monthly_saving]
    overflows to infinity. *)
Example simulasi_overflow_counterexample :
  exists sim p,
    Binary64.simulasi Binary64.iso_column Binary64.sum_in_order
      Binary64.huge_target 0 = Ok sim
    /\ Binary64.projection sim = Some p
    /\ Binary64.new_monthly_saving p = 0.5%float
    /\ (0 <? Binary64.new_monthly_saving p)%float = true
    /\ Binary64.months_needed p = infinity
    /\ Binary64.shown p = Binary64.st_warning_unreachable.
Proof.
  eexists. eexists. split; [vm_compute; reflexivity|].
  split; [reflexivity|]. repeat split.
Qed.

(** C2, amended.  For a reduction in 0..50 the block returns the two means
    per record (0 over no record), each the [Series.sum()] of the amount
    column divided by the number of records.  Over an empty target table
    there is no projection.  Otherwise the projection is built from a stored
    target that no stored target was created after:
    [reduced_expense = avg_expense * (1 - reduction/100)],
    [new_monthly_saving = max(0, avg_income - reduced_expense)],
    [remaining = max(0, target_amount - (total income - total expense))],
    [months_needed = remaining / new_monthly_saving] when the saving is above
    0 and infinity otherwise; the target is shown as unreachable exactly when
    [months_needed] is infinity, which is so whenever the projected saving is
    0, and the estimate is shown otherwise.  With no income record, at least
    one expense record, all expense amounts above 0 and a sum of such amounts
    that is not below 0, [avg_income] is 0, the projected saving is 0 and the
    target is unreachable.  Of two targets the one created last is used.
    With income 63, expense 90 and a reduction of 30% the projected saving is
    2^-47, so an estimate of [1000 / 2^-47] months is shown. *)
Theorem simulasi_spec :
  (forall to_datetime add_reduce conn (reduction : Z),
      (0 <= reduction <= 50)%Z ->
      exists sim icells ecells,
        Binary64.simulasi to_datetime add_reduce conn reduction = Ok sim
        /\ Permutation icells
             (map (fun r => Binary64.i_amount (snd r))
                  (rows (Binary64.incomes conn)))
        /\ Permutation ecells
             (map (fun r => Binary64.e_amount (snd r))
                  (rows (Binary64.expenses conn)))
        /\ Binary64.avg_income sim = Binary64.mean_of add_reduce icells
        /\ Binary64.avg_expense sim = Binary64.mean_of add_reduce ecells
        /\ (rows (Binary64.targets conn) = [] ->
            Binary64.projection sim = None)
        /\ (rows (Binary64.targets conn) <> [] ->
            exists t0 p,
              In t0 (rows (Binary64.targets conn))
              /\ (forall t, In t (rows (Binary64.targets conn)) ->
                            ~ slt (Binary64.t_created_at (snd t0))
                                  (Binary64.t_created_at (snd t)))
              /\ Binary64.projection sim = Some p
              /\ Binary64.saved_now p
                 = (Binary64.series_sum add_reduce icells
                    - Binary64.series_sum add_reduce ecells)%float
              /\ Binary64.reduced_expense p
                 = (Binary64.avg_expense sim
                    * (1 - Binary64.float_of_int reduction / 100))%float
              /\ Binary64.new_monthly_saving p
                 = (if 0 <? Binary64.avg_income sim - Binary64.reduced_expense p
                    then Binary64.avg_income sim - Binary64.reduced_expense p
                    else 0)%float
              /\ Binary64.remaining p
                 = (if 0 <? Binary64.t_target_amount (snd t0)
                            - Binary64.saved_now p
                    then Binary64.t_target_amount (snd t0)
                         - Binary64.saved_now p
                    else 0)%float
              /\ Binary64.months_needed p
                 = (if 0 <? Binary64.new_monthly_saving p
                    then Binary64.remaining p / Binary64.new_monthly_saving p
                    else infinity)%float
              /\ (Binary64.shown p = Binary64.st_warning_unreachable
                  <-> (Binary64.months_needed p =? infinity)%float = true)
              /\ ((Binary64.months_needed p =? infinity)%float = false ->
                  Binary64.shown p
                  = Binary64.st_success_estimate reduction
                      (Binary64.new_monthly_saving p)
                      (Binary64.months_needed p))
              /\ ((0 <? Binary64.new_monthly_saving p)%float = false ->
                  Binary64.shown p = Binary64.st_warning_unreachable)))
  /\ (forall to_datetime add_reduce conn (reduction : Z),
        (0 <= reduction <= 50)%Z ->
        (forall cells, Forall (fun c => (0 <? c)%float = true) cells ->
                       (add_reduce cells <? 0)%float = false) ->
        rows (Binary64.incomes conn) = [] ->
        rows (Binary64.expenses conn) <> [] ->
        Forall (fun r => (0 <? Binary64.e_amount (snd r))%float = true)
               (rows (Binary64.expenses conn)) ->
        rows (Binary64.targets conn) <> [] ->
        exists sim p,
          Binary64.simulasi to_datetime add_reduce conn reduction = Ok sim
          /\ Binary64.avg_income sim = 0%float
          /\ Binary64.projection sim = Some p
          /\ Binary64.new_monthly_saving p = 0%float
          /\ Binary64.months_needed p = infinity
          /\ Binary64.shown p = Binary64.st_warning_unreachable)
  /\ Binary64.simulasi Binary64.iso_column Binary64.sum_in_order
       Binary64.only_expense 10
     = Ok (Binary64.mkSimulasi 0 500
             (Some (Binary64.mkProjection (-500) 450 0 10500 infinity
                      Binary64.st_warning_unreachable)))
  /\ Binary64.simulasi Binary64.iso_column Binary64.sum_in_order
       Binary64.two_targets 10
     = Ok (Binary64.mkSimulasi 1000 600
             (Some (Binary64.mkProjection 400 540 460 20000
                      (20000 / 460)
                      (Binary64.st_success_estimate 10 460 (20000 / 460)))))
  /\ Binary64.simulasi Binary64.iso_column Binary64.sum_in_order
       Binary64.rounding_gap 30
     = Ok (Binary64.mkSimulasi 63 90
             (Some (Binary64.mkProjection (-27) (90 * (1 - 30 / 100))
                      0x1p-47 1000 (1000 / 0x1p-47)
                      (Binary64.st_success_estimate 30 0x1p-47
                         (1000 / 0x1p-47))))).
Proof.
  assert (Head : forall td conn,
    rows (Binary64.targets conn) <> [] ->
    exists t0 d rest,
      Binary64.get_targets td conn = mkRow (fst t0) (snd t0) d :: rest
      /\ In t0 (rows (Binary64.targets conn))
      /\ forall t, In t (rows (Binary64.targets conn)) ->
                   ~ slt (Binary64.t_created_at (snd t0))
                         (Binary64.t_created_at (snd t))).
  { intros td conn N.
    destruct (first_listed Binary64.t_created_at
                (rows (Binary64.targets conn)) N) as (t0 & rest & E & I & L).
    unfold Binary64.get_targets, Binary64.query_df. rewrite E. cbn [map].
    eexists t0, _, _. split; [reflexivity|]. split; assumption. }
  split; [|split; [|split; [|split]]].
  - intros td ar conn r _.
    pose proof (binary64_simulasi_run td ar conn r) as R. cbv zeta in R.
    eexists. 
    exists (Binary64.amount_cells Binary64.i_amount
              (Binary64.get_all_incomes td conn)),
           (Binary64.amount_cells Binary64.e_amount
              (Binary64.get_all_expenses td conn)).
    split; [exact R|].
    split; [apply column_cells|]. split; [apply column_cells|].
    cbn [Binary64.avg_income Binary64.avg_expense Binary64.projection].
    split; [reflexivity|]. split; [reflexivity|]. split.
    + intros E. unfold Binary64.get_targets. rewrite E. reflexivity.
    + intros N. destruct (Head td conn N) as (t0 & d & rest & E & I & L).
      rewrite E. cbn [df_raw].
      exists t0. eexists. split; [exact I|]. split; [exact L|].
      split; [reflexivity|].
      cbn [Binary64.saved_now Binary64.reduced_expense
           Binary64.new_monthly_saving Binary64.remaining
           Binary64.months_needed Binary64.shown].
      repeat (split; [reflexivity|]).
      set (mn := (if (0 <? _)%float then _ else infinity)%float).
      split; [|split].
      * destruct (mn =? infinity)%float; split; congruence.
      * intros ->. reflexivity.
      * intros B. unfold mn. rewrite B. reflexivity.
  - intros td ar conn r Hr Sum Hi Ne Pos Nt.
    pose proof (binary64_simulasi_run td ar conn r) as R. cbv zeta in R.
    destruct (Head td conn Nt) as (t0 & d & rest & E & _ & _).
    rewrite E in R. cbn [df_raw] in R.
    set (icells := Binary64.amount_cells Binary64.i_amount
                     (Binary64.get_all_incomes td conn)) in *.
    set (ecells := Binary64.amount_cells Binary64.e_amount
                     (Binary64.get_all_expenses td conn)) in *.
    assert (Ai : Binary64.mean_of ar icells = 0%float).
    { unfold icells, Binary64.get_all_incomes. rewrite Hi. reflexivity. }
    assert (Pe : Forall (fun c => (0 <? c)%float = true) ecells).
    { apply Forall_forall. intros c Ic.
      apply (Permutation_in _ (column_cells td Binary64.e_amount
                                 Binary64.e_the_date Binary64.e_the_date
                                 (rows (Binary64.expenses conn)))) in Ic.
      apply in_map_iff in Ic. destruct Ic as (r0 & <- & I0).
      rewrite Forall_forall in Pos. now apply Pos. }
    assert (Ae : (Binary64.mean_of ar ecells <? 0)%float = false).
    { unfold Binary64.mean_of. destruct ecells as [|c cs] eqn:Ec;
        [reflexivity|].
      apply div_not_below; [now apply Sum|]. apply float_of_count_sign. }
    assert (Red : (Binary64.mean_of ar ecells
                   * (1 - Binary64.float_of_int r / 100) <? 0)%float = false)
      by (apply mul_not_below; [exact Ae | now apply factor_sign]).
    rewrite Ai in R.
    rewrite (zero_minus_not_below _ Red) in R.
    change (0 <? 0)%float with false in R.
    change (infinity =? infinity)%float with true in R.
    eexists. eexists. split; [exact R|]. repeat split.
  - vm_compute. reflexivity.
  - vm_compute. reflexivity.
  - vm_compute. reflexivity.
Qed.

Lemma simulasi_spec_witness :
  (0 <= 10 <= 50)%Z
  /\ rows (Binary64.incomes Binary64.only_expense) = []
  /\ exists sim p,
       Binary64.simulasi Binary64.iso_column Binary64.sum_in_order
         Binary64.only_expense 10 = Ok sim
       /\ Binary64.avg_income sim = 0%float
       /\ Binary64.projection sim = Some p
       /\ Binary64.shown p = Binary64.st_warning_unreachable.
Proof.
  assert (Hr : (0 <= 10 <= 50)%Z) by lia.
  split; [exact Hr|]. split; [reflexivity|].
  destruct (proj1 (proj2 simulasi_spec) Binary64.iso_column
              Binary64.sum_in_order Binary64.only_expense 10%Z Hr
              sum_in_order_not_below eq_refl)
    as (sim & p & R & A & Pj & _ & _ & S).
  - discriminate.
  - repeat constructor.
  - discriminate.
  - exists sim, p. repeat split; assumption.
Defined.

(** ** [prepare_monthly_df] *)

Lemma lookup_keyed (f : string -> Q) (ks : list string) (k : string) :
  (In k ks -> lookup k (map (fun k' => (k', f k')) ks) = Some (f k))
  /\ (~ In k ks -> lookup k (map (fun k' => (k', f k')) ks) = None).
Proof.
  induction ks as [|k' ks [IHin IHout]]; simpl.
  - split; [intros [] | reflexivity].
  - destruct (String.eqb_spec k' k) as [-> | N].
    + split; [reflexivity | tauto].
    + split; [intros [E | I]; [congruence | now apply IHin]|].
      intros No. apply IHout. tauto.
Qed.

Lemma groupby_keys {A} `{EntryColumns A} (df : DataFrame A) :
  map fst (groupby_ym_sum df) = sorted (py_set (ym_period df)).
Proof.
  unfold groupby_ym_sum. rewrite map_map. simpl. apply map_id.
Qed.

Lemma sum_amount_no_match {A} `{EntryColumns A} (f : DfRow A -> bool)
  (df : DataFrame A) :
  (forall r, In r df -> f r = false) -> sum_amount (filter f df) == 0.
Proof.
  induction df as [|r df IH]; simpl; intros N; [reflexivity|].
  rewrite (N r (or_introl eq_refl)). apply IH. intros r' I. apply N. now right.
Qed.

(** A cell of the merged frame is the sum of its bucket, present or not. *)
Lemma merged_cell {A} `{EntryColumns A} (df : DataFrame A) (k : string) :
  fillna0 (lookup k (groupby_ym_sum df))
  == sum_amount (filter (in_period k) df).
Proof.
  unfold groupby_ym_sum.
  destruct (in_dec string_dec k (sorted (py_set (ym_period df)))) as [I | N].
  - rewrite (proj1 (lookup_keyed _ _ k) I). reflexivity.
  - rewrite (proj2 (lookup_keyed _ _ k) N). simpl. symmetry.
    apply sum_amount_no_match. intros r Ir.
    unfold in_period. destruct (df_date r) as [t|] eqn:D; [|reflexivity].
    apply String.eqb_neq. intros E. apply N.
    apply In_sorted_set. unfold ym_period. apply in_flat_map.
    exists r. split; [exact Ir|]. rewrite D. now left.
Qed.

Section SeriesFacts.

Variable to_datetime : string -> option Timestamp.

Lemma bucket_sum_stored {A} `{EntryColumns A} (t : Table A) (k : string) :
  sum_amount
    (filter (in_period k)
       (dropna (query_df to_datetime the_date
                  (Storage.order_by_desc the_date (rows t)))))
  == stored_total (dated_in to_datetime to_period_M_str k) t.
Proof.
  rewrite filter_dropna.
  - rewrite <- (table_eta t) at 2.
    rewrite (sum_filter_query to_datetime the_date (in_period k)
               (dated_in to_datetime to_period_M_str k) _ (autoinc t)).
    + apply stored_total_perm, order_by_desc_perm.
    + intros r. reflexivity.
  - intros r. unfold in_period. destruct (df_date r); [discriminate|].
    intros E _. discriminate E.
Qed.

Lemma empty_guard {B} (l : list B) : (if empty l then [] else l) = l.
Proof. now destruct l. Qed.

Lemma prepare_monthly_df_run (conn : DB) :
  exists keys,
    prepare_monthly_df to_datetime conn
    = map (fun k =>
             mkMonthRow k
               (fillna0 (lookup k (groupby_ym_sum
                                     (dropna (get_all_incomes to_datetime conn)))))
               (fillna0 (lookup k (groupby_ym_sum
                                     (dropna (get_all_expenses to_datetime conn))))))
          keys
    /\ StronglySorted slt keys
    /\ (forall k, In k keys
                  <-> has_record to_datetime to_period_M_str k (incomes conn)
                      \/ has_record to_datetime to_period_M_str k
                           (expenses conn)).
Proof.
  unfold prepare_monthly_df, to_datetime_again. rewrite !empty_guard.
  unfold merge_outer_fillna. rewrite !groupby_keys.
  set (keys := sorted (py_set (_ ++ _))).
  assert (S : StronglySorted slt keys) by apply sorted_set_strict.
  exists keys. split; [|split; [exact S|]].
  - apply sort_values_ym_sorted. rewrite map_map. simpl. now rewrite map_id.
  - intros k. unfold keys. rewrite In_sorted_set, in_app_iff, !In_sorted_set.
    pose proof (In_bucket_keys to_datetime to_period_M_str k (incomes conn))
      as Ki.
    pose proof (In_bucket_keys to_datetime to_period_M_str k (expenses conn))
      as Ke.
    unfold ym_period, get_all_incomes, get_all_expenses.
    simpl in Ki, Ke. rewrite Ki, Ke. reflexivity.
Qed.

End SeriesFacts.

(** C7. The rows of [prepare_monthly_df] have strictly ascending bucket keys
    (so no key twice); a key has a row exactly when some income or expense
    row is dated in that bucket; the income and expense cells are the sums of
    the stored amounts of the bucket, hence 0 on a side without rows in it.
    On calendar timestamps the keys are the images of strictly chronological,
    pairwise different months, and the month of every dated row is one of
    them. *)
Theorem monthly_series_spec :
  forall to_datetime conn,
    StronglySorted slt (map ym (prepare_monthly_df to_datetime conn))
    /\ (forall k,
           In k (map ym (prepare_monthly_df to_datetime conn))
           <-> has_record to_datetime to_period_M_str k (incomes conn)
               \/ has_record to_datetime to_period_M_str k (expenses conn))
    /\ Forall (fun row =>
                 m_income row
                 == stored_total (dated_in to_datetime to_period_M_str (ym row))
                      (incomes conn)
                 /\ m_expense row
                    == stored_total
                         (dated_in to_datetime to_period_M_str (ym row))
                         (expenses conn))
         (prepare_monthly_df to_datetime conn)
    /\ Forall (fun row =>
                 (~ has_record to_datetime to_period_M_str (ym row)
                      (incomes conn) -> m_income row == 0)
                 /\ (~ has_record to_datetime to_period_M_str (ym row)
                         (expenses conn) -> m_expense row == 0))
         (prepare_monthly_df to_datetime conn)
    /\ ((forall s t, to_datetime s = Some t -> in_calendar t) ->
        exists ts,
          map ym (prepare_monthly_df to_datetime conn)
          = map to_period_M_str ts
          /\ StronglySorted month_before ts
          /\ (forall t,
                 (exists r, In r (rows (incomes conn))
                            /\ to_datetime (i_the_date (snd r)) = Some t)
                 \/ (exists r, In r (rows (expenses conn))
                               /\ to_datetime (e_the_date (snd r)) = Some t) ->
                 exists t', In t' ts /\ same_month t t')).
Proof.
  intros td conn.
  destruct (prepare_monthly_df_run td conn) as (keys & R & S & M).
  assert (K : map ym (prepare_monthly_df td conn) = keys)
    by (rewrite R, map_map; simpl; apply map_id).
  assert (Cells :
    Forall (fun row =>
              m_income row
              == stored_total (dated_in td to_period_M_str (ym row))
                   (incomes conn)
              /\ m_expense row
                 == stored_total (dated_in td to_period_M_str (ym row))
                      (expenses conn))
      (prepare_monthly_df td conn)).
  { rewrite R. apply Forall_forall. intros row Ir.
    apply in_map_iff in Ir. destruct Ir as (k & <- & _). simpl.
    rewrite !merged_cell. split.
    - exact (bucket_sum_stored td (incomes conn) k).
    - exact (bucket_sum_stored td (expenses conn) k). }
  rewrite K. split; [exact S|]. split; [exact M|]. split; [exact Cells|].
  split.
  - eapply Forall_impl; [|exact Cells]. intros row [Ci Ce]. split; intros N.
    + rewrite Ci. apply stored_total_none. intros r Ir.
      unfold dated_in.
      destruct (td (the_date (snd r))) as [t|] eqn:D; [|reflexivity].
      apply String.eqb_neq. intros E. apply N. now exists r, t.
    + rewrite Ce. apply stored_total_none. intros r Ir.
      unfold dated_in.
      destruct (td (the_date (snd r))) as [t|] eqn:D; [|reflexivity].
      apply String.eqb_neq. intros E. apply N. now exists r, t.
  - intros Cal.
    destruct (keys_chronological to_period_M_str keys (fun t => eq_refl) S)
      as (ts & E & St & Ct).
    + intros k Ik. apply M in Ik.
      destruct Ik as [(r & t & _ & D & E) | (r & t & _ & D & E)];
        exists t; split; try exact E; exact (Cal _ _ D).
    + exists ts. split; [exact E|]. split; [exact St|].
      intros t Ht.
      assert (Ct0 : in_calendar t)
        by (destruct Ht as [(r & _ & D) | (r & _ & D)]; exact (Cal _ _ D)).
      assert (Hk : In (to_period_M_str t) keys).
      { apply M. destruct Ht as [(r & I & D) | (r & I & D)];
          [left | right]; now exists r, t. }
      rewrite E in Hk. apply in_map_iff in Hk.
      destruct Hk as (t' & Et' & It').
      exists t'. split; [exact It'|].
      rewrite Forall_forall in Ct.
      apply (strftime_Ym_chronological t t' Ct0 (Ct t' It')).
      change (to_period_M_str t = to_period_M_str t'). congruence.
Qed.

Lemma monthly_series_spec_witness :
  (forall s t, iso_to_datetime s = Some t -> in_calendar t)
  /\ exists ts,
       map ym (prepare_monthly_df iso_to_datetime three_months)
       = map to_period_M_str ts
       /\ StronglySorted month_before ts.
Proof.
  split; [exact iso_to_datetime_in_calendar|].
  destruct (monthly_series_spec iso_to_datetime three_months)
    as (_ & _ & _ & _ & C).
  destruct (C iso_to_datetime_in_calendar) as (ts & E & S & _).
  exists ts. split; [exact E | exact S].
Defined.

(** ** Rows without a date *)

Section UndatedRow.

Variable to_datetime : string -> option Timestamp.

(** A row whose date does not parse sits in no bucket. *)
Lemma undated_skipped {A} `{EntryColumns A} (l1 l2 : list (Z * A))
  (r : Z * A) (n : Z) (fmt : Timestamp -> string) (k : string) :
  to_datetime (the_date (snd r)) = None ->
  stored_total (dated_in to_datetime fmt k) (mkTable (l1 ++ r :: l2) n)
  == stored_total (dated_in to_datetime fmt k) (mkTable (l1 ++ l2) n)
  /\ (has_record to_datetime fmt k (mkTable (l1 ++ r :: l2) n)
      <-> has_record to_datetime fmt k (mkTable (l1 ++ l2) n)).
Proof.
  intros D. split.
  - apply stored_total_skip. unfold dated_in. now rewrite D.
  - unfold has_record. simpl. split; intros (r' & t & I & D' & E);
      exists r', t; (split; [|now split]).
    + apply in_app_iff in I. apply in_app_iff.
      destruct I as [I | [<- | I]]; [now left | congruence | now right].
    + apply in_app_iff in I. apply in_app_iff.
      destruct I as [I | I]; [now left | right; now right].
Qed.

(** A row whose date does not convert sits in no bucket of its table. *)
Lemma undated_in_no_bucket {A} `{EntryColumns A} (t : Table A)
  (before after : list (Z * A)) (r : Z * A) (fmt : Timestamp -> string)
  (k : string) :
  rows t = (before ++ r :: after)%list ->
  to_datetime (the_date (snd r)) = None ->
  stored_total (dated_in to_datetime fmt k) t
  == stored_total (dated_in to_datetime fmt k) (others before after t)
  /\ (has_record to_datetime fmt k t
      <-> has_record to_datetime fmt k (others before after t)).
Proof.
  intros E D. rewrite <- (table_eta t). rewrite E. unfold others.
  cbn [autoinc].
  exact (undated_skipped before after r (autoinc t) fmt k D).
Qed.

(** Its amount is part of the total of all rows. *)
Lemma undated_in_total {A} `{EntryColumns A} (t : Table A)
  (before after : list (Z * A)) (r : Z * A) :
  rows t = (before ++ r :: after)%list ->
  stored_total (fun _ => true) t
  == stored_total (fun _ => true) (others before after t) + amount (snd r).
Proof.
  intros E. rewrite <- (table_eta t) at 1. rewrite E. unfold others.
  exact (stored_total_keep (fun _ => true) before after r _ _ eq_refl).
Qed.

End UndatedRow.

Section UndatedResults.

Variable to_datetime : string -> option Timestamp.

(** Tables that agree with the stored ones bucket by bucket describe the
    bucketed aggregations. *)
Lemma bucketed_over_agree (conn : DB) (inc : Table Income)
  (exp : Table Expense) :
  (forall fmt k,
      stored_total (dated_in to_datetime fmt k) (incomes conn)
      == stored_total (dated_in to_datetime fmt k) inc
      /\ (has_record to_datetime fmt k (incomes conn)
          <-> has_record to_datetime fmt k inc)) ->
  (forall fmt k,
      stored_total (dated_in to_datetime fmt k) (expenses conn)
      == stored_total (dated_in to_datetime fmt k) exp
      /\ (has_record to_datetime fmt k (expenses conn)
          <-> has_record to_datetime fmt k exp)) ->
  bucketed_over to_datetime conn inc exp.
Proof.
  intros Hi He. split; [|split; [|split]].
  - intros m N.
    assert (N' : Some m <> Some "") by congruence.
    destruct (monthly_summary_totals to_datetime conn (Some m) N')
      as (s & R & I & E & _).
    exists s. split; [exact R|]. cbn [selected] in I, E. split.
    + rewrite I. apply Hi.
    + rewrite E. apply He.
  - intros k.
    destruct (prepare_monthly_df_run to_datetime conn) as (keys & R & _ & M).
    rewrite R, map_map. cbn [ym]. rewrite map_id, M.
    rewrite (proj2 (Hi to_period_M_str k)), (proj2 (He to_period_M_str k)).
    reflexivity.
  - destruct (prepare_monthly_df_run to_datetime conn) as (keys & R & _ & _).
    rewrite R. apply Forall_forall. intros row Ir.
    apply in_map_iff in Ir. destruct Ir as (k & <- & _). cbn [ym m_income m_expense].
    rewrite !merged_cell. split.
    + unfold get_all_incomes.
      rewrite (bucket_sum_stored to_datetime (incomes conn) k). apply Hi.
    + unfold get_all_expenses.
      rewrite (bucket_sum_stored to_datetime (expenses conn) k). apply He.
  - intros thr.
    destruct (consecutive_saving_months_run to_datetime conn thr)
      as (seq & R & K & _).
    eexists. exists seq. split; [exact R|]. intros m.
    rewrite K, In_months.
    rewrite (proj2 (Hi strftime_Ym m)), (proj2 (He strftime_Ym m)).
    reflexivity.
Qed.

Lemma unfiltered_totals_stored (conn : DB) :
  unfiltered_totals to_datetime conn
    (stored_total (fun _ => true) (incomes conn))
    (stored_total (fun _ => true) (expenses conn)).
Proof.
  split.
  - intros m F.
    destruct (monthly_summary_run to_datetime conn m) as (s & R & I & E & _).
    exists s. split; [exact R|]. split.
    + rewrite I. exact (all_rows_total to_datetime (incomes conn) m F).
    + rewrite E. exact (all_rows_total to_datetime (expenses conn) m F).
  - intros target.
    destruct (progress_saved_run to_datetime conn target) as (v & p & R & S).
    exists v, p. split; [exact R | exact S].
Qed.

Lemma unfiltered_totals_eq (conn : DB) (a b a' b' : Q) :
  a == a' -> b == b' ->
  unfiltered_totals to_datetime conn a b ->
  unfiltered_totals to_datetime conn a' b'.
Proof.
  intros Ea Eb [S P]. split.
  - intros m F. destruct (S m F) as (s & R & I & E).
    exists s. split; [exact R|]. split; [now rewrite <- Ea | now rewrite <- Eb].
  - intros target. destruct (P target) as (v & p & R & V).
    exists v, p. split; [exact R|]. now rewrite <- Ea, <- Eb.
Qed.

End UndatedResults.

(** C6.  Take any state and any income row of it whose date text does not
    convert (NaT).  Every date-bucketed aggregation of that state is the one
    of the other rows alone: the month-filtered [monthly_summary] sums the
    other income rows of the bucket, the monthly frame has a row for exactly
    the buckets holding another income row or an expense row and its cells
    are the sums over those rows, and the streak sequence has exactly those
    month keys; all of them return.  The totals taken without a bucket filter
    count the row: the income of [monthly_summary()] and the savings of
    [compute_progress_against_target] are the total of the other rows plus
    its amount.  The same holds for an expense row.  In the January scenario
    with an undated income of 250 the bucket "2024-01" still has income
    1,000,000, the unfiltered income is 1,000,250 and the monthly frame has
    the one row "2024-01". *)
Theorem undated_rows_excluded :
  (forall to_datetime conn before after (r : Z * Income),
      rows (incomes conn) = (before ++ r :: after)%list ->
      to_datetime (i_the_date (snd r)) = None ->
      bucketed_over to_datetime conn
        (others before after (incomes conn)) (expenses conn)
      /\ unfiltered_totals to_datetime conn
           (stored_total (fun _ => true) (others before after (incomes conn))
            + i_amount (snd r))
           (stored_total (fun _ => true) (expenses conn)))
  /\ (forall to_datetime conn before after (r : Z * Expense),
        rows (expenses conn) = (before ++ r :: after)%list ->
        to_datetime (e_the_date (snd r)) = None ->
        bucketed_over to_datetime conn
          (incomes conn) (others before after (expenses conn))
        /\ unfiltered_totals to_datetime conn
             (stored_total (fun _ => true) (incomes conn))
             (stored_total (fun _ => true)
                (others before after (expenses conn))
              + e_amount (snd r)))
  /\ (exists s1 s2,
        monthly_summary iso_to_datetime jan_2024_undated (Some "2024-01")
        = Ok s1
        /\ income s1 == 1000000
        /\ monthly_summary iso_to_datetime jan_2024_undated None = Ok s2
        /\ income s2 == 1000250
        /\ map ym (prepare_monthly_df iso_to_datetime jan_2024_undated)
           = ["2024-01"]).
Proof.
  split; [|split].
  - intros td conn before after r E D. split.
    + apply bucketed_over_agree.
      * intros fmt k.
        exact (undated_in_no_bucket td (incomes conn) before after r fmt k E D).
      * intros fmt k. split; reflexivity.
    + eapply unfiltered_totals_eq; [| |apply unfiltered_totals_stored].
      * exact (undated_in_total (incomes conn) before after r E).
      * reflexivity.
  - intros td conn before after r E D. split.
    + apply bucketed_over_agree.
      * intros fmt k. split; reflexivity.
      * intros fmt k.
        exact (undated_in_no_bucket td (expenses conn) before after r fmt k E D).
    + eapply unfiltered_totals_eq; [| |apply unfiltered_totals_stored].
      * reflexivity.
      * exact (undated_in_total (expenses conn) before after r E).
  - eexists. eexists. split; [vm_compute; reflexivity|].
    split; [vm_compute; reflexivity|]. split; [vm_compute; reflexivity|].
    split; vm_compute; reflexivity.
Qed.

Lemma undated_rows_excluded_witness :
  rows (incomes jan_2024_undated)
  = (rows (incomes jan_2024) ++ [(2%Z, undated)])%list
  /\ iso_to_datetime (i_the_date undated) = None
  /\ bucketed_over iso_to_datetime jan_2024_undated
       (others (rows (incomes jan_2024)) [] (incomes jan_2024_undated))
       (expenses jan_2024_undated)
  /\ unfiltered_totals iso_to_datetime jan_2024_undated
       (stored_total (fun _ => true)
          (others (rows (incomes jan_2024)) [] (incomes jan_2024_undated))
        + 250)
       (stored_total (fun _ => true) (expenses jan_2024_undated)).
Proof.
  assert (E : rows (incomes jan_2024_undated)
              = (rows (incomes jan_2024) ++ [(2%Z, undated)])%list)
    by reflexivity.
  assert (D : iso_to_datetime (i_the_date (snd (2%Z, undated))) = None)
    by reflexivity.
  split; [exact E|]. split; [exact D|].
  exact (proj1 undated_rows_excluded iso_to_datetime jan_2024_undated
           (rows (incomes jan_2024)) [] (2%Z, undated) E D).
Defined.

(** * Further properties *)

(** ** Ids under AUTOINCREMENT *)

Section IdFacts.

Context {A : Type}.

Lemma max_ids_bound (l : list (Z * A)) (i : Z) :
  In i (map fst l) -> (i <= fold_right Z.max 0 (map fst l))%Z.
Proof.
  induction l as [|r l IH]; simpl; [intros []|].
  intros [<- | I]; [lia|]. specialize (IH I). lia.
Qed.

Lemma next_id_fresh (t : Table A) :
  (autoinc t < Storage.next_id t)%Z
  /\ (0 < Storage.next_id t)%Z
  /\ Forall (fun i => (i < Storage.next_id t)%Z) (Storage.ids (rows t)).
Proof.
  unfold Storage.next_id, Storage.ids. split; [lia|]. split.
  - assert (0 <= fold_right Z.max 0 (map fst (rows t)))%Z; [|lia].
    induction (rows t) as [|r l IH]; simpl; lia.
  - apply Forall_forall. intros i I. apply max_ids_bound in I. lia.
Qed.

Lemma ids_filter (p : Z -> bool) (l : list (Z * A)) :
  Storage.ids (filter (fun r => p (fst r)) l) = filter p (Storage.ids l).
Proof.
  unfold Storage.ids. induction l as [|r l IH]; simpl; [reflexivity|].
  destruct (p (fst r)); simpl; now rewrite IH.
Qed.

Lemma insert_ok (t : Table A) (a : A) :
  table_ok t -> table_ok (Storage.insert t a).
Proof.
  intros [N F]. destruct (next_id_fresh t) as (La & _ & Fr).
  unfold table_ok, Storage.insert, Storage.ids in *. simpl.
  rewrite map_app. simpl. split.
  - apply NoDup_app; [exact N | repeat constructor; intros [] |].
    intros i Ii [<- | []]. rewrite Forall_forall in Fr.
    specialize (Fr _ Ii). lia.
  - apply Forall_app. split; [|repeat constructor; lia].
    eapply Forall_impl; [|exact Fr]. simpl. intros i. lia.
Qed.

Lemma delete_ok (t : Table A) (id : Z) :
  table_ok t -> table_ok (Storage.delete t id).
Proof.
  intros [N F]. unfold table_ok, Storage.delete. simpl.
  rewrite (ids_filter (fun i => negb (i =? id)%Z)). split.
  - now apply NoDup_filter.
  - apply Forall_filter_keep. exact F.
Qed.

Lemma delete_all_ok (t : Table A) : table_ok (Storage.delete_all t).
Proof. split; simpl; constructor. Qed.

Lemma create_ok : table_ok (@Storage.create A).
Proof. split; simpl; constructor. Qed.

(** What a run hands out lies above the counter it started from, and
    ascends. *)
Lemma run_assigned (ops : list (Storage.op A)) :
  forall t0 t es,
    Storage.run t0 ops = (t, es) ->
    (autoinc t0 <= autoinc t)%Z
    /\ Forall (fun i => (autoinc t0 < i <= autoinc t)%Z)
              (Storage.assigned_ids es)
    /\ StronglySorted Z.lt (Storage.assigned_ids es)
    /\ (table_ok t0 -> table_ok t).
Proof.
  induction ops as [|o ops IH]; intros t0 t es R; simpl in R.
  - injection R as <- <-. simpl.
    split; [lia|]. split; [constructor|]. split; [constructor | tauto].
  - destruct (Storage.run (fst (Storage.apply_op t0 o)) ops) as [t2 es'] eqn:R'.
    destruct (IH _ _ _ R') as (Mo & Fa & Sa & Ok').
    destruct (next_id_fresh t0) as (La & _).
    destruct o as [a | d]; simpl in R, R', Mo, Fa, Ok'; rewrite R' in R;
      injection R as <- <-; simpl.
    + split; [lia|]. split; [|split].
      * constructor; [lia|]. eapply Forall_impl; [|exact Fa]. simpl. lia.
      * constructor; [exact Sa|].
        eapply Forall_impl; [|exact Fa]. simpl. lia.
      * intros K. apply Ok'. now apply insert_ok.
    + split; [exact Mo|]. split; [exact Fa|]. split; [exact Sa|].
      intros K. apply Ok'. now apply delete_ok.
Qed.

End IdFacts.

(** X1. Over any sequence of adds and deletes on a table whose ids are
    distinct and at most its counter, the ids handed out are strictly
    ascending, all above the counter the sequence started from, and the table
    keeps distinct ids at most its counter. *)
Theorem ids_ascending_and_distinct :
  forall (A : Type) (t0 : Table A) (ops : list (Storage.op A)),
    table_ok t0 ->
    StronglySorted Z.lt (Storage.assigned_ids (snd (Storage.run t0 ops)))
    /\ Forall (fun i => (autoinc t0 < i)%Z)
              (Storage.assigned_ids (snd (Storage.run t0 ops)))
    /\ Forall (fun i => ~ In i (Storage.ids (rows t0)))
              (Storage.assigned_ids (snd (Storage.run t0 ops)))
    /\ table_ok (fst (Storage.run t0 ops)).
Proof.
  intros A t0 ops K.
  destruct (Storage.run t0 ops) as [t es] eqn:R.
  destruct (run_assigned ops _ _ _ R) as (_ & Fa & Sa & Ok'). simpl.
  split; [exact Sa|]. split; [|split; [|now apply Ok']].
  - eapply Forall_impl; [|exact Fa]. simpl. lia.
  - eapply Forall_impl; [|exact Fa]. simpl. intros i Hi Ii.
    destruct K as [_ F]. rewrite Forall_forall in F. specialize (F _ Ii). lia.
Qed.

Lemma ids_ascending_and_distinct_witness :
  table_ok (incomes jan_2024)
  /\ StronglySorted Z.lt
       (Storage.assigned_ids
          (snd (Storage.run (incomes jan_2024) delete_before_add)))
  /\ table_ok (fst (Storage.run (incomes jan_2024) delete_before_add)).
Proof.
  assert (K : table_ok (incomes jan_2024)).
  { split; simpl; repeat constructor; [intros [] | lia]. }
  split; [exact K|].
  destruct (ids_ascending_and_distinct Income (incomes jan_2024)
              delete_before_add K) as (S & _ & _ & T).
  split; assumption.
Defined.

(** X3. An insert followed by the delete of the id it was given leaves the
    rows as they were, while the counter keeps that id; the new row is listed
    under the id with the values it was inserted with.  Through the
    application: saving an income and pressing the delete button with its id
    restores the income rows. *)
Theorem insert_then_delete :
  (forall (A : Type) (t : Table A) (a : A),
      In (Storage.next_id t, a) (rows (Storage.insert t a))
      /\ rows (Storage.delete (Storage.insert t a) (Storage.next_id t))
         = rows t
      /\ autoinc (Storage.delete (Storage.insert t a) (Storage.next_id t))
         = Storage.next_id t)
  /\ (forall to_datetime conn amount source the_date,
        rows (incomes
                (fst (del_inc_btn to_datetime
                        (add_income conn amount source the_date)
                        (Storage.next_id (incomes conn)))))
        = rows (incomes conn)).
Proof.
  assert (G : forall (A : Type) (t : Table A) (a : A),
             rows (Storage.delete (Storage.insert t a) (Storage.next_id t))
             = rows t).
  { intros A t a.
    assert (N : ~ In (Storage.next_id t) (Storage.ids (rows t))).
    { intros I. destruct (next_id_fresh t) as (_ & _ & Fr).
      rewrite Forall_forall in Fr. specialize (Fr _ I). lia. }
    pose proof (f_equal rows (delete_absent t (Storage.next_id t) N)) as E.
    unfold Storage.delete, Storage.insert in *. simpl in *.
    rewrite filter_app, E. simpl. rewrite Z.eqb_refl. simpl.
    apply app_nil_r. }
  split.
  - intros A t a. split; [|split; [apply G | reflexivity]].
    unfold Storage.insert. simpl. apply in_app_iff. right. now left.
  - intros td conn q s d. unfold del_inc_btn.
    destruct (empty _) eqn:B.
    + exfalso. unfold get_all_incomes, add_income in B. simpl in B.
      assert (L := query_length td i_the_date i_the_date
                     (rows (incomes conn)
                      ++ [(Storage.next_id (incomes conn),
                           mkIncome q s (to_iso d))])).
      rewrite length_app in L. simpl in L.
      destruct (query_df _ _ _); [simpl in L; lia | discriminate B].
    + destruct (next_id_fresh (incomes conn)) as (_ & P & _).
      apply Z.ltb_lt in P. rewrite P. simpl. apply G.
Qed.

(** ** Sessions: ids and target validation *)

Section SessionFacts.

Variable to_datetime : string -> option Timestamp.

Lemma insert_counter {A} (t : Table A) (a : A) :
  (autoinc t <= autoinc (Storage.insert t a))%Z.
Proof. destruct (next_id_fresh t) as (L & _). simpl. lia. Qed.

Lemma click_db_ok (conn : DB) (a : Action) :
  db_ok conn ->
  db_ok (fst (click to_datetime conn a))
  /\ counters_le conn (fst (click to_datetime conn a)).
Proof.
  intros K. pose proof K as (Ki & Ke & Kt).
  assert (R : counters_le conn conn) by (unfold counters_le; lia).
  destruct a; simpl.
  - unfold save_income_btn. destruct (Qle_bool inc_amount 0);
      [split; [exact K | exact R]|].
    simpl. split; [split; [now apply insert_ok | now split]|].
    pose proof (insert_counter (incomes conn)
                  (mkIncome inc_amount inc_source
                     (to_iso (PyDate inc_date)))).
    unfold counters_le. simpl in *. lia.
  - unfold save_expense_btn. destruct (Qle_bool exp_amount 0);
      [split; [exact K | exact R]|].
    simpl. split; [split; [exact Ki | split; [now apply insert_ok | exact Kt]]|].
    pose proof (insert_counter (expenses conn)
                  (mkExpense exp_amount exp_category exp_desc
                     (to_iso (PyDate exp_date)))).
    unfold counters_le. simpl in *. lia.
  - unfold save_target_btn.
    destruct (strip_is_empty tname || Qle_bool tgt_amount 0);
      [split; [exact K | exact R]|].
    simpl. split; [split; [exact Ki | split; [exact Ke | now apply insert_ok]]|].
    pose proof (insert_counter (targets conn)
                  (mkTarget tname tgt_amount (to_iso (PyDate tgt_date)) now)).
    unfold counters_le. simpl in *. lia.
  - unfold del_inc_btn. destruct (empty _);
      [split; [exact K | exact R]|].
    destruct (0 <? to_del)%Z; [|split; [exact K | exact R]].
    simpl. split; [split; [now apply delete_ok | now split] | exact R].
  - unfold del_exp_btn. destruct (empty _);
      [split; [exact K | exact R]|].
    destruct (0 <? to_del_e)%Z; [|split; [exact K | exact R]].
    simpl.
    split; [split; [exact Ki | split; [now apply delete_ok | exact Kt]]
           | exact R].
  - unfold del_target_btn, delete_target. destruct (empty _);
      [split; [exact K | exact R]|].
    destruct (0 <? to_del_t)%Z; [|split; [exact K | exact R]].
    simpl.
    split; [split; [exact Ki | split; [exact Ke | now apply delete_ok]]
           | exact R].
  - split; [|exact R]. repeat split; simpl; constructor.
Qed.

Lemma session_db_ok (acts : list Action) (conn : DB) :
  db_ok conn ->
  db_ok (session to_datetime conn acts)
  /\ counters_le conn (session to_datetime conn acts).
Proof.
  revert conn. unfold session.
  induction acts as [|a acts IH]; intros conn K; simpl.
  - split; [exact K|]. unfold counters_le. lia.
  - destruct (click_db_ok conn a K) as [K1 L1].
    destruct (IH _ K1) as [K2 L2]. split; [exact K2|].
    unfold counters_le in *. lia.
Qed.

Lemma click_targets_valid (conn : DB) (a : Action) :
  targets_valid conn -> targets_valid (fst (click to_datetime conn a)).
Proof.
  unfold targets_valid. intros V. destruct a; simpl.
  - unfold save_income_btn. now destruct (Qle_bool inc_amount 0).
  - unfold save_expense_btn. now destruct (Qle_bool exp_amount 0).
  - unfold save_target_btn.
    destruct (strip_is_empty tname) eqn:Bn; [exact V|].
    destruct (Qle_bool tgt_amount 0) eqn:Bq; [exact V|]. simpl.
    apply Forall_app. split; [exact V|].
    constructor; [|constructor]. simpl. split; [exact Bn|].
    apply Qnot_le_lt. intros L. apply Qle_bool_iff in L. congruence.
  - unfold del_inc_btn. destruct (empty _); [exact V|].
    now destruct (0 <? to_del)%Z.
  - unfold del_exp_btn. destruct (empty _); [exact V|].
    now destruct (0 <? to_del_e)%Z.
  - unfold del_target_btn, delete_target. destruct (empty _); [exact V|].
    destruct (0 <? to_del_t)%Z; [|exact V]. simpl.
    now apply Forall_filter_keep.
  - constructor.
Qed.

Lemma session_targets_valid (acts : list Action) (conn : DB) :
  targets_valid conn -> targets_valid (session to_datetime conn acts).
Proof.
  revert conn. unfold session.
  induction acts as [|a acts IH]; intros conn V; simpl; [exact V|].
  apply IH. now apply click_targets_valid.
Qed.

End SessionFacts.

(** X2. Whatever the user does (save, delete, reset), every table keeps
    distinct ids, and an id that was ever listed is never handed out again:
    the id the next insert assigns is above every id listed at any earlier
    point of the session, also after the row was deleted or all data was
    reset. *)
Theorem ids_never_reused :
  forall to_datetime (acts1 acts2 : list Action),
    db_ok (session to_datetime init_db (acts1 ++ acts2))
    /\ Forall (fun i =>
                 (i < Storage.next_id
                        (incomes (session to_datetime init_db
                                    (acts1 ++ acts2))))%Z)
         (Storage.ids (rows (incomes (session to_datetime init_db acts1))))
    /\ Forall (fun i =>
                 (i < Storage.next_id
                        (expenses (session to_datetime init_db
                                     (acts1 ++ acts2))))%Z)
         (Storage.ids (rows (expenses (session to_datetime init_db acts1))))
    /\ Forall (fun i =>
                 (i < Storage.next_id
                        (targets (session to_datetime init_db
                                    (acts1 ++ acts2))))%Z)
         (Storage.ids (rows (targets (session to_datetime init_db acts1)))).
Proof.
  intros td acts1 acts2.
  assert (K0 : db_ok init_db) by (repeat split; simpl; constructor).
  destruct (session_db_ok td acts1 init_db K0) as [K1 _].
  assert (E : session td init_db (acts1 ++ acts2)
              = session td (session td init_db acts1) acts2)
    by (unfold session; apply fold_left_app).
  rewrite E.
  destruct (session_db_ok td acts2 _ K1) as [K2 (Li & Le & Lt)].
  split; [exact K2|].
  destruct K1 as ((_ & Fi) & (_ & Fe) & (_ & Ft)).
  set (c1 := session td init_db acts1) in *.
  set (c2 := session td c1 acts2) in *.
  destruct (next_id_fresh (incomes c2)) as (Ni & _).
  destruct (next_id_fresh (expenses c2)) as (Ne & _).
  destruct (next_id_fresh (targets c2)) as (Nt & _).
  split; [|split].
  - eapply Forall_impl; [|exact Fi]. simpl. intros i Hi. lia.
  - eapply Forall_impl; [|exact Fe]. simpl. intros i Hi. lia.
  - eapply Forall_impl; [|exact Ft]. simpl. intros i Hi. lia.
Qed.

(** ** Blank names *)

Lemma strip_space (cp : N) (s : string) :
  In cp whitespace -> strip_is_empty (utf8 cp ++ s) = strip_is_empty s.
Proof.
  intros I. unfold whitespace in I.
  repeat (destruct I as [<- | I]; [reflexivity|]). destruct I.
Qed.

Lemma strip_blank (cps : list N) :
  Forall (fun cp => In cp whitespace) cps -> strip_is_empty (text cps) = true.
Proof.
  induction 1 as [|cp cps I F IH]; [reflexivity|].
  cbn [text fold_right]. rewrite (strip_space cp _ I). exact IH.
Qed.

(** A byte below 128 is a character of its own; it belongs to no longer
    whitespace character. *)
Lemma strip_ascii_tail (c : ascii) (s : string) :
  (nat_of_ascii c < 128)%nat -> is_space c = false ->
  forall p, strip_is_empty (p ++ String c s) = false.
Proof.
  intros L N.
  assert (N2 : forall c1, is_space_2 c1 c = false).
  { intros c1. unfold is_space_2. cbv zeta.
    destruct (Nat.eqb_spec (nat_of_ascii c) 133); [lia|].
    destruct (Nat.eqb_spec (nat_of_ascii c) 160); [lia|].
    cbn. apply andb_false_r. }
  assert (N2' : forall c2, is_space_2 c c2 = false).
  { intros c2. unfold is_space_2. cbv zeta.
    destruct (Nat.eqb_spec (nat_of_ascii c) 194); [lia | reflexivity]. }
  assert (Ne : forall k, (128 <= k)%nat -> (nat_of_ascii c =? k)%nat = false)
    by (intros k Lk; apply Nat.eqb_neq; lia).
  assert (Nl : (128 <=? nat_of_ascii c)%nat = false)
    by (apply Nat.leb_gt; exact L).
  assert (N3 : forall c1 c2 c3,
             c1 = c \/ c2 = c \/ c3 = c -> is_space_3 c1 c2 c3 = false).
  { intros c1 c2 c3 H. unfold is_space_3. cbv zeta.
    destruct H as [-> | [-> | ->]];
      rewrite ?Nl, !Ne by lia; cbn [andb orb];
      rewrite ?andb_false_r; reflexivity. }
  assert (G : forall n p, (String.length p <= n)%nat ->
                          strip_is_empty (p ++ String c s) = false).
  { induction n as [|n IH]; intros p Len.
    - destruct p; [|simpl in Len; lia]. cbn [append strip_is_empty].
      rewrite N. destruct s as [|c2 s2]; [reflexivity|]. rewrite N2'.
      destruct s2 as [|c3 s3]; [reflexivity|].
      rewrite N3 by now left. reflexivity.
    - destruct p as [|c1 p1]; [apply IH; simpl; lia|].
      cbn [append strip_is_empty].
      destruct (is_space c1); [apply IH; simpl in Len; lia|].
      destruct p1 as [|c2 p2].
      + cbn [append]. rewrite N2. destruct s as [|c3 s3]; [reflexivity|].
        rewrite N3 by (right; now left). reflexivity.
      + cbn [append].
        destruct (is_space_2 c1 c2); [apply IH; simpl in Len; lia|].
        destruct p2 as [|c3 p3].
        * cbn [append]. rewrite N3 by (right; now right). reflexivity.
        * cbn [append]. destruct (is_space_3 c1 c2 c3); [|reflexivity].
          cbn [andb]. apply IH. simpl in Len. lia. }
  intros p. now apply (G (String.length p)).
Qed.

Lemma In_whitespace (cp : N) :
  existsb (N.eqb cp) whitespace = true -> In cp whitespace.
Proof.
  intros E. apply existsb_exists in E. destruct E as (w & I & E).
  apply N.eqb_eq in E. now subst.
Qed.

(** X4. The target form stores nothing and shows its error when the name is
    blank or the amount is not positive; otherwise it stores the target.  So
    after any session every stored target has a name that is not blank and a
    positive amount.  A name is blank when it is made of whitespace
    characters only, those of ASCII as well as NO-BREAK SPACE and the other
    Unicode spaces; a name with a printable ASCII character is not blank. *)
Theorem target_form_validated :
  (forall conn now tname tgt_amount tgt_date,
      strip_is_empty tname = true \/ tgt_amount <= 0 ->
      save_target_btn conn now tname tgt_amount tgt_date
      = (conn, [st_error "Isi nama target dan nominal target > 0"]))
  /\ (forall conn now tname tgt_amount tgt_date,
        strip_is_empty tname = false -> 0 < tgt_amount ->
        save_target_btn conn now tname tgt_amount tgt_date
        = (add_target conn now tname tgt_amount (PyDate tgt_date),
           [st_success "Target tersimpan."]))
  /\ (forall to_datetime acts,
        targets_valid (session to_datetime init_db acts))
  /\ (forall cps,
        Forall (fun cp => In cp whitespace) cps ->
        strip_is_empty (text cps) = true)
  /\ (forall before c after,
        (32 < nat_of_ascii c < 127)%nat ->
        strip_is_empty (before ++ String c after) = false)
  /\ (forall conn now tgt_amount tgt_date,
        save_target_btn conn now (utf8 160) tgt_amount tgt_date
        = (conn, [st_error "Isi nama target dan nominal target > 0"])).
Proof.
  split; [|split; [|split; [|split; [|split]]]].
  - intros conn now tname q d [Bn | L]; unfold save_target_btn.
    + now rewrite Bn.
    + apply Qle_bool_iff in L. rewrite L. now rewrite orb_true_r.
  - intros conn now tname q d Bn L. unfold save_target_btn. rewrite Bn.
    destruct (Qle_bool q 0) eqn:B; [|reflexivity].
    apply Qle_bool_iff in B. exfalso. exact (Qlt_not_le _ _ L B).
  - intros td acts. apply session_targets_valid. constructor.
  - exact strip_blank.
  - intros before c after [L U]. apply strip_ascii_tail; [lia|].
    unfold is_space. cbv zeta.
    destruct (Nat.leb_spec (nat_of_ascii c) 13); [lia|].
    destruct (Nat.leb_spec (nat_of_ascii c) 32); [lia|].
    now rewrite !andb_false_r.
  - intros conn now q d. reflexivity.
Qed.

Lemma target_form_validated_witness :
  (strip_is_empty "   " = true \/ 500 <= 0)
  /\ Forall (fun cp => In cp whitespace) [32; 160; 8195; 12288]%N
  /\ (32 < nat_of_ascii "a" < 127)%nat
  /\ save_target_btn jan_2024 "2024-02-01T08:00:00" "   " 500
       (mkDate 2024 6 30)
     = (jan_2024, [st_error "Isi nama target dan nominal target > 0"])
  /\ save_target_btn jan_2024 "2024-02-01T08:00:00" "Sepatu" 1000
       (mkDate 2024 6 30)
     = (small_target, [st_success "Target tersimpan."])
  /\ strip_is_empty (text [32; 160; 8195; 12288]%N) = true
  /\ strip_is_empty ("  " ++ String "a" " ") = false.
Proof.
  assert (B : strip_is_empty "   " = true \/ 500 <= 0) by (left; reflexivity).
  assert (W : Forall (fun cp => In cp whitespace) [32; 160; 8195; 12288]%N).
  { apply Forall_forall. intros cp I. apply In_whitespace.
    repeat (destruct I as [<- | I]; [reflexivity|]). destruct I. }
  assert (P : (32 < nat_of_ascii "a" < 127)%nat) by (vm_compute; lia).
  split; [exact B|]. split; [exact W|]. split; [exact P|].
  split; [|split; [|split]].
  - exact (proj1 target_form_validated jan_2024 "2024-02-01T08:00:00" "   "
             500 (mkDate 2024 6 30) B).
  - exact (proj1 (proj2 target_form_validated) jan_2024
             "2024-02-01T08:00:00" "Sepatu" 1000 (mkDate 2024 6 30)
             eq_refl eq_refl).
  - exact (proj1 (proj2 (proj2 (proj2 target_form_validated))) _ W).
  - exact (proj1 (proj2 (proj2 (proj2 (proj2 target_form_validated))))
             "  " "a"%char " " P).
Defined.

(** ** What saving and deleting an entry do to the summaries *)

Section EntryEffect.

Variable to_datetime : string -> option Timestamp.

Lemma stored_total_insert {A} `{EntryColumns A} (keep : A -> bool)
  (t : Table A) (a : A) :
  stored_total keep (Storage.insert t a)
  == stored_total keep t + (if keep a then amount a else 0).
Proof.
  destruct t as [l n]. unfold Storage.insert. cbn [rows autoinc].
  destruct (keep a) eqn:K.
  - rewrite (stored_total_keep keep l [] (Storage.next_id (mkTable l n), a)
               (Storage.next_id (mkTable l n)) n K).
    now rewrite app_nil_r.
  - rewrite (stored_total_skip keep l [] (Storage.next_id (mkTable l n), a)
               (Storage.next_id (mkTable l n)) n K).
    rewrite app_nil_r. ring.
Qed.

Lemma delete_listed_row {A} (t : Table A) (id : Z) (a : A) :
  NoDup (Storage.ids (rows t)) -> In (id, a) (rows t) ->
  exists l1 l2,
    rows t = (l1 ++ (id, a) :: l2)%list
    /\ rows (Storage.delete t id) = (l1 ++ l2)%list.
Proof.
  intros N I. destruct (in_split _ _ I) as (l1 & l2 & E).
  exists l1, l2. split; [exact E|].
  unfold Storage.delete, Storage.ids in *. simpl. rewrite E in *.
  rewrite map_app in N. simpl in N.
  apply NoDup_remove_2 in N. rewrite in_app_iff in N.
  rewrite filter_app. simpl. rewrite Z.eqb_refl. simpl.
  assert (F : forall l, ~ In id (map fst l) ->
                        filter (fun r : Z * A => negb (fst r =? id)%Z) l = l).
  { intros l. induction l as [|r l IH]; simpl; [reflexivity|]. intros NI.
    destruct (Z.eqb_spec (fst r) id) as [Ei | _]; [tauto|].
    simpl. f_equal. apply IH. tauto. }
  rewrite !F by tauto. reflexivity.
Qed.

Lemma stored_total_delete {A} `{EntryColumns A} (keep : A -> bool)
  (t : Table A) (id : Z) (a : A) :
  NoDup (Storage.ids (rows t)) -> In (id, a) (rows t) ->
  stored_total keep (Storage.delete t id)
  == stored_total keep t - (if keep a then amount a else 0).
Proof.
  intros N I. destruct (delete_listed_row t id a N I) as (l1 & l2 & E1 & E2).
  assert (T1 : stored_total keep t
               = stored_total keep (mkTable (l1 ++ (id, a) :: l2) 0))
    by (unfold stored_total; now rewrite E1).
  assert (T2 : stored_total keep (Storage.delete t id)
               = stored_total keep (mkTable (l1 ++ l2) 0))
    by (unfold stored_total; now rewrite E2).
  rewrite T1, T2. destruct (keep a) eqn:K.
  - rewrite (stored_total_keep keep l1 l2 (id, a) 0 0 K). simpl. ring.
  - rewrite (stored_total_skip keep l1 l2 (id, a) 0 0 K). ring.
Qed.

Lemma save_income_stored (conn : DB) (q : Q) (src : string) (d : Date) :
  0 < q ->
  fst (save_income_btn conn q src d) = add_income conn q src (PyDate d).
Proof.
  intros L. unfold save_income_btn. destruct (Qle_bool q 0) eqn:B;
    [|reflexivity].
  apply Qle_bool_iff in B. exfalso. exact (Qlt_not_le _ _ L B).
Qed.

Lemma save_expense_stored (conn : DB) (q : Q) (c e : string) (d : Date) :
  0 < q ->
  fst (save_expense_btn conn q c e d) = add_expense conn q c e (PyDate d).
Proof.
  intros L. unfold save_expense_btn. destruct (Qle_bool q 0) eqn:B;
    [|reflexivity].
  apply Qle_bool_iff in B. exfalso. exact (Qlt_not_le _ _ L B).
Qed.

End EntryEffect.

Section SummaryOnRows.

Variable to_datetime : string -> option Timestamp.

(** The summary of a month of the calendar, on the stored rows. *)
Lemma calendar_month_summary (conn : DB) (t : Timestamp) :
  (forall s t', to_datetime s = Some t' -> in_calendar t') ->
  in_calendar t ->
  exists s,
    monthly_summary to_datetime conn (Some (strftime_Ym t)) = Ok s
    /\ income s
       == stored_total (dated_in_month to_datetime (year t) (month t))
            (incomes conn)
    /\ expense s
       == stored_total (dated_in_month to_datetime (year t) (month t))
            (expenses conn).
Proof.
  intros Cal C.
  assert (N : Some (strftime_Ym t) <> Some "").
  { intros E. injection E as E. exact (strftime_Ym_not_empty t E). }
  destruct (monthly_summary_totals to_datetime conn _ N) as (s & R & I & E & _).
  exists s. split; [exact R|]. cbn [selected] in I, E. split.
  - rewrite I. now apply calendar_month_rows.
  - rewrite E. now apply calendar_month_rows.
Qed.

(** The summary under a falsy month argument, on the stored rows. *)
Lemma unfiltered_summary (conn : DB) (m : option string) :
  m = None \/ m = Some "" ->
  exists s,
    monthly_summary to_datetime conn m = Ok s
    /\ income s == stored_total (fun _ => true) (incomes conn)
    /\ expense s == stored_total (fun _ => true) (expenses conn).
Proof.
  intros F.
  destruct (monthly_summary_run to_datetime conn m) as (s & R & I & E & _).
  exists s. split; [exact R|]. split.
  - rewrite I. exact (all_rows_total to_datetime (incomes conn) m F).
  - rewrite E. exact (all_rows_total to_datetime (expenses conn) m F).
Qed.

End SummaryOnRows.

(** X5. A saved entry is counted where its date puts it.  In the state
    after an income of a positive amount was saved through the form,
    [monthly_summary] under an absent or empty month argument has the income
    total of the rows stored before plus the amount, and the expense total of
    the stored expenses; on calendar timestamps the summary of a month has
    the income total of the rows stored before that are dated in that month,
    plus the amount exactly when the new entry is dated in that month.  The
    same for a saved expense, with the roles of the totals exchanged. *)
Theorem saved_entry_is_counted :
  (forall to_datetime conn q src d (m : option string),
      0 < q -> m = None \/ m = Some "" ->
      exists s,
        monthly_summary to_datetime (fst (save_income_btn conn q src d)) m
        = Ok s
        /\ income s == stored_total (fun _ => true) (incomes conn) + q
        /\ expense s == stored_total (fun _ => true) (expenses conn))
  /\ (forall to_datetime conn q src d (t : Timestamp),
        0 < q ->
        (forall s t', to_datetime s = Some t' -> in_calendar t') ->
        in_calendar t ->
        exists s,
          monthly_summary to_datetime (fst (save_income_btn conn q src d))
            (Some (strftime_Ym t)) = Ok s
          /\ income s
             == stored_total (dated_in_month to_datetime (year t) (month t))
                  (incomes conn)
                + (if dated_in_month to_datetime (year t) (month t)
                        (mkIncome q src (isoformat d))
                   then q else 0)
          /\ expense s
             == stored_total (dated_in_month to_datetime (year t) (month t))
                  (expenses conn))
  /\ (forall to_datetime conn q cat desc d (m : option string),
        0 < q -> m = None \/ m = Some "" ->
        exists s,
          monthly_summary to_datetime
            (fst (save_expense_btn conn q cat desc d)) m = Ok s
          /\ income s == stored_total (fun _ => true) (incomes conn)
          /\ expense s == stored_total (fun _ => true) (expenses conn) + q)
  /\ (forall to_datetime conn q cat desc d (t : Timestamp),
        0 < q ->
        (forall s t', to_datetime s = Some t' -> in_calendar t') ->
        in_calendar t ->
        exists s,
          monthly_summary to_datetime
            (fst (save_expense_btn conn q cat desc d))
            (Some (strftime_Ym t)) = Ok s
          /\ income s
             == stored_total (dated_in_month to_datetime (year t) (month t))
                  (incomes conn)
          /\ expense s
             == stored_total (dated_in_month to_datetime (year t) (month t))
                  (expenses conn)
                + (if dated_in_month to_datetime (year t) (month t)
                        (mkExpense q cat desc (isoformat d))
                   then q else 0)).
Proof.
  split; [|split; [|split]].
  - intros td conn q src d m L F. rewrite (save_income_stored conn q src d L).
    destruct (unfiltered_summary td (add_income conn q src (PyDate d)) m F)
      as (s & R & I & E).
    exists s. split; [exact R|]. split; [|exact E].
    rewrite I. cbn [add_income incomes to_iso].
    exact (stored_total_insert (fun _ => true) (incomes conn)
             (mkIncome q src (isoformat d))).
  - intros td conn q src d t L Cal C.
    rewrite (save_income_stored conn q src d L).
    destruct (calendar_month_summary td (add_income conn q src (PyDate d)) t
                Cal C) as (s & R & I & E).
    exists s. split; [exact R|]. split; [|exact E].
    rewrite I. cbn [add_income incomes to_iso].
    exact (stored_total_insert (dated_in_month td (year t) (month t))
             (incomes conn) (mkIncome q src (isoformat d))).
  - intros td conn q cat desc d m L F.
    rewrite (save_expense_stored conn q cat desc d L).
    destruct (unfiltered_summary td (add_expense conn q cat desc (PyDate d))
                m F) as (s & R & I & E).
    exists s. split; [exact R|]. split; [exact I|].
    rewrite E. cbn [add_expense expenses to_iso].
    exact (stored_total_insert (fun _ => true) (expenses conn)
             (mkExpense q cat desc (isoformat d))).
  - intros td conn q cat desc d t L Cal C.
    rewrite (save_expense_stored conn q cat desc d L).
    destruct (calendar_month_summary td
                (add_expense conn q cat desc (PyDate d)) t Cal C)
      as (s & R & I & E).
    exists s. split; [exact R|]. split; [exact I|].
    rewrite E. cbn [add_expense expenses to_iso].
    exact (stored_total_insert (dated_in_month td (year t) (month t))
             (expenses conn) (mkExpense q cat desc (isoformat d))).
Qed.

Lemma saved_entry_is_counted_witness :
  0 < 500
  /\ (forall s t', iso_to_datetime s = Some t' -> in_calendar t')
  /\ in_calendar (mkTs 2024 1 1)
  /\ exists s,
       monthly_summary iso_to_datetime
         (fst (save_income_btn jan_2024 500 "Bonus" (mkDate 2024 1 20)))
         (Some "2024-01") = Ok s
       /\ income s == 1000500.
Proof.
  assert (L : 0 < 500) by reflexivity.
  assert (C : in_calendar (mkTs 2024 1 1)) by (unfold in_calendar; simpl; lia).
  split; [exact L|]. split; [exact iso_to_datetime_in_calendar|].
  split; [exact C|].
  destruct (proj1 (proj2 saved_entry_is_counted) iso_to_datetime jan_2024 500
              "Bonus" (mkDate 2024 1 20) (mkTs 2024 1 1) L
              iso_to_datetime_in_calendar C) as (s & R & I & _).
  exists s. split; [exact R|]. rewrite I. vm_compute. reflexivity.
Defined.

(** X6. A deleted entry is no longer counted.  In the state after the delete
    button of "Riwayat" was pressed with the positive id of a listed income,
    in a database with distinct ids, [monthly_summary] under an absent or
    empty month argument has the income total of the rows stored before minus
    the row's amount; on calendar timestamps the summary of a month has the
    income total of the rows stored before that are dated in that month,
    minus the amount exactly when the deleted row is dated in that month.  The
    expense totals are those of the stored expenses.  The same for a deleted
    expense. *)
Theorem deleted_entry_is_uncounted :
  (forall to_datetime to_datetime' conn id a (m : option string),
      db_ok conn -> In (id, a) (rows (incomes conn)) -> (0 < id)%Z ->
      m = None \/ m = Some "" ->
      exists s,
        monthly_summary to_datetime'
          (fst (del_inc_btn to_datetime conn id)) m = Ok s
        /\ income s == stored_total (fun _ => true) (incomes conn) - i_amount a
        /\ expense s == stored_total (fun _ => true) (expenses conn))
  /\ (forall to_datetime to_datetime' conn id a (t : Timestamp),
        db_ok conn -> In (id, a) (rows (incomes conn)) -> (0 < id)%Z ->
        (forall s t', to_datetime' s = Some t' -> in_calendar t') ->
        in_calendar t ->
        exists s,
          monthly_summary to_datetime'
            (fst (del_inc_btn to_datetime conn id)) (Some (strftime_Ym t))
          = Ok s
          /\ income s
             == stored_total (dated_in_month to_datetime' (year t) (month t))
                  (incomes conn)
                - (if dated_in_month to_datetime' (year t) (month t) a
                   then i_amount a else 0)
          /\ expense s
             == stored_total (dated_in_month to_datetime' (year t) (month t))
                  (expenses conn))
  /\ (forall to_datetime to_datetime' conn id a (m : option string),
        db_ok conn -> In (id, a) (rows (expenses conn)) -> (0 < id)%Z ->
        m = None \/ m = Some "" ->
        exists s,
          monthly_summary to_datetime'
            (fst (del_exp_btn to_datetime conn id)) m = Ok s
          /\ income s == stored_total (fun _ => true) (incomes conn)
          /\ expense s
             == stored_total (fun _ => true) (expenses conn) - e_amount a)
  /\ (forall to_datetime to_datetime' conn id a (t : Timestamp),
        db_ok conn -> In (id, a) (rows (expenses conn)) -> (0 < id)%Z ->
        (forall s t', to_datetime' s = Some t' -> in_calendar t') ->
        in_calendar t ->
        exists s,
          monthly_summary to_datetime'
            (fst (del_exp_btn to_datetime conn id)) (Some (strftime_Ym t))
          = Ok s
          /\ income s
             == stored_total (dated_in_month to_datetime' (year t) (month t))
                  (incomes conn)
          /\ expense s
             == stored_total (dated_in_month to_datetime' (year t) (month t))
                  (expenses conn)
                - (if dated_in_month to_datetime' (year t) (month t) a
                   then e_amount a else 0)).
Proof.
  assert (Di : forall td conn id a,
             In (id, a) (rows (incomes conn)) -> (0 < id)%Z ->
             fst (del_inc_btn td conn id)
             = mkDB (Storage.delete (incomes conn) id) (expenses conn)
                    (targets conn)).
  { intros td conn id a I P.
    assert (B : empty (get_all_incomes td conn) = false).
    { pose proof (query_length td i_the_date i_the_date (rows (incomes conn)))
        as Len.
      unfold get_all_incomes. destruct (query_df _ _ _); [|reflexivity].
      destruct (rows (incomes conn)); [destruct I | discriminate Len]. }
    unfold del_inc_btn. rewrite B. apply Z.ltb_lt in P. now rewrite P. }
  assert (De : forall td conn id a,
             In (id, a) (rows (expenses conn)) -> (0 < id)%Z ->
             fst (del_exp_btn td conn id)
             = mkDB (incomes conn) (Storage.delete (expenses conn) id)
                    (targets conn)).
  { intros td conn id a I P.
    assert (B : empty (get_all_expenses td conn) = false).
    { pose proof (query_length td e_the_date e_the_date (rows (expenses conn)))
        as Len.
      unfold get_all_expenses. destruct (query_df _ _ _); [|reflexivity].
      destruct (rows (expenses conn)); [destruct I | discriminate Len]. }
    unfold del_exp_btn. rewrite B. apply Z.ltb_lt in P. now rewrite P. }
  split; [|split; [|split]].
  - intros td td' conn id a m ((Ni & _) & _) I P F.
    rewrite (Di td conn id a I P).
    set (c' := mkDB _ _ _).
    destruct (unfiltered_summary td' c' m F) as (s & R & Hi & He).
    unfold c' in *.
    exists s. split; [exact R|]. split; [|exact He].
    rewrite Hi. cbn [incomes].
    rewrite (stored_total_delete (fun _ => true) (incomes conn) id a Ni I).
    reflexivity.
  - intros td td' conn id a t ((Ni & _) & _) I P Cal C.
    rewrite (Di td conn id a I P).
    set (c' := mkDB _ _ _).
    destruct (calendar_month_summary td' c' t Cal C) as (s & R & Hi & He).
    unfold c' in *.
    exists s. split; [exact R|]. split; [|exact He].
    rewrite Hi. cbn [incomes].
    rewrite (stored_total_delete _ (incomes conn) id a Ni I). reflexivity.
  - intros td td' conn id a m (_ & (Ne & _) & _) I P F.
    rewrite (De td conn id a I P).
    set (c' := mkDB _ _ _).
    destruct (unfiltered_summary td' c' m F) as (s & R & Hi & He).
    unfold c' in *.
    exists s. split; [exact R|]. split; [exact Hi|].
    rewrite He. cbn [expenses].
    rewrite (stored_total_delete (fun _ => true) (expenses conn) id a Ne I).
    reflexivity.
  - intros td td' conn id a t (_ & (Ne & _) & _) I P Cal C.
    rewrite (De td conn id a I P).
    set (c' := mkDB _ _ _).
    destruct (calendar_month_summary td' c' t Cal C) as (s & R & Hi & He).
    unfold c' in *.
    exists s. split; [exact R|]. split; [exact Hi|].
    rewrite He. cbn [expenses].
    rewrite (stored_total_delete _ (expenses conn) id a Ne I). reflexivity.
Qed.

Lemma deleted_entry_is_uncounted_witness :
  db_ok jan_2024
  /\ In (1%Z, mkIncome 1000000 "Gaji" "2024-01-10") (rows (incomes jan_2024))
  /\ exists s,
       monthly_summary iso_to_datetime
         (fst (del_inc_btn iso_to_datetime jan_2024 1)) None = Ok s
       /\ income s == 0.
Proof.
  assert (K : db_ok jan_2024).
  { split; [|split];
      (split; simpl;
       [repeat (constructor; [simpl; tauto|]); constructor
       |repeat (constructor; [lia|]); constructor]). }
  assert (I : In (1%Z, mkIncome 1000000 "Gaji" "2024-01-10")
                 (rows (incomes jan_2024))) by (left; reflexivity).
  split; [exact K|]. split; [exact I|].
  destruct (proj1 deleted_entry_is_uncounted iso_to_datetime iso_to_datetime
              jan_2024 1%Z (mkIncome 1000000 "Gaji" "2024-01-10") None K I
              eq_refl (or_introl eq_refl))
    as (s & R & Hi & _).
  exists s. split; [exact R|]. rewrite Hi. vm_compute. reflexivity.
Defined.

(** ** Groups add up to the whole *)

Lemma total_of_keyed_add (f h : string -> Q) (ks : list string) :
  total_of (map (fun k => (k, f k + h k)) ks)
  == total_of (map (fun k => (k, f k)) ks)
     + total_of (map (fun k => (k, h k)) ks).
Proof.
  unfold total_of. induction ks as [|k ks IH]; simpl; [ring|].
  rewrite IH. ring.
Qed.

Lemma total_of_keyed_ext (f h : string -> Q) (ks : list string) :
  (forall k, In k ks -> f k == h k) ->
  total_of (map (fun k => (k, f k)) ks)
  == total_of (map (fun k => (k, h k)) ks).
Proof.
  unfold total_of. induction ks as [|k ks IH]; simpl; intros E; [reflexivity|].
  rewrite (E k (or_introl eq_refl)), IH; [reflexivity|].
  intros k' I. apply E. now right.
Qed.

Lemma total_of_perm (l1 l2 : list (string * Q)) :
  Permutation l1 l2 -> total_of l1 == total_of l2.
Proof.
  unfold total_of.
  induction 1 as [|x l1 l2 P IH|x y l|l1 l2 l3 P1 IH1 P2 IH2]; simpl.
  - reflexivity.
  - now rewrite IH.
  - ring.
  - now rewrite IH1.
Qed.

Section Groups.

Context {A : Type} `{EntryColumns A}.

Variable g : string -> DfRow A -> bool.

Hypothesis g_disjoint :
  forall r k k', g k r = true -> g k' r = true -> k = k'.

Lemma group_count (r : DfRow A) (a : Q) (ks : list string) :
  NoDup ks ->
  total_of (map (fun k => (k, if g k r then a else 0)) ks)
  == if existsb (fun k => g k r) ks then a else 0.
Proof.
  unfold total_of. induction 1 as [|k ks N _ IH]; simpl; [reflexivity|].
  rewrite IH. destruct (g k r) eqn:G; simpl; [|ring].
  assert (E : existsb (fun k' => g k' r) ks = false).
  { destruct (existsb (fun k' => g k' r) ks) eqn:B; [|reflexivity].
    apply existsb_exists in B. destruct B as (k' & I' & G').
    rewrite (g_disjoint r k k' G G') in N. contradiction. }
  rewrite E. ring.
Qed.

Lemma groups_sum (ks : list string) (df : DataFrame A) :
  NoDup ks ->
  total_of (map (fun k => (k, sum_amount (filter (g k) df))) ks)
  == sum_amount (filter (fun r => existsb (fun k => g k r) ks) df).
Proof.
  intros N. induction df as [|r df IH]; simpl.
  - unfold total_of. induction ks as [|k ks IHk]; simpl; [reflexivity|].
    inversion N; subst. rewrite IHk by assumption. reflexivity.
  - rewrite (total_of_keyed_ext
               (fun k => sum_amount (filter (g k) (r :: df)))
               (fun k => (if g k r then amount (df_raw r) else 0)
                         + sum_amount (filter (g k) df))).
    + rewrite total_of_keyed_add, IH, (group_count r _ ks N).
      destruct (existsb (fun k => g k r) ks); simpl; ring.
    + intros k _. simpl. destruct (g k r); simpl; ring.
Qed.

Lemma filter_all (p : DfRow A -> bool) (df : DataFrame A) :
  (forall r, In r df -> p r = true) -> filter p df = df.
Proof.
  induction df as [|r df IH]; simpl; intros E; [reflexivity|].
  rewrite (E r (or_introl eq_refl)). f_equal. apply IH.
  intros r' I. apply E. now right.
Qed.

End Groups.

(** ** [sort_values("amount", ascending=False)] *)

Lemma insert_amount_desc_perm (x : string * Q) (l : list (string * Q)) :
  Permutation (insert_amount_desc x l) (x :: l).
Proof.
  induction l as [|y l IH]; simpl; [apply Permutation_refl|].
  destruct (Qltb (snd y) (snd x)); [apply Permutation_refl|].
  eapply perm_trans; [apply perm_skip, IH | apply perm_swap].
Qed.

Lemma sort_values_amount_desc_perm (l : list (string * Q)) :
  Permutation (sort_values_amount_desc l) l.
Proof.
  induction l as [|x l IH]; simpl; [apply perm_nil|].
  eapply perm_trans; [apply insert_amount_desc_perm | now apply perm_skip].
Qed.

Lemma insert_amount_desc_sorted (x : string * Q) (l : list (string * Q)) :
  amounts_descending l -> amounts_descending (insert_amount_desc x l).
Proof.
  unfold amounts_descending.
  induction 1 as [|y l S IH F]; simpl; [repeat constructor|].
  destruct (Qltb (snd y) (snd x)) eqn:B.
  - apply Qltb_true in B. constructor; [now constructor|].
    constructor; [lra|]. eapply Forall_impl; [|exact F]. simpl. intros z. lra.
  - apply Qltb_false in B. constructor; [exact IH|].
    apply Forall_forall. intros z Iz.
    apply (Permutation_in _ (insert_amount_desc_perm x l)) in Iz.
    destruct Iz as [<- | Iz]; [exact B|].
    rewrite Forall_forall in F. now apply F.
Qed.

Lemma sort_values_amount_desc_sorted (l : list (string * Q)) :
  amounts_descending (sort_values_amount_desc l).
Proof.
  induction l as [|x l IH]; simpl; [constructor|].
  now apply insert_amount_desc_sorted.
Qed.

(** ** Breakdown by category and by source *)

Section LabelFacts.

Context {A : Type} `{EntryColumns A}.

Variable label : A -> string.

Lemma has_label_disjoint (r : DfRow A) (k k' : string) :
  has_label label k r = true -> has_label label k' r = true -> k = k'.
Proof.
  unfold has_label. intros E E'.
  apply String.eqb_eq in E. apply String.eqb_eq in E'. congruence.
Qed.

Lemma groupby_label_total (df : DataFrame A) :
  total_of (groupby_label_sum label df) == sum_amount df.
Proof.
  unfold groupby_label_sum.
  rewrite (groups_sum (has_label label) has_label_disjoint).
  - rewrite filter_all; [reflexivity|]. intros r I.
    apply existsb_exists. exists (label (df_raw r)). split.
    + apply (proj2 (In_sorted_set _ _)).
      now apply (in_map (fun r => label (df_raw r))).
    + unfold has_label. apply String.eqb_refl.
  - apply strict_sorted_NoDup, sorted_set_strict.
Qed.

(** The grouped and sorted frame over [df]. *)
Lemma label_summary_facts (df : DataFrame A) :
  let summary := sort_values_amount_desc (groupby_label_sum label df) in
  total_of summary == sum_amount df
  /\ NoDup (map fst summary)
  /\ (forall c, In c (map fst summary)
                <-> exists r, In r df /\ label (df_raw r) = c)
  /\ Forall (fun x => snd x
                      == sum_amount (filter (has_label label (fst x)) df))
            summary
  /\ amounts_descending summary.
Proof.
  intros summary.
  assert (P : Permutation summary (groupby_label_sum label df))
    by apply sort_values_amount_desc_perm.
  assert (K : map fst (groupby_label_sum label df)
              = sorted (py_set (map (fun r => label (df_raw r)) df))).
  { unfold groupby_label_sum. rewrite map_map. simpl. apply map_id. }
  split; [|split; [|split; [|split]]].
  - rewrite (total_of_perm _ _ P). apply groupby_label_total.
  - apply (Permutation_NoDup (Permutation_sym (Permutation_map fst P))).
    rewrite K. apply strict_sorted_NoDup, sorted_set_strict.
  - intros c. split.
    + intros I. apply (Permutation_in _ (Permutation_map fst P)) in I.
      rewrite K in I. apply (proj1 (In_sorted_set _ _)) in I.
      apply in_map_iff in I.
      destruct I as (r & E & I). now exists r.
    + intros (r & I & E).
      apply (Permutation_in _ (Permutation_sym (Permutation_map fst P))).
      rewrite K. apply (proj2 (In_sorted_set _ _)). rewrite <- E.
      now apply (in_map (fun r => label (df_raw r))).
  - apply Forall_forall. intros x I. apply (Permutation_in _ P) in I.
    unfold groupby_label_sum in I. apply in_map_iff in I.
    destruct I as (k & <- & _). reflexivity.
  - apply sort_values_amount_desc_sorted.
Qed.

End LabelFacts.


Section BreakdownFacts.

Variable to_datetime : string -> option Timestamp.

Lemma In_queried {A} (date_col key : A -> string) (t : Table A)
  (label : A -> string) (c : string) :
  (exists r, In r (query_df to_datetime date_col
                     (Storage.order_by_desc key (rows t)))
             /\ label (df_raw r) = c)
  <-> exists r, In r (rows t) /\ label (snd r) = c.
Proof.
  unfold query_df. split.
  - intros (r & I & E). apply in_map_iff in I. destruct I as (r0 & <- & I0).
    exists r0. split; [|exact E].
    eapply Permutation_in; [apply order_by_desc_perm | exact I0].
  - intros (r0 & I0 & E).
    exists (mkRow (fst r0) (snd r0) (to_datetime (date_col (snd r0)))).
    split; [|exact E].
    apply (in_map (fun r => mkRow (fst r) (snd r)
                              (to_datetime (date_col (snd r))))).
    eapply Permutation_in;
      [apply Permutation_sym, order_by_desc_perm | exact I0].
Qed.

Lemma label_sum_stored {A} `{EntryColumns A} (t : Table A)
  (label : A -> string) (c : string) :
  sum_amount
    (filter (has_label label c)
       (query_df to_datetime the_date
          (Storage.order_by_desc the_date (rows t))))
  == stored_total (fun a => String.eqb (label a) c) t.
Proof.
  rewrite <- (table_eta t) at 2.
  rewrite (sum_filter_query to_datetime the_date (has_label label c)
             (fun a => String.eqb (label a) c) _ (autoinc t)).
  - apply stored_total_perm, order_by_desc_perm.
  - intros r. reflexivity.
Qed.

Lemma frame_total_stored {A} `{EntryColumns A} (t : Table A) :
  sum_amount (query_df to_datetime the_date
                (Storage.order_by_desc the_date (rows t)))
  == stored_total (fun _ => true) t.
Proof.
  rewrite <- (table_eta t) at 2.
  rewrite (sum_query to_datetime the_date _ (autoinc t)).
  apply stored_total_perm, order_by_desc_perm.
Qed.

Lemma frame_empty_iff {A} (date_col key : A -> string) (t : Table A) :
  empty (query_df to_datetime date_col (Storage.order_by_desc key (rows t)))
  = empty (rows t).
Proof.
  pose proof (query_length to_datetime date_col key (rows t)) as L.
  destruct (query_df _ _ _), (rows t); simpl in *; congruence.
Qed.

End BreakdownFacts.



(** X8. "Pemasukan per Sumber" shows nothing over an empty income table;
    otherwise one row per source that occurs, each with the sum of the stored
    incomes of that source, the amounts never ascending, and the rows add up
    to the total income. *)
Theorem source_breakdown :
  forall to_datetime conn,
    (rows (incomes conn) = [] ->
     pemasukan_per_sumber to_datetime conn = None)
    /\ (rows (incomes conn) <> [] ->
        exists srcs,
          pemasukan_per_sumber to_datetime conn = Some srcs
          /\ total_of srcs == stored_total (fun _ => true) (incomes conn)
          /\ NoDup (map fst srcs)
          /\ (forall c, In c (map fst srcs)
                        <-> exists r, In r (rows (incomes conn))
                                      /\ i_source (snd r) = c)
          /\ Forall (fun x =>
                       snd x
                       == stored_total
                            (fun i => String.eqb (i_source i) (fst x))
                            (incomes conn)) srcs
          /\ amounts_descending srcs).
Proof.
  intros td conn. unfold pemasukan_per_sumber.
  pose proof (frame_empty_iff td i_the_date i_the_date (incomes conn)) as Em.
  change (empty (get_all_incomes td conn) = empty (rows (incomes conn))) in Em.
  rewrite Em. split.
  - intros ->. reflexivity.
  - intros Ne. destruct (rows (incomes conn)) as [|r0 l0] eqn:Rw;
      [congruence|]. cbn [empty]. rewrite <- Rw. clear Ne.
    destruct (label_summary_facts i_source (get_all_incomes td conn))
      as (Tot & Nd & Mem & Cells & Desc).
    eexists. split; [reflexivity|].
    split; [|split; [exact Nd|split; [|split; [|exact Desc]]]].
    + rewrite Tot. exact (frame_total_stored td (incomes conn)).
    + intros c. rewrite Mem.
      exact (In_queried td i_the_date i_the_date (incomes conn) i_source c).
    + eapply Forall_impl; [|exact Cells]. intros x Hx. rewrite Hx.
      exact (label_sum_stored td (incomes conn) i_source (fst x)).
Qed.

Lemma source_breakdown_witness :
  rows (incomes two_categories) <> []
  /\ exists srcs,
       pemasukan_per_sumber iso_to_datetime two_categories = Some srcs
       /\ total_of srcs == 1000.
Proof.
  assert (N : rows (incomes two_categories) <> []) by discriminate.
  split; [exact N|].
  destruct (proj2 (source_breakdown iso_to_datetime two_categories) N)
    as (srcs & R & T & _).
  exists srcs. split; [exact R|]. rewrite T. vm_compute. reflexivity.
Defined.

(** ** The monthly frame against the summaries *)

Section SeriesSummary.

Variable to_datetime : string -> option Timestamp.

Lemma series_keys (conn : DB) :
  forall k,
    In k (map ym (prepare_monthly_df to_datetime conn)) -> k <> "".
Proof.
  intros k I.
  destruct (prepare_monthly_df_run to_datetime conn) as (keys & R & _ & M).
  rewrite R, map_map in I. simpl in I. rewrite map_id in I. apply M in I.
  destruct I as [(_ & t & _ & _ & <-) | (_ & t & _ & _ & <-)];
    apply strftime_Ym_not_empty.
Qed.

(** Every row of the monthly frame carries the totals of [monthly_summary]
    for its month. *)
Lemma series_row_summary (conn : DB) :
  Forall (fun row =>
            exists s,
              monthly_summary to_datetime conn (Some (ym row)) = Ok s
              /\ income s == m_income row /\ expense s == m_expense row
              /\ saved s == m_income row - m_expense row)
         (prepare_monthly_df to_datetime conn).
Proof.
  apply Forall_forall. intros row I.
  assert (N : Some (ym row) <> Some "").
  { intros E. injection E as E.
    apply (series_keys conn (ym row)); [now apply in_map | exact E]. }
  destruct (monthly_summary_totals to_datetime conn (Some (ym row)) N)
    as (s & R & Hi & He & Sv & _).
  exists s. split; [exact R|].
  destruct (prepare_monthly_df_run to_datetime conn) as (keys & Rr & _ & _).
  rewrite Rr in I. apply in_map_iff in I. destruct I as (k & <- & _).
  simpl in *. rewrite !merged_cell.
  assert (Ei : income s
               == sum_amount
                    (filter (in_period k)
                       (dropna (get_all_incomes to_datetime conn)))).
  { rewrite Hi. symmetry.
    exact (bucket_sum_stored to_datetime (incomes conn) k). }
  assert (Ee : expense s
               == sum_amount
                    (filter (in_period k)
                       (dropna (get_all_expenses to_datetime conn)))).
  { rewrite He. symmetry.
    exact (bucket_sum_stored to_datetime (expenses conn) k). }
  split; [exact Ei|]. split; [exact Ee|]. rewrite Sv, Ei, Ee. reflexivity.
Qed.

(** The streak sequence, whatever the threshold. *)
Lemma consecutive_saving_months_seq (conn : DB) :
  exists seq,
    (forall threshold_rate,
        consecutive_saving_months to_datetime conn threshold_rate
        = Ok (streak_loop threshold_rate (rev seq) 0, seq))
    /\ map fst seq = map ym (prepare_monthly_df to_datetime conn)
    /\ Forall (fun p => exists s,
                   monthly_summary to_datetime conn (Some (fst p)) = Ok s
                   /\ snd p = saving_rate s) seq.
Proof.
  destruct (consecutive_saving_months_run to_datetime conn 0)
    as (seq & R & K & F).
  exists seq. split; [|split; [|exact F]].
  - intros thr.
    destruct (consecutive_saving_months_run to_datetime conn thr)
      as (seq' & R' & K' & F').
    unfold consecutive_saving_months in *.
    destruct (empty (get_all_incomes to_datetime conn)
              && empty (get_all_expenses to_datetime conn)).
    + injection R as _ <-. reflexivity.
    + destruct (mapM _ _) as [sq|e]; [|discriminate R].
      simpl in *. injection R as _ <-. reflexivity.
  - rewrite K.
    destruct (prepare_monthly_df_run to_datetime conn) as (keys & Rr & S & M).
    rewrite Rr, map_map. simpl. rewrite map_id.
    apply strict_sorted_unique; [apply sorted_set_strict | exact S |].
    intros m. rewrite In_months, M. reflexivity.
Qed.

End SeriesSummary.

(** X9. The monthly frame and the summaries agree: every row of
    [prepare_monthly_df] carries the income and expense totals that
    [monthly_summary] returns for the row's month, and the sequence of
    [consecutive_saving_months] has exactly the months of the frame, in the
    same order, each with the saving rate of that summary. *)
Theorem series_matches_summaries :
  forall to_datetime conn threshold_rate,
    Forall (fun row =>
              exists s,
                monthly_summary to_datetime conn (Some (ym row)) = Ok s
                /\ income s == m_income row /\ expense s == m_expense row
                /\ saved s == m_income row - m_expense row)
           (prepare_monthly_df to_datetime conn)
    /\ exists count seq,
         consecutive_saving_months to_datetime conn threshold_rate
         = Ok (count, seq)
         /\ map fst seq = map ym (prepare_monthly_df to_datetime conn)
         /\ Forall (fun p => exists s,
                        monthly_summary to_datetime conn (Some (fst p)) = Ok s
                        /\ snd p = saving_rate s) seq.
Proof.
  intros td conn thr. split; [apply series_row_summary|].
  destruct (consecutive_saving_months_seq td conn) as (seq & R & K & F).
  exists (streak_loop thr (rev seq) 0), seq.
  split; [apply R|]. split; [exact K | exact F].
Qed.

Section SeriesTotals.

Variable to_datetime : string -> option Timestamp.

Lemma in_period_disjoint {A} (r : DfRow A) (k k' : string) :
  in_period k r = true -> in_period k' r = true -> k = k'.
Proof.
  unfold in_period. destruct (df_date r); [|discriminate].
  intros E E'. apply String.eqb_eq in E. apply String.eqb_eq in E'.
  congruence.
Qed.

Lemma dropna_total {A} `{EntryColumns A} (t : Table A) :
  sum_amount (dropna (query_df to_datetime the_date
                        (Storage.order_by_desc the_date (rows t))))
  == stored_total (dated to_datetime) t.
Proof.
  unfold dropna. rewrite <- (table_eta t) at 2.
  rewrite (sum_filter_query to_datetime the_date _
             (dated to_datetime) _ (autoinc t)).
  - apply stored_total_perm, order_by_desc_perm.
  - intros r. reflexivity.
Qed.

(** A column of the monthly frame adds up to the dated rows of its table. *)
Lemma column_total {A} `{EntryColumns A} (t : Table A) (keys : list string) :
  NoDup keys ->
  (forall k, has_record to_datetime to_period_M_str k t -> In k keys) ->
  total_of
    (map (fun k =>
            (k, fillna0
                  (lookup k
                     (groupby_ym_sum
                        (dropna (query_df to_datetime the_date
                                   (Storage.order_by_desc the_date
                                      (rows t)))))))) keys)
  == stored_total (dated to_datetime) t.
Proof.
  intros N Cover.
  set (df := dropna _).
  rewrite (total_of_keyed_ext _
             (fun k => sum_amount (filter (in_period k) df)));
    [|intros k _; apply merged_cell].
  rewrite (groups_sum in_period in_period_disjoint keys df N).
  rewrite filter_all; [apply dropna_total|].
  intros r I. apply existsb_exists.
  unfold df, dropna in I. apply filter_In in I. destruct I as [I D].
  destruct (df_date r) as [ts|] eqn:Dr; [|discriminate D].
  exists (to_period_M_str ts). split.
  - apply Cover. apply (In_bucket_keys to_datetime to_period_M_str).
    apply in_flat_map. exists r. split.
    + unfold dropna. apply filter_In. split; [exact I | now rewrite Dr].
    + rewrite Dr. now left.
  - unfold in_period. rewrite Dr. apply String.eqb_refl.
Qed.

End SeriesTotals.

(** X10. The income column of the monthly frame adds up to the stored
    incomes whose date parses, and the expense column to the stored expenses
    whose date parses.  When every stored date parses, the two columns add up
    to the income and expense totals of [monthly_summary()]. *)
Theorem series_adds_up :
  forall to_datetime conn,
    total_of (income_column (prepare_monthly_df to_datetime conn))
    == stored_total (dated to_datetime) (incomes conn)
    /\ total_of (expense_column (prepare_monthly_df to_datetime conn))
       == stored_total (dated to_datetime) (expenses conn)
    /\ ((forall r, In r (rows (incomes conn)) ->
                   to_datetime (i_the_date (snd r)) <> None) ->
        (forall r, In r (rows (expenses conn)) ->
                   to_datetime (e_the_date (snd r)) <> None) ->
        exists s,
          monthly_summary to_datetime conn None = Ok s
          /\ total_of (income_column (prepare_monthly_df to_datetime conn))
             == income s
          /\ total_of (expense_column (prepare_monthly_df to_datetime conn))
             == expense s).
Proof.
  intros td conn.
  destruct (prepare_monthly_df_run td conn) as (keys & R & S & M).
  assert (N : NoDup keys) by now apply strict_sorted_NoDup.
  assert (Ti : total_of (income_column (prepare_monthly_df td conn))
               == stored_total (dated td) (incomes conn)).
  { unfold income_column. rewrite R, map_map. simpl.
    assert (Cover : forall k, has_record td to_period_M_str k (incomes conn)
                              -> In k keys)
      by (intros k Hk; apply M; now left).
    exact (column_total td (incomes conn) keys N Cover). }
  assert (Te : total_of (expense_column (prepare_monthly_df td conn))
               == stored_total (dated td) (expenses conn)).
  { unfold expense_column. rewrite R, map_map. simpl.
    assert (Cover : forall k, has_record td to_period_M_str k (expenses conn)
                              -> In k keys)
      by (intros k Hk; apply M; now right).
    exact (column_total td (expenses conn) keys N Cover). }
  split; [exact Ti|]. split; [exact Te|].
  intros Di De.
  assert (No : @None string <> Some "") by discriminate.
  destruct (monthly_summary_totals td conn None No) as (s & Rs & Hi & He & _).
  exists s. split; [exact Rs|].
  assert (All : forall {A} `{EntryColumns A} (t : Table A),
             (forall r, In r (rows t) -> td (the_date (snd r)) <> None) ->
             stored_total (dated td) t == stored_total (fun _ => true) t).
  { intros A H t D. unfold stored_total.
    induction (rows t) as [|r l IH]; simpl; [reflexivity|].
    unfold dated at 1.
    destruct (td (the_date (snd r))) eqn:E;
      [|exfalso; exact (D r (or_introl eq_refl) E)].
    rewrite IH; [reflexivity|]. intros r' I. apply D. now right. }
  split.
  - rewrite Ti, Hi. exact (All _ _ (incomes conn) Di).
  - rewrite Te, He. exact (All _ _ (expenses conn) De).
Qed.

Lemma series_adds_up_witness :
  (forall r, In r (rows (incomes three_months)) ->
             iso_to_datetime (i_the_date (snd r)) <> None)
  /\ exists s,
       monthly_summary iso_to_datetime three_months None = Ok s
       /\ total_of (income_column
                      (prepare_monthly_df iso_to_datetime three_months))
          == income s.
Proof.
  assert (Di : forall r, In r (rows (incomes three_months)) ->
                         iso_to_datetime (i_the_date (snd r)) <> None).
  { intros r I. vm_compute in I.
    destruct I as [<- | [<- | [<- | []]]]; vm_compute; discriminate. }
  assert (De : forall r, In r (rows (expenses three_months)) ->
                         iso_to_datetime (e_the_date (snd r)) <> None).
  { intros r I. vm_compute in I.
    destruct I as [<- | [<- | [<- | []]]]; vm_compute; discriminate. }
  split; [exact Di|].
  destruct (series_adds_up iso_to_datetime three_months) as (_ & _ & C).
  destruct (C Di De) as (s & R & Hi & _).
  exists s. split; [exact R | exact Hi].
Defined.

(** ** Streak and badge *)

Lemma badge_months_le (n : nat) : (badge_months (badge n) <= n)%nat.
Proof.
  unfold badge.
  destruct (Nat.leb_spec 12 n); [simpl; lia|].
  destruct (Nat.leb_spec 6 n); [simpl; lia|].
  destruct (Nat.leb_spec 3 n); simpl; lia.
Qed.

Lemma badge_months_mono (n2 n1 : nat) :
  (n2 <= n1)%nat -> (badge_months (badge n2) <= badge_months (badge n1))%nat.
Proof.
  intros L. unfold badge.
  repeat match goal with
         | |- context [(?a <=? ?b)%nat] => destruct (Nat.leb_spec a b)
         end; simpl; lia.
Qed.

Lemma SFleb_trans (a b c : spec_float) :
  SFleb a b = true -> SFleb b c = true -> SFleb a c = true.
Proof.
  unfold SFleb, SFcompare.
  destruct a as [sa|sa| |sa ma ea], b as [sb|sb| |sb mb eb],
           c as [sc|sc| |sc mc ec];
    try destruct sa; try destruct sb; try destruct sc;
    try reflexivity; try discriminate;
    change (PosDef.Pos.compare_cont Eq) with Pos.compare;
    repeat match goal with
           | |- context [(?x ?= ?y)%Z] => destruct (Z.compare_spec x y)
           | |- context [Pos.compare ?x ?y] => destruct (Pos.compare_spec x y)
           end; cbn; try reflexivity; try discriminate; intros; exfalso; lia.
Qed.

Lemma float_leb_trans (x y z : float) :
  (x <=? y)%float = true -> (y <=? z)%float = true -> (x <=? z)%float = true.
Proof. rewrite !FloatAxioms.leb_spec. apply SFleb_trans. Qed.

(** The slider's values keep their order as floats. *)
Lemma slider_leb (t1 t2 : Z) :
  (5 <= t1)%Z -> (t1 <= t2)%Z -> (t2 <= 50)%Z ->
  (Binary64.float_of_int t1 <=? Binary64.float_of_int t2)%float = true.
Proof.
  intros L1 L12 L2.
  assert (F : forallb
                (fun a => forallb
                            (fun b => (Binary64.float_of_int (Z.of_nat a)
                                       <=? Binary64.float_of_int
                                             (Z.of_nat (a + b)))%float)
                            (seq 0 46))
                (seq 5 46) = true) by (vm_compute; reflexivity).
  rewrite forallb_forall in F.
  assert (Ia : In (Z.to_nat t1) (seq 5 46)) by (apply in_seq; lia).
  specialize (F _ Ia). rewrite forallb_forall in F.
  assert (Ib : In (Z.to_nat (t2 - t1)) (seq 0 46)) by (apply in_seq; lia).
  specialize (F _ Ib).
  replace (Z.of_nat (Z.to_nat t1)) with t1 in F by lia.
  replace (Z.of_nat (Z.to_nat t1 + Z.to_nat (t2 - t1))) with t2 in F by lia.
  exact F.
Qed.

Lemma binary64_loop_ge (threshold_rate : float) (l : list (string * float))
  (c : nat) :
  (c <= Binary64.streak_loop threshold_rate l c <= c + List.length l)%nat.
Proof.
  destruct (binary64_loop_split threshold_rate l c)
    as (pre & post & E & V & _).
  rewrite V. rewrite E, length_app. lia.
Qed.

Lemma binary64_loop_antitone (t1 t2 : float) (l : list (string * float)) :
  (t1 <=? t2)%float = true ->
  forall c,
    (Binary64.streak_loop t2 l c <= Binary64.streak_loop t1 l c)%nat.
Proof.
  intros L. induction l as [|[m rate] l IH]; intros c; simpl; [lia|].
  destruct (t2 <=? rate)%float eqn:B2.
  - rewrite (float_leb_trans t1 t2 rate L B2). apply IH.
  - destruct (t1 <=? rate)%float; [|lia].
    pose proof (binary64_loop_ge t1 l (c + 1)). lia.
Qed.

(** X11. "Konsistensi Hemat" never raises, at any two thresholds of the
    slider.  Both see the same months.  Raising the threshold never lengthens
    the streak and never gives a better badge; the streak is at most the
    number of months; and a badge is shown only with at least its number of
    months in the streak (3, 6 or 12). *)
Theorem streak_and_badge :
  forall to_datetime add_reduce conn (t1 t2 : Z),
    (5 <= t1)%Z -> (t1 <= t2)%Z -> (t2 <= 50)%Z ->
    exists n1 n2 seq,
      Binary64.konsistensi_hemat to_datetime add_reduce conn t1
      = Ok (n1, badge n1)
      /\ Binary64.konsistensi_hemat to_datetime add_reduce conn t2
         = Ok (n2, badge n2)
      /\ Binary64.consecutive_saving_months to_datetime add_reduce conn
           (Binary64.float_of_int t1) = Ok (n1, seq)
      /\ Binary64.consecutive_saving_months to_datetime add_reduce conn
           (Binary64.float_of_int t2) = Ok (n2, seq)
      /\ (n2 <= n1)%nat
      /\ (badge_months (badge n2) <= badge_months (badge n1))%nat
      /\ (n1 <= List.length seq)%nat
      /\ (badge_months (badge n1) <= n1)%nat.
Proof.
  intros td ar conn t1 t2 L1 L12 L2.
  destruct (binary64_streak_run td ar conn) as (seq & R & _).
  pose proof (R (Binary64.float_of_int t1)) as R1.
  pose proof (R (Binary64.float_of_int t2)) as R2.
  unfold Binary64.konsistensi_hemat. rewrite R1, R2. cbn [bind ret fst].
  eexists. eexists. exists seq.
  split; [reflexivity|]. split; [reflexivity|].
  split; [reflexivity|]. split; [reflexivity|].
  assert (A : (Binary64.streak_loop (Binary64.float_of_int t2) (rev seq) 0
               <= Binary64.streak_loop (Binary64.float_of_int t1) (rev seq) 0)%nat)
    by (apply binary64_loop_antitone; now apply slider_leb).
  split; [exact A|]. split; [now apply badge_months_mono|].
  split; [|apply badge_months_le].
  pose proof (binary64_loop_ge (Binary64.float_of_int t1) (rev seq) 0) as G.
  rewrite length_rev in G. lia.
Qed.

Lemma streak_and_badge_witness :
  (5 <= 10)%Z /\ (10 <= 30)%Z /\ (30 <= 50)%Z
  /\ exists n1 n2,
       Binary64.konsistensi_hemat Binary64.iso_column Binary64.sum_in_order
         Binary64.three_months 10 = Ok (n1, badge n1)
       /\ Binary64.konsistensi_hemat Binary64.iso_column Binary64.sum_in_order
            Binary64.three_months 30 = Ok (n2, badge n2)
       /\ (n2 <= n1)%nat.
Proof.
  assert (L1 : (5 <= 10)%Z) by lia.
  assert (L12 : (10 <= 30)%Z) by lia.
  assert (L2 : (30 <= 50)%Z) by lia.
  split; [exact L1|]. split; [exact L12|]. split; [exact L2|].
  destruct (streak_and_badge Binary64.iso_column Binary64.sum_in_order
              Binary64.three_months 10 30 L1 L12 L2)
    as (n1 & n2 & seq & R1 & R2 & _ & _ & A & _).
  exists n1, n2. split; [exact R1|]. split; [exact R2 | exact A].
Defined.

(** ** Target progress *)

Lemma percent_at_least_100 (a t : Q) :
  0 < t -> (100 <= a / t * 100 <-> t <= a).
Proof.
  intros T.
  assert (E : a / t * 100 * t == 100 * a) by (field; lra).
  split; intros H.
  - assert (M : 100 * t <= a / t * 100 * t)
      by (apply Qmult_le_compat_r; [exact H | lra]).
    rewrite E in M. lra.
  - apply (Qmult_le_r _ _ t T). rewrite E. lra.
Qed.

Section CardFacts.

Variable to_datetime : string -> option Timestamp.

Lemma progress_percent_facts (conn : DB) (target : Target) :
  exists total_saved percent,
    compute_progress_against_target to_datetime conn target
    = Ok (total_saved, percent)
    /\ total_saved
       = sum_amount (get_all_incomes to_datetime conn)
         - sum_amount (get_all_expenses to_datetime conn)
    /\ 0 <= percent <= 100
    /\ (100 <= percent
        <-> 0 < t_target_amount target
            /\ t_target_amount target <= total_saved).
Proof.
  unfold compute_progress_against_target.
  set (sv := sum_amount _ - sum_amount _).
  destruct (Qltb 0 (t_target_amount target)) eqn:B.
  - apply Qltb_true in B. rewrite div_ok by lra. cbn [bind ret].
    eexists. eexists. split; [reflexivity|]. split; [reflexivity|].
    split; [rewrite clamp_min_max; apply clamp_bounds|].
    rewrite clamp_min_max.
    rewrite <- (percent_at_least_100 sv (t_target_amount target) B).
    unfold clamp.
    destruct (Qlt_le_dec (sv / t_target_amount target * 100) 0);
      [split; [lra | intros [_ H]; lra]|].
    destruct (Qlt_le_dec 100 (sv / t_target_amount target * 100));
      split; try tauto; try lra; intros; split; try assumption; lra.
  - apply Qltb_false in B. cbn [bind ret].
    eexists. eexists. split; [reflexivity|]. split; [reflexivity|].
    split; [lra|]. split; [lra | intros [H _]; lra].
Qed.

End CardFacts.

(** ** One savings figure *)

(** X13. The dashboard, [monthly_summary()], the target progress and the
    simulation all work with one and the same figures: the totals of the
    dashboard are the income, expense and saved fields of [monthly_summary()],
    and that saved value is the one [compute_progress_against_target] returns
    for any target and the simulation's [saved_now]. *)
Theorem one_savings_figure :
  forall to_datetime conn,
    exists s,
      monthly_summary to_datetime conn None = Ok s
      /\ ringkasan to_datetime conn = (income s, expense s, saved s)
      /\ (forall target,
             exists percent,
               compute_progress_against_target to_datetime conn target
               = Ok (saved s, percent))
      /\ (forall reduction sim p,
             simulasi to_datetime conn reduction = Ok sim ->
             projection sim = Some p -> saved_now p = saved s).
Proof.
  intros td conn.
  assert (G : forall {A} `{EntryColumns A} (df : DataFrame A),
             (if empty df then 0 else sum_amount df) = sum_amount df)
    by (intros A H df; now destruct df).
  destruct (monthly_summary_run td conn None) as (s & R & _).
  exists s. split; [exact R|].
  assert (Fields :
    income s = sum_amount (get_all_incomes td conn)
    /\ expense s = sum_amount (get_all_expenses td conn)
    /\ saved s = sum_amount (get_all_incomes td conn)
                 - sum_amount (get_all_expenses td conn)).
  { unfold monthly_summary in R. cbn [filter_month] in R.
    rewrite !G in R.
    destruct (Qltb 0 (sum_amount (get_all_incomes td conn)));
      [destruct (div _ _); [|discriminate R]|];
      cbn [bind ret] in R; injection R as <-; repeat split. }
  destruct Fields as (Fi & Fe & Fs).
  split; [|split].
  - unfold ringkasan. rewrite !G, Fi, Fe, Fs. reflexivity.
  - intros target.
    destruct (progress_percent_facts td conn target)
      as (sv & pct & Rp & Sv & _).
    exists pct. rewrite Rp, Sv, Fs. reflexivity.
  - intros r sim p Rs Pj. unfold simulasi in Rs.
    destruct (average (get_all_incomes td conn)); [|discriminate Rs].
    destruct (average (get_all_expenses td conn)); [|discriminate Rs].
    cbn [bind] in Rs.
    destruct (get_targets td conn) as [|t0 ts].
    + injection Rs as <-. discriminate Pj.
    + destruct (div (inject_Z r) 100); [|discriminate Rs]. cbn [bind] in Rs.
      destruct (Qltb 0 _); [destruct (div _ _); [|discriminate Rs]|];
        cbn [bind ret] in Rs; injection Rs as <-; injection Pj as <-;
        rewrite Fs; reflexivity.
Qed.

Lemma one_savings_figure_witness :
  exists s sim p,
    monthly_summary iso_to_datetime small_target None = Ok s
    /\ simulasi iso_to_datetime small_target 10 = Ok sim
    /\ projection sim = Some p
    /\ saved_now p = saved s.
Proof.
  destruct (one_savings_figure iso_to_datetime small_target)
    as (s & R & _ & _ & S).
  destruct (simulasi iso_to_datetime small_target 10) as [sim|e] eqn:Rs;
    [|exfalso; vm_compute in Rs; discriminate Rs].
  destruct (projection sim) as [p|] eqn:Pj;
    [|exfalso; vm_compute in Rs; injection Rs as <-; discriminate Pj].
  exists s, sim, p. split; [exact R|]. split; [reflexivity|].
  split; [exact Pj|]. exact (S 10%Z sim p Rs Pj).
Defined.

(** ** The order of a listing *)

(** X14. A listing returns every stored row exactly once, the text key of
    its [ORDER BY ... DESC] never ascending: [the_date] for incomes and
    expenses, [created_at] for targets.  So the target the simulation takes
    from the head of the list is a stored target whose creation text no other
    stored target exceeds. *)
Theorem listing_order :
  (forall (A : Type) to_datetime (date_col key : A -> string) (t : Table A),
      Permutation
        (map (fun r => (df_id r, df_raw r))
             (list_all to_datetime date_col key t))
        (rows t)
      /\ keys_descending key
           (map (fun r => (df_id r, df_raw r))
                (list_all to_datetime date_col key t)))
  /\ (forall to_datetime conn t0 rest,
        get_targets to_datetime conn = t0 :: rest ->
        In (df_id t0, df_raw t0) (rows (targets conn))
        /\ forall r, In r (rows (targets conn)) ->
                     ~ slt (t_created_at (df_raw t0)) (t_created_at (snd r))).
Proof.
  assert (G : forall (A : Type) td (date_col key : A -> string) (t : Table A),
      Permutation
        (map (fun r => (df_id r, df_raw r)) (list_all td date_col key t))
        (rows t)
      /\ keys_descending key
           (map (fun r => (df_id r, df_raw r)) (list_all td date_col key t))).
  { intros A td date_col key t. unfold list_all. rewrite query_rows.
    split; [apply order_by_desc_perm | apply order_by_desc_sorted]. }
  split; [exact G|].
  intros td conn t0 rest E.
  destruct (G Target td t_target_date t_created_at (targets conn)) as [P S].
  change (list_all td t_target_date t_created_at (targets conn))
    with (get_targets td conn) in P, S.
  rewrite E in P, S. simpl in P, S. split.
  - apply (Permutation_in _ P). now left.
  - intros r I. apply (Permutation_in _ (Permutation_sym P)) in I.
    inversion S as [|? ? _ F]; subst.
    destruct I as [<- | I]; [apply slt_irrefl|].
    rewrite Forall_forall in F. now apply F.
Qed.

Lemma listing_order_witness :
  exists t0 rest,
    get_targets iso_to_datetime small_target = t0 :: rest
    /\ In (df_id t0, df_raw t0) (rows (targets small_target)).
Proof.
  destruct (get_targets iso_to_datetime small_target) as [|t0 rest] eqn:E;
    [vm_compute in E; discriminate E|].
  exists t0, rest. split; [reflexivity|].
  exact (proj1 (proj2 listing_order iso_to_datetime small_target t0 rest E)).
Defined.

(** ** Date texts *)

Lemma compare_lex8 (a3 a2 a1 a0 e1 e0 g1 g0 b3 b2 b1 b0 f1 f0 h1 h0 : nat) :
  (a2 < 10 -> a1 < 10 -> a0 < 10 -> e0 < 10 -> g0 < 10 ->
   b2 < 10 -> b1 < 10 -> b0 < 10 -> f0 < 10 -> h0 < 10 ->
   match Nat.compare a3 b3 with
   | Eq =>
     match Nat.compare a2 b2 with
     | Eq =>
       match Nat.compare a1 b1 with
       | Eq =>
         match Nat.compare a0 b0 with
         | Eq =>
           match Nat.compare e1 f1 with
           | Eq =>
             match Nat.compare e0 f0 with
             | Eq =>
               match Nat.compare g1 h1 with
               | Eq => match Nat.compare g0 h0 with
                       | Eq => Eq
                       | c => c
                       end
               | c => c
               end
             | c => c
             end
           | c => c
           end
         | c => c
         end
       | c => c
       end
     | c => c
     end
   | c => c
   end
   = match Nat.compare (10 * (10 * (10 * a3 + a2) + a1) + a0)
                       (10 * (10 * (10 * b3 + b2) + b1) + b0) with
     | Eq => match Nat.compare (10 * e1 + e0) (10 * f1 + f0) with
             | Eq => Nat.compare (10 * g1 + g0) (10 * h1 + h0)
             | c => c
             end
     | c => c
     end)%nat.
Proof.
  intros. rewrite !compare_digit_step by assumption.
  destruct (Nat.compare a3 b3); try reflexivity;
    destruct (Nat.compare a2 b2); try reflexivity;
    destruct (Nat.compare a1 b1); try reflexivity;
    destruct (Nat.compare a0 b0); try reflexivity;
    destruct (Nat.compare e1 f1); try reflexivity;
    destruct (Nat.compare e0 f0); try reflexivity;
    destruct (Nat.compare g1 h1); try reflexivity;
    destruct (Nat.compare g0 h0); reflexivity.
Qed.

Lemma isoformat_compare (d1 d2 : Date) :
  widget_date d1 -> widget_date d2 ->
  String.compare (isoformat d1) (isoformat d2) = date_compare d1 d2.
Proof.
  destruct d1 as [y1 m1 x1], d2 as [y2 m2 x2].
  unfold widget_date, date_compare. cbn [d_year d_month d_day].
  intros (Y1 & M1 & X1) (Y2 & M2 & X2).
  assert (B : forall n, (n mod 10 < 10)%nat)
    by (intros n; apply Nat.mod_upper_bound; lia).
  unfold isoformat, fmt_04d, fmt_02d.
  cbn [d_year d_month d_day append String.compare].
  rewrite !digit_compare.
  change (Ascii.compare "-" "-") with Eq. cbv iota.
  rewrite compare_lex8 by apply B.
  rewrite <- (decimal_4 y1 Y1), <- (decimal_4 y2 Y2).
  rewrite <- (decimal_2 m1 M1), <- (decimal_2 m2 M2).
  rewrite <- (decimal_2 x1 X1), <- (decimal_2 x2 X2).
  reflexivity.
Qed.

(** X15. [to_iso] leaves a string as it is and writes a date as text whose
    code-point order is the chronological order of the dates (years of four
    digits); two different dates never get the same text. *)
Theorem to_iso_sorts_like_dates :
  (forall s, to_iso (PyStr s) = s)
  /\ (forall d1 d2,
        widget_date d1 -> widget_date d2 ->
        String.compare (to_iso (PyDate d1)) (to_iso (PyDate d2))
        = date_compare d1 d2)
  /\ (forall d1 d2,
        widget_date d1 -> widget_date d2 ->
        to_iso (PyDate d1) = to_iso (PyDate d2) -> d1 = d2).
Proof.
  split; [reflexivity|]. split.
  - intros d1 d2 W1 W2. cbn [to_iso]. now apply isoformat_compare.
  - intros d1 d2 W1 W2 E. cbn [to_iso] in E.
    pose proof (isoformat_compare d1 d2 W1 W2) as C.
    rewrite E in C.
    assert (R : String.compare (isoformat d2) (isoformat d2) = Eq)
      by now apply String_as_OT.cmp_eq.
    rewrite R in C. unfold date_compare in C.
    destruct d1 as [y1 m1 x1], d2 as [y2 m2 x2].
    cbn [d_year d_month d_day] in C.
    destruct (Nat.compare_spec y1 y2) as [-> | |]; try discriminate C.
    destruct (Nat.compare_spec m1 m2) as [-> | |]; try discriminate C.
    destruct (Nat.compare_spec x1 x2) as [-> | |]; try discriminate C.
    reflexivity.
Qed.

Lemma to_iso_sorts_like_dates_witness :
  widget_date (mkDate 2024 1 31) /\ widget_date (mkDate 2024 2 1)
  /\ String.compare (to_iso (PyDate (mkDate 2024 1 31)))
                    (to_iso (PyDate (mkDate 2024 2 1))) = Lt.
Proof.
  assert (W1 : widget_date (mkDate 2024 1 31))
    by (unfold widget_date; cbn [d_year d_month d_day];
        repeat split; vm_compute; lia).
  assert (W2 : widget_date (mkDate 2024 2 1))
    by (unfold widget_date; cbn [d_year d_month d_day];
        repeat split; vm_compute; lia).
  split; [exact W1|]. split; [exact W2|].
  rewrite (proj1 (proj2 to_iso_sorts_like_dates) _ _ W1 W2).
  vm_compute. reflexivity.
Defined.

(** ** After a reset *)

(** X16. After "Reset semua data" nothing is listed and every view is empty:
    the summaries are zero, the monthly frame and the streak sequence are
    empty, the streak is 0, no category, source or target is shown and the
    simulation shows no projection; nothing raises.  The three counters are
    kept. *)
Theorem after_reset :
  forall to_datetime conn (m : option string) threshold_rate reduction,
    let c := fst (reset_db_btn conn) in
    rows (incomes c) = [] /\ rows (expenses c) = [] /\ rows (targets c) = []
    /\ autoinc (incomes c) = autoinc (incomes conn)
    /\ autoinc (expenses c) = autoinc (expenses conn)
    /\ autoinc (targets c) = autoinc (targets conn)
    /\ (exists s, monthly_summary to_datetime c m = Ok s
                  /\ summary_eq s (mkSummary 0 0 0 0))
    /\ prepare_monthly_df to_datetime c = []
    /\ consecutive_saving_months to_datetime c threshold_rate = Ok (0%nat, [])
    /\ pengeluaran_per_kategori to_datetime c = Ok None
    /\ pemasukan_per_sumber to_datetime c = None
    /\ target_ringkasan to_datetime c = Ok []
    /\ simulasi to_datetime c reduction = Ok (mkSimulasi 0 0 None).
Proof.
  intros td conn m thr r c. unfold c. cbn [reset_db_btn fst].
  repeat (split; [reflexivity|]). split; [|repeat split].
  destruct m as [k|]; [destruct (String.eqb k "") eqn:B|];
    (eexists; split;
     [unfold monthly_summary, filter_month; try rewrite B; reflexivity
     |repeat split; reflexivity]).
Qed.

(** ** The delete buttons *)

Lemma In_rows_delete {A} (t : Table A) (id : Z) (r : Z * A) :
  In r (rows (Storage.delete t id)) <-> In r (rows t) /\ fst r <> id.
Proof.
  unfold Storage.delete. simpl. rewrite filter_In, negb_true_iff, Z.eqb_neq.
  reflexivity.
Qed.

(** X17. A delete button does nothing and shows nothing when the id is 0
    ("batal") or its table is empty.  With a positive id over a non-empty
    table it shows its success message whether or not a row has that id,
    removes exactly the rows with that id from its own table and leaves the
    two other tables as they are. *)
Theorem delete_buttons :
  forall to_datetime conn (id : Z),
    (((id <= 0)%Z \/ rows (incomes conn) = [] ->
      del_inc_btn to_datetime conn id = (conn, []))
     /\ ((0 < id)%Z -> rows (incomes conn) <> [] ->
         snd (del_inc_btn to_datetime conn id)
         = [st_success "Pemasukan dihapus."]
         /\ expenses (fst (del_inc_btn to_datetime conn id)) = expenses conn
         /\ targets (fst (del_inc_btn to_datetime conn id)) = targets conn
         /\ forall r,
              In r (rows (incomes (fst (del_inc_btn to_datetime conn id))))
              <-> In r (rows (incomes conn)) /\ fst r <> id))
    /\ (((id <= 0)%Z \/ rows (expenses conn) = [] ->
         del_exp_btn to_datetime conn id = (conn, []))
        /\ ((0 < id)%Z -> rows (expenses conn) <> [] ->
            snd (del_exp_btn to_datetime conn id)
            = [st_success "Pengeluaran dihapus."]
            /\ incomes (fst (del_exp_btn to_datetime conn id)) = incomes conn
            /\ targets (fst (del_exp_btn to_datetime conn id)) = targets conn
            /\ forall r,
                 In r (rows (expenses (fst (del_exp_btn to_datetime conn id))))
                 <-> In r (rows (expenses conn)) /\ fst r <> id))
    /\ (((id <= 0)%Z \/ rows (targets conn) = [] ->
         del_target_btn to_datetime conn id = (conn, []))
        /\ ((0 < id)%Z -> rows (targets conn) <> [] ->
            snd (del_target_btn to_datetime conn id)
            = [st_success "Target dihapus."]
            /\ incomes (fst (del_target_btn to_datetime conn id))
               = incomes conn
            /\ expenses (fst (del_target_btn to_datetime conn id))
               = expenses conn
            /\ forall r,
                 In r (rows (targets (fst (del_target_btn to_datetime conn id))))
                 <-> In r (rows (targets conn)) /\ fst r <> id)).
Proof.
  intros td conn id.
  pose proof (frame_empty_iff td i_the_date i_the_date (incomes conn)) as Ei.
  pose proof (frame_empty_iff td e_the_date e_the_date (expenses conn)) as Ee.
  pose proof (frame_empty_iff td t_target_date t_created_at (targets conn))
    as Et.
  change (empty (get_all_incomes td conn) = empty (rows (incomes conn))) in Ei.
  change (empty (get_all_expenses td conn) = empty (rows (expenses conn)))
    in Ee.
  change (empty (get_targets td conn) = empty (rows (targets conn))) in Et.
  unfold del_inc_btn, del_exp_btn, del_target_btn, delete_target.
  rewrite Ei, Ee, Et. clear Ei Ee Et.
  split; [|split]; split.
  - intros [L | ->]; [|reflexivity].
    destruct (empty _); [reflexivity|].
    destruct (Z.ltb_spec 0 id); [lia | reflexivity].
  - intros P N. destruct (rows (incomes conn)) eqn:R; [congruence|].
    cbn [empty]. apply Z.ltb_lt in P. rewrite P. cbn [fst snd].
    split; [reflexivity|]. split; [reflexivity|]. split; [reflexivity|].
    intros r. rewrite <- R. apply (In_rows_delete (incomes conn) id r).
  - intros [L | ->]; [|reflexivity].
    destruct (empty _); [reflexivity|].
    destruct (Z.ltb_spec 0 id); [lia | reflexivity].
  - intros P N. destruct (rows (expenses conn)) eqn:R; [congruence|].
    cbn [empty]. apply Z.ltb_lt in P. rewrite P. cbn [fst snd].
    split; [reflexivity|]. split; [reflexivity|]. split; [reflexivity|].
    intros r. rewrite <- R. apply (In_rows_delete (expenses conn) id r).
  - intros [L | ->]; [|reflexivity].
    destruct (empty _); [reflexivity|].
    destruct (Z.ltb_spec 0 id); [lia | reflexivity].
  - intros P N. destruct (rows (targets conn)) eqn:R; [congruence|].
    cbn [empty]. apply Z.ltb_lt in P. rewrite P. cbn [fst snd].
    split; [reflexivity|]. split; [reflexivity|]. split; [reflexivity|].
    intros r. rewrite <- R. apply (In_rows_delete (targets conn) id r).
Qed.

Lemma delete_buttons_witness :
  (0 < 9)%Z /\ rows (incomes jan_2024) <> []
  /\ snd (del_inc_btn iso_to_datetime jan_2024 9)
     = [st_success "Pemasukan dihapus."]
  /\ del_inc_btn iso_to_datetime jan_2024 0 = (jan_2024, []).
Proof.
  assert (P : (0 < 9)%Z) by lia.
  assert (N : rows (incomes jan_2024) <> []) by discriminate.
  assert (Z0 : (0 <= 0)%Z \/ rows (incomes jan_2024) = []) by (left; lia).
  split; [exact P|]. split; [exact N|].
  destruct (delete_buttons iso_to_datetime jan_2024 9) as ((_ & D) & _).
  destruct (delete_buttons iso_to_datetime jan_2024 0) as ((C & _) & _).
  split; [exact (proj1 (D P N)) | exact (C Z0)].
Defined.
